(** * Tabular data-analysis pipeline of the tambo playground

    Shallow embedding of the CSV services of the repository
    ([csv-data], [data-structure-analyzer], [data-insights],
    [exploration-suggestions]) together with the part of the JavaScript
    runtime they rely on.

    - JavaScript numbers are IEEE 754 binary64 values, modelled by the
      standard library's [spec_float] at precision 53 and maximal
      exponent 1024, with the library's correctly rounded operations.
    - JavaScript strings are modelled by [string].  The case mapping
      [String.prototype.toLowerCase] is a parameter ([Casing]); the sample
      inputs are ASCII text and use the mapping of the letters A to Z.
    - A row (a JavaScript object produced by the CSV parser) is a finite
      map from column name to cell value; reading an absent key yields
      [undefined].  Properties inherited from [Object.prototype] are not
      modelled: a statement that reads a key absent from a row assumes
      that the key is none of [inherited_names].
    - [Array.prototype.sort] is a stable insertion sort.  That is the
      arrangement the language prescribes when the comparator is a
      consistent comparison function for the elements
      ([consistent_comparator]); for any other comparator the language
      leaves the order to the engine, and the statements that depend on
      the order assume a consistent comparator.
      [String.prototype.localeCompare] is a parameter of the query engine.
    - The [window] global holding the current dataset and the console are
      the two components of the world state threaded by the monad [M].

    Around the services, the development also embeds the upload component
    ([csv-upload]) and the page handlers that own the store ([page]), the
    refinement heuristics ([component-state], [refinement-helper]) and the
    search, sort, paging and export pipeline of the table component
    ([data-table]).

    - The CSV parser called by the upload component is a parameter: a
      function from a file to the arguments of the callback it invokes.
    - React state is passed explicitly; a handler is a function from the
      state before the event to the state after it. *)

From Stdlib Require Import ZArith String Ascii List Bool Lia.
From Stdlib Require Import DecimalString.
From Stdlib Require Import Floats.SpecFloat.
From Stdlib Require Import Sorting.Sorted.
From stdpp Require Import gmap strings list.

Local Open Scope string_scope.
Local Open Scope Z_scope.

(** ** JavaScript numbers *)

Module JSNumber.

Abbreviation number := spec_float.

Definition prec : Z := 53.
Definition emax : Z := 1024.

Definition pzero : number := S754_zero false.
Definition NaN : number := S754_nan.
Definition Infinity : number := S754_infinity false.

Definition add : number -> number -> number := SFadd prec emax.
Definition sub : number -> number -> number := SFsub prec emax.
Definition mul : number -> number -> number := SFmul prec emax.
Definition div : number -> number -> number := SFdiv prec emax.

(** [x < y], [x > y], [x >= y] of the language: false as soon as one side
    is NaN. *)
Definition lt (x y : number) : bool := SFltb x y.
Definition gt (x y : number) : bool := SFltb y x.
Definition ge (x y : number) : bool := SFleb y x.

(** The number denoted by an integer literal. *)
Definition of_Z (z : Z) : number := binary_normalize prec emax z 0 false.
Definition of_nat (n : nat) : number := of_Z (Z.of_nat n).

(** The number denoted by the decimal [d * 10^k], correctly rounded; this
    is the value of decimal literals such as [0.95] and of decimal
    strings converted to numbers. *)
Definition of_decimal (d : Z) (k : Z) : number :=
  if 0 <=? k then binary_normalize prec emax (d * 10 ^ k) 0 false
  else
    let den := S754_finite false (Z.to_pos (10 ^ (- k))) 0 in
    match d with
    | Z0 => pzero
    | Zpos p => div (S754_finite false p 0) den
    | Zneg p => div (S754_finite true p 0) den
    end.

Definition is_nan (x : number) : bool :=
  match x with S754_nan => true | _ => false end.

Definition is_finite (x : number) : bool :=
  match x with S754_zero _ | S754_finite _ _ _ => true | _ => false end.

(** Truthiness of a number: [+0], [-0] and [NaN] are falsy. *)
Definition truthy (x : number) : bool :=
  match x with S754_zero _ | S754_nan => false | _ => true end.

(** SameValueZero on numbers (used by [Set]). *)
Definition same_value_zero (x y : number) : bool :=
  match x, y with
  | S754_nan, S754_nan => true
  | _, _ => SFeqb x y
  end.

(** [Math.max] and [Math.min] of two numbers. *)
Definition max2 (x y : number) : number :=
  match x, y with
  | S754_nan, _ | _, S754_nan => S754_nan
  | S754_zero sx, S754_zero sy => S754_zero (sx && sy)
  | _, _ => if SFltb x y then y else x
  end.

Definition min2 (x y : number) : number :=
  match x, y with
  | S754_nan, _ | _, S754_nan => S754_nan
  | S754_zero sx, S754_zero sy => S754_zero (sx || sy)
  | _, _ => if SFltb y x then y else x
  end.

Definition Math_max (l : list number) : number :=
  fold_left max2 l (S754_infinity true).
Definition Math_min (l : list number) : number :=
  fold_left min2 l (S754_infinity false).

(** ToIntegerOrInfinity. *)
Inductive integer_or_infinity :=
| NegInfinity
| Finite (z : Z)
| PosInfinity.

Definition ToIntegerOrInfinity (x : number) : integer_or_infinity :=
  match x with
  | S754_nan | S754_zero _ => Finite 0
  | S754_infinity false => PosInfinity
  | S754_infinity true => NegInfinity
  | S754_finite s m e =>
      let a := if 0 <=? e then Z.pos m * 2 ^ e else Z.pos m / 2 ^ (- e) in
      Finite (if s then - a else a)
  end.

(** *** Number::toString (radix 10) *)

Definition digits_of (z : Z) : string := NilZero.string_of_int (Z.to_int z).

Fixpoint zeros (n : nat) : string :=
  match n with
  | O => EmptyString
  | S n' => String "0" (zeros n')
  end.

Definition pow10 (k : Z) : Z := if 0 <=? k then 10 ^ k else 1.
Definition pow2 (k : Z) : Z := if 0 <=? k then 2 ^ k else 1.

(** Comparison of [a * 10^p] with [b * 2^q] for integers [a], [b]. *)
Definition compare_scaled (a p b q : Z) : comparison :=
  (a * pow10 p * pow2 (- q)) ?= (b * pow2 q * pow10 (- p)).

(** The integer [n] with [10^(n-1) <= m * 2^e < 10^n]. *)
Fixpoint decimal_exponent_from (fuel : nat) (m e n : Z) : Z :=
  match fuel with
  | O => n
  | S fuel' =>
      match compare_scaled 1 n m e with
      | Gt => n
      | _ => decimal_exponent_from fuel' m e (n + 1)
      end
  end.

Definition decimal_exponent (m : positive) (e : Z) : Z :=
  let b := Z.pos (digits2_pos m) + e in
  decimal_exponent_from 8 (Z.pos m) e ((b * 1233) / 4096 - 2).

(** Does the real [s * 10^q] round to the number [m * 2^e]?  The bounds of
    the rounding interval are expressed in units of [2^(e-2)]; they belong
    to the interval exactly when the mantissa is even. *)
Definition rounds_to (m : positive) (e : Z) (s q : Z) : bool :=
  let lower :=
    if (Z.pos m =? 2 ^ (prec - 1)) && (emin prec emax <? e)
    then 4 * Z.pos m - 1 else 4 * Z.pos m - 2 in
  let upper := 4 * Z.pos m + 2 in
  let even := Z.even (Z.pos m) in
  let above_lower :=
    match compare_scaled s q lower (e - 2) with
    | Gt => true | Eq => even | Lt => false
    end in
  let below_upper :=
    match compare_scaled s q upper (e - 2) with
    | Lt => true | Eq => even | Gt => false
    end in
  above_lower && below_upper.

(** The quotient [floor (m * 2^e / 10^q)]. *)
Definition floor_scaled (m e q : Z) : Z :=
  (m * pow2 e * pow10 (- q)) / (pow2 (- e) * pow10 q).

(** Distance comparison: is [lo * 10^q] closer to [m * 2^e] than
    [(lo + 1) * 10^q]? *)
Definition closer_low (m e lo q : Z) : comparison :=
  compare_scaled (2 * lo + 1) q (2 * m) e.

(** Search for the shortest digit string: returns [(n, k, s)]. *)
Fixpoint shortest_from (fuel : nat) (m : positive) (e n0 k : Z) : Z * Z * Z :=
  let q := n0 - k in
  let lo := floor_scaled (Z.pos m) e q in
  let hi := lo + 1 in
  let ok_lo := rounds_to m e lo q in
  let ok_hi := rounds_to m e hi q in
  let with_hi := if hi =? 10 ^ k then (n0 + 1, k, 10 ^ (k - 1)) else (n0, k, hi) in
  match fuel with
  | O => (n0, k, lo)
  | S fuel' =>
      if ok_lo && ok_hi then
        match closer_low (Z.pos m) e lo q with
        | Gt => (n0, k, lo)
        | Lt => with_hi
        | Eq => if Z.even lo then (n0, k, lo) else with_hi
        end
      else if ok_lo then (n0, k, lo)
      else if ok_hi then with_hi
      else shortest_from fuel' m e n0 (k + 1)
  end.

Definition shortest (m : positive) (e : Z) : Z * Z * Z :=
  shortest_from 17 m e (decimal_exponent m e) 1.

Definition take_str (n : nat) (s : string) : string := substring 0 n s.
Definition drop_str (n : nat) (s : string) : string :=
  substring n (String.length s - n) s.

Definition format_digits (n k s : Z) : string :=
  let ds := digits_of s in
  if (k <=? n) && (n <=? 21) then ds +:+ zeros (Z.to_nat (n - k))
  else if (0 <? n) && (n <=? 21) then
    take_str (Z.to_nat n) ds +:+ "." +:+ drop_str (Z.to_nat n) ds
  else if (-6 <? n) && (n <=? 0) then "0." +:+ zeros (Z.to_nat (- n)) +:+ ds
  else
    let ex := n - 1 in
    let sign := if ex <? 0 then "-" else "+" in
    let mant := if k =? 1 then ds else take_str 1 ds +:+ "." +:+ drop_str 1 ds in
    mant +:+ "e" +:+ sign +:+ digits_of (Z.abs ex).

Definition toString (x : number) : string :=
  match x with
  | S754_nan => "NaN"
  | S754_zero _ => "0"
  | S754_infinity s => if s then "-Infinity" else "Infinity"
  | S754_finite sg m e =>
      let '(n, k, s) := shortest m e in
      (if sg then "-" else EmptyString) +:+ format_digits n k s
  end.

(** *** Number.prototype.toFixed *)

Definition toFixed (x : number) (f : nat) : string :=
  match x with
  | S754_nan | S754_infinity _ => toString x
  | S754_zero _ =>
      if Nat.eqb f 0 then "0" else "0." +:+ zeros f
  | S754_finite sg m e =>
      match compare_scaled 1 21 (Z.pos m) e with
      | Gt =>
          let num := Z.pos m * pow2 e * 10 ^ Z.of_nat f in
          let den := pow2 (- e) in
          let n := (2 * num + den) / (2 * den) in
          let ds := digits_of n in
          let ds := if Nat.leb (String.length ds) f
                    then zeros (f + 1 - String.length ds) +:+ ds else ds in
          let body :=
            if Nat.eqb f 0 then ds
            else take_str (String.length ds - f) ds +:+ "."
                 +:+ drop_str (String.length ds - f) ds in
          (if sg then "-" else EmptyString) +:+ body
      | _ => toString x
      end
  end.

(** *** StringToNumber

    Strings are read as ASCII: the white space trimmed is TAB, LF, VT, FF,
    CR and SP. *)

Definition is_white_space (c : ascii) : bool :=
  let n := nat_of_ascii c in
  ((Nat.leb 9 n && Nat.leb n 13) || Nat.eqb n 32)%bool.

Fixpoint trim_start (l : list ascii) : list ascii :=
  match l with
  | c :: l' => if is_white_space c then trim_start l' else l
  | [] => []
  end.

Definition trim (l : list ascii) : list ascii :=
  rev (trim_start (rev (trim_start l))).

(** Value of a digit in the given radix, if it is one. *)
Definition digit_value (radix : Z) (c : ascii) : option Z :=
  let n := Z.of_nat (nat_of_ascii c) in
  let v :=
    if (48 <=? n) && (n <=? 57) then n - 48
    else if (97 <=? n) && (n <=? 102) then n - 87
    else if (65 <=? n) && (n <=? 70) then n - 55
    else radix in
  if v <? radix then Some v else None.

(** Reads the longest prefix of digits: accumulated value, number of
    digits read, remaining characters. *)
Fixpoint read_digits (radix : Z) (l : list ascii) (acc : Z) (count : nat)
    : Z * nat * list ascii :=
  match l with
  | c :: l' =>
      match digit_value radix c with
      | Some d => read_digits radix l' (acc * radix + d) (S count)
      | None => (acc, count, l)
      end
  | [] => (acc, count, [])
  end.

Definition with_sign (negative : bool) (mantissa exponent : Z) : number :=
  if mantissa =? 0 then S754_zero negative
  else of_decimal (if negative then - mantissa else mantissa) exponent.

(** ExponentPart followed by the end of the string. *)
Definition read_exponent (l : list ascii) : option Z :=
  match l with
  | [] => Some 0
  | c :: l' =>
      if (Ascii.eqb c "e" || Ascii.eqb c "E")%bool then
        let '(negative, l'') :=
          match l' with
          | s :: r =>
              if Ascii.eqb s "-" then (true, r)
              else if Ascii.eqb s "+" then (false, r)
              else (false, l')
          | [] => (false, l')
          end in
        match read_digits 10 l'' 0 O with
        | (_, O, _) => None
        | (ex, _, []) => Some (if negative then - ex else ex)
        | _ => None
        end
      else None
  end.

(** StrUnsignedDecimalLiteral *)
Definition read_unsigned_decimal (negative : bool) (l : list ascii) : number :=
  if String.eqb (string_of_list_ascii l) "Infinity" then S754_infinity negative
  else
    let '(ip, ni, r1) := read_digits 10 l 0 O in
    let '(mant, nf, r2) :=
      match r1 with
      | c :: r =>
          if Ascii.eqb c "." then read_digits 10 r ip O else (ip, O, r1)
      | [] => (ip, O, r1)
      end in
    if Nat.eqb (ni + nf) 0 then NaN
    else
      match read_exponent r2 with
      | Some ex => with_sign negative mant (ex - Z.of_nat nf)
      | None => NaN
      end.

(** NonDecimalIntegerLiteral: [0x], [0o], [0b] prefixes. *)
Definition read_non_decimal (l : list ascii) : option number :=
  match l with
  | z :: p :: r =>
      if Ascii.eqb z "0" then
        let radix :=
          if (Ascii.eqb p "x" || Ascii.eqb p "X")%bool then Some 16
          else if (Ascii.eqb p "o" || Ascii.eqb p "O")%bool then Some 8
          else if (Ascii.eqb p "b" || Ascii.eqb p "B")%bool then Some 2
          else None in
        match radix with
        | Some rx =>
            match read_digits rx r 0 O with
            | (_, O, _) => Some NaN
            | (v, _, []) => Some (of_Z v)
            | _ => Some NaN
            end
        | None => None
        end
      else None
  | _ => None
  end.

Definition StringToNumber (s : string) : number :=
  match trim (list_ascii_of_string s) with
  | [] => pzero
  | c :: r =>
      if Ascii.eqb c "-" then read_unsigned_decimal true r
      else if Ascii.eqb c "+" then read_unsigned_decimal false r
      else
        match read_non_decimal (c :: r) with
        | Some n => n
        | None => read_unsigned_decimal false (c :: r)
        end
  end.

End JSNumber.

(** ** JavaScript strings and arrays of strings *)

Module JSString.

Definition lower_ascii (c : ascii) : ascii :=
  let n := nat_of_ascii c in
  if (Nat.leb 65 n && Nat.leb n 90)%bool then ascii_of_nat (n + 32) else c.

(** Lower-casing of the letters A to Z alone. *)
Fixpoint ascii_toLowerCase (s : string) : string :=
  match s with
  | EmptyString => EmptyString
  | String c s' => String (lower_ascii c) (ascii_toLowerCase s')
  end.

(** [s.toLowerCase()].  The case mapping of the runtime covers every cased
    character and is not a map of single characters (a capital sigma is
    mapped according to its position in a word), so it is a parameter of
    the development; nothing is assumed of it.  On text made of ASCII
    characters it is [ascii_toLowerCase], which the sample inputs use. *)
Class Casing := toLowerCase : string -> string.

Fixpoint starts_with (p s : string) : bool :=
  match p, s with
  | EmptyString, _ => true
  | String a p', String b s' => (Ascii.eqb a b && starts_with p' s')%bool
  | String _ _, EmptyString => false
  end.

(** [s.includes(p)] *)
Fixpoint includes (s p : string) : bool :=
  (starts_with p s
   || match s with
      | EmptyString => false
      | String _ s' => includes s' p
      end)%bool.

(** [a.join(sep)] on an array of strings. *)
Fixpoint join (sep : string) (l : list string) : string :=
  match l with
  | [] => EmptyString
  | [x] => x
  | x :: l' => x +:+ sep +:+ join sep l'
  end.

(** [a.includes(x)] on an array of strings. *)
Definition Array_includes (l : list string) (x : string) : bool :=
  existsb (String.eqb x) l.

(** Rendering of an array length inside a template literal. *)
Definition of_length (n : nat) : string :=
  JSNumber.toString (JSNumber.of_nat n).

End JSString.

(** ** JavaScript values found in parsed rows *)

Module JSValue.
Import JSNumber.

Inductive value :=
| VUndefined
| VNull
| VBool (b : bool)
| VNum (n : number)
| VStr (s : string).

Inductive type_tag := TUndefined | TObject | TBoolean | TNumber | TString.

Definition typeof (v : value) : type_tag :=
  match v with
  | VUndefined => TUndefined
  | VNull => TObject
  | VBool _ => TBoolean
  | VNum _ => TNumber
  | VStr _ => TString
  end.

Definition is_number (v : value) : bool :=
  match v with VNum _ => true | _ => false end.
Definition is_string (v : value) : bool :=
  match v with VStr _ => true | _ => false end.

(** [String(v)] *)
Definition String_ (v : value) : string :=
  match v with
  | VUndefined => "undefined"
  | VNull => "null"
  | VBool true => "true"
  | VBool false => "false"
  | VNum n => toString n
  | VStr s => s
  end.

(** ToBoolean *)
Definition truthy (v : value) : bool :=
  match v with
  | VUndefined | VNull => false
  | VBool b => b
  | VNum n => JSNumber.truthy n
  | VStr s => negb (String.eqb s EmptyString)
  end.

(** [a || b] *)
Definition or_else (a b : value) : value := if truthy a then a else b.

(** [a ?? b] *)
Definition nullish (a b : value) : value :=
  match a with VUndefined | VNull => b | _ => a end.

(** [v != null] *)
Definition not_nullish (v : value) : bool :=
  match v with VUndefined | VNull => false | _ => true end.

(** SameValueZero, the equality of [Set]. *)
Definition same_value_zero (a b : value) : bool :=
  match a, b with
  | VUndefined, VUndefined | VNull, VNull => true
  | VBool x, VBool y => Bool.eqb x y
  | VNum x, VNum y => JSNumber.same_value_zero x y
  | VStr x, VStr y => String.eqb x y
  | _, _ => false
  end.

(** ToNumber *)
Definition ToNumber (v : value) : number :=
  match v with
  | VUndefined => NaN
  | VNull => pzero
  | VBool b => if b then of_Z 1 else pzero
  | VNum n => n
  | VStr s => StringToNumber s
  end.

(** The [+] operator: concatenation as soon as one operand is a string,
    numeric addition otherwise. *)
Definition plus (a b : value) : value :=
  match a, b with
  | VStr _, _ | _, VStr _ => VStr (String_ a +:+ String_ b)
  | _, _ => VNum (add (ToNumber a) (ToNumber b))
  end.

(** [new Set(vs).size] *)
Definition Set_size (vs : list value) : nat :=
  length
    (fold_left
       (fun seen v => if existsb (same_value_zero v) seen then seen else (seen ++ [v])%list)
       vs []).

(** A parsed row: an object keyed by column name. *)
Abbreviation row := (gmap string value).


(** [r[h]], for a name [h] that the row has as a cell or that is none of
    [inherited_names]. *)
Definition get (r : row) (h : string) : value := default VUndefined (r !! h).

(** [rows[0]?.[h]] *)
Definition first_cell (rows : list row) (h : string) : value :=
  match rows with
  | [] => VUndefined
  | r :: _ => get r h
  end.

(** The numbers of a column: [rows.map(r => r[col]).filter(v => typeof v === "number")] *)
Definition numbers_of (rows : list row) (col : string) : list number :=
  omap (fun r => match get r col with VNum n => Some n | _ => None end) rows.

End JSValue.

(** ** The tabular store and the world it lives in *)

Module Store.
Import JSValue.

Record CSVDataStore := {
  headers : list string;
  rows : list row;
  fileName : string
}.

(** The world: the [window.__tamboCSVData] slot and the console. *)
Record World := {
  tamboCSVData : option CSVDataStore;
  console : list (string * string)
}.

Definition initial : World := {| tamboCSVData := None; console := [] |}.

Inductive outcome (A : Type) :=
| Returned (a : A)
| Thrown (message : string).
Arguments Returned {A} a.
Arguments Thrown {A} message.

(** Computations over the world that return or throw. *)
Definition M (A : Type) : Type := World -> outcome A * World.

Definition ret {A} (a : A) : M A := fun w => (Returned a, w).
Definition throw {A} (message : string) : M A := fun w => (Thrown message, w).
Definition bind {A B} (m : M A) (k : A -> M B) : M B :=
  fun w =>
    match m w with
    | (Returned a, w') => k a w'
    | (Thrown e, w') => (Thrown e, w')
    end.

(** [try { m } catch (error) { console.error(prefix, error); throw error; }] *)
Definition logged {A} (prefix : string) (m : M A) : M A :=
  fun w =>
    match m w with
    | (Thrown e, w') =>
        (Thrown e, {| tamboCSVData := tamboCSVData w';
                      console := console w' ++ [(prefix, e)] |})
    | r => r
    end.

Definition setCSVData (data : CSVDataStore) : M unit :=
  fun w => (Returned tt, {| tamboCSVData := Some data; console := console w |}).

Definition getCSVData : M (option CSVDataStore) :=
  fun w => (Returned (tamboCSVData w), w).

Definition clearCSVData : M unit :=
  fun w => (Returned tt, {| tamboCSVData := None; console := console w |}).

(** The result of running a computation, without the final world. *)
Definition result_of {A} (m : M A) (w : World) : outcome A := fst (m w).
Definition world_after {A} (m : M A) (w : World) : World := snd (m w).

End Store.

Notation "'let*' x ':=' m 'in' k" := (Store.bind m (fun x => k))
  (at level 10, x name, m at level 100, k at level 200).

(** ** Shape classifier ([data-structure-analyzer]) *)

Module Analyzer.
Import JSNumber JSString JSValue Store.

Section WithCasing.
Context {casing : Casing}.

Inductive DataType := timeseries | categorical | ranking | comparison | unknown.
Inductive Component := Graph | DataTable | InsightCard | InfoCard.

Record DataStructureAnalysis := {
  dataType : DataType;
  suggestedComponent : Component;
  reasoning : string;
  confidence : number
}.

(** The test applied to each header by the date-name rule. *)
Definition is_date_name (h : string) : bool :=
  (includes (toLowerCase h) "date"
   || includes (toLowerCase h) "time"
   || includes (toLowerCase h) "month"
   || includes (toLowerCase h) "year")%bool.

Definition numericColumns (headers : list string) (rows : list row) : list string :=
  List.filter (fun h => is_number (first_cell rows h)) headers.

Definition textColumns (headers : list string) (rows : list row) : list string :=
  List.filter (fun h => is_string (first_cell rows h)) headers.

Definition classify (headers : list string) (rows : list row) : DataStructureAnalysis :=
  let hasDateColumn := existsb is_date_name headers in
  if hasDateColumn then
    {| dataType := timeseries;
       suggestedComponent := Graph;
       reasoning := "Your data contains temporal information (dates/times). Time-series data is best visualized as trends and patterns using a Graph component.";
       confidence := of_decimal 95 (-2) |}
  else
    let numericColumns := numericColumns headers rows in
    let textColumns := textColumns headers rows in
    if (Nat.leb 2 (length numericColumns) && Nat.eqb (length textColumns) 1)%bool then
      {| dataType := ranking;
         suggestedComponent := InsightCard;
         reasoning :=
           "Your data has " +:+ of_length (length textColumns)
           +:+ " category column (" +:+ nth 0 textColumns "undefined"
           +:+ ") and " +:+ of_length (length numericColumns)
           +:+ " numeric metrics. This is ranking data - best shown with top performers and key metrics using InsightCard.";
         confidence := of_decimal 9 (-1) |}
    else if (Nat.leb 2 (length textColumns) && Nat.leb 1 (length numericColumns))%bool then
      {| dataType := comparison;
         suggestedComponent := InfoCard;
         reasoning :=
           "Your data has multiple categories (" +:+ join ", " textColumns
           +:+ ") with metrics. This is comparison data - best explored with detailed cards showing each item's information.";
         confidence := of_decimal 85 (-2) |}
    else if (Nat.leb 3 (length numericColumns) && Nat.leb (length textColumns) 1)%bool then
      {| dataType := categorical;
         suggestedComponent := Graph;
         reasoning :=
           "Your data has " +:+ of_length (length numericColumns)
           +:+ " numeric columns. This can be visualized as a multi-series chart showing relationships between metrics.";
         confidence := of_decimal 75 (-2) |}
    else
      {| dataType := unknown;
         suggestedComponent := DataTable;
         reasoning :=
           "Your data has " +:+ of_length (length headers) +:+ " columns with "
           +:+ of_length (length textColumns) +:+ " text and "
           +:+ of_length (length numericColumns)
           +:+ " numeric fields. Use an interactive DataTable to explore all the details.";
         confidence := of_decimal 6 (-1) |}.

Definition analyzeDataStructure : M DataStructureAnalysis :=
  logged "Error analyzing data structure:"
    (let* csvData := getCSVData in
     match csvData with
     | None => throw "No CSV data uploaded. Please upload a CSV file first."
     | Some csvData =>
         let headers := headers csvData in
         let rows := rows csvData in
         if Nat.eqb (length headers) 0 then
           throw "CSV file has no headers. Please upload valid data."
         else if Nat.eqb (length rows) 0 then
           throw "CSV file is empty. Please upload data."
         else ret (classify headers rows)
     end).

End WithCasing.

End Analyzer.

(** ** Arrays: [sort] and [slice] *)

Module JSArray.
Import JSNumber.

Section Sort.
Context {A : Type}.
Variable comparefn : A -> A -> number.

(** [Array.prototype.sort] is stable, and with a consistent comparator
    (see [consistent_comparator]) its result is the unique stable ordering.
    It is modelled by a stable insertion sort: an element moves past another
    one only when the comparator returns a number greater than zero ([NaN]
    counts as zero).  With a comparator that is not consistent the language
    leaves the order to the engine, and [sort] gives one rearrangement of the
    elements, not necessarily the engine's. *)
Fixpoint insert (x : A) (l : list A) : list A :=
  match l with
  | [] => [x]
  | y :: l' =>
      if gt (comparefn x y) pzero then y :: insert x l' else x :: y :: l'
  end.

Definition sort (l : list A) : list A := fold_right insert [] l.

(** Two neighbours are in order when the first need not move past the
    second. *)
Definition in_order (x y : A) : Prop := gt (comparefn x y) pzero = false.

(** The three outcomes of a comparison: [a] before [b], [a] after [b], and
    neither. *)
Definition below (a b : A) : bool := lt (comparefn a b) pzero.
Definition above (a b : A) : bool := gt (comparefn a b) pzero.
Definition level (a b : A) : bool := (negb (below a b) && negb (above a b))%bool.

(** A consistent comparison function for the elements of [l], as the
    language defines it: the comparator never returns [NaN]; an element is
    level with itself; being level is symmetric and transitive; being below
    and being above are transitive.  (That the comparator always returns the
    same number for the same pair, and modifies nothing, holds of every
    function here.) *)
Definition consistent_comparator (l : list A) : Prop :=
  forall a b c, In a l -> In b l -> In c l ->
    is_nan (comparefn a b) = false
    /\ level a a = true
    /\ (level a b = true -> level b a = true)
    /\ (level a b = true -> level b c = true -> level a c = true)
    /\ (below a b = true -> below b c = true -> below a c = true)
    /\ (above a b = true -> above b c = true -> above a c = true).

(** The same conditions, computed. *)
Definition consistent_at (a b c : A) : bool :=
  (negb (is_nan (comparefn a b))
   && level a a
   && implb (level a b) (level b a)
   && implb (level a b && level b c) (level a c)
   && implb (below a b && below b c) (below a c)
   && implb (above a b && above b c) (above a c))%bool.

Definition consistent_comparatorb (l : list A) : bool :=
  forallb (fun a => forallb (fun b => forallb (fun c => consistent_at a b c) l) l) l.
End Sort.

(** [a.map((x, idx) => f(idx, x))], counting from [i]. *)
Fixpoint map_indexed_from {A B} (f : nat -> A -> B) (i : nat) (l : list A) : list B :=
  match l with
  | [] => []
  | x :: l' => f i x :: map_indexed_from f (S i) l'
  end.

Definition map_indexed {A B} (f : nat -> A -> B) (l : list A) : list B :=
  map_indexed_from f 0 l.

(** [a.slice(0, end)] *)
Definition slice0 {A} (l : list A) (end_ : number) : list A :=
  match ToIntegerOrInfinity end_ with
  | NegInfinity => []
  | PosInfinity => l
  | Finite z =>
      if z <? 0 then firstn (Z.to_nat (Z.max (Z.of_nat (length l) + z) 0)) l
      else firstn (Z.to_nat z) l
  end.

End JSArray.

(** ** Query engine ([csv-data]) *)

Module Query.
Import JSNumber JSString JSValue JSArray Store.

Section WithCasing.
Context {casing : Casing}.

Inductive SortOrder := asc | desc.

Record AnalyzeCSVParams := {
  query : string;
  sortBy : option string;
  sortOrder : option SortOrder;
  limit : option number;
  filterColumn : option string;
  filterValue : option string
}.

Record SummaryEntry := { label : string; value : string }.

Record AnalyzeCSVResult := {
  headers : list string;
  rows : list (list string);
  totalRows : nat;
  summary : list SummaryEntry
}.

(** Truthiness of an optional string parameter. *)
Definition given (o : option string) : option string :=
  match o with
  | Some s => if String.eqb s EmptyString then None else Some s
  | None => None
  end.

Definition is_desc (o : option SortOrder) : bool :=
  match o with Some desc => true | _ => false end.

(** The predicate of the filter step. *)
Definition matches (col val : string) (r : row) : bool :=
  match get r col with
  | VStr s => includes (toLowerCase s) (toLowerCase val)
  | v => String.eqb (String_ v) val
  end.

Definition applyFilter (params : AnalyzeCSVParams) (rs : list row) : list row :=
  match given (filterColumn params), given (filterValue params) with
  | Some col, Some val => List.filter (matches col val) rs
  | _, _ => rs
  end.

(** The average entries of the summary, computed from the stored rows. *)
Definition averageEntry (stored : list row) (col : string) : list SummaryEntry :=
  let values := numbers_of stored col in
  if Nat.ltb 0 (length values) then
    let sum := fold_left add values (of_Z 0) in
    let avg := div sum (of_nat (length values)) in
    [{| label := "Avg " +:+ col; value := toFixed avg 2 |}]
  else [].

Definition averages (hs : list string) (stored : list row) : list SummaryEntry :=
  let numericColumns := List.filter (fun h => is_number (first_cell stored h)) hs in
  flat_map (averageEntry stored) (firstn 3 numericColumns).

(** Conversion of a row object to an array of strings, in header order. *)
Definition rowArray (hs : list string) (r : row) : list string :=
  map (fun h => if not_nullish (get r h) then String_ (get r h) else EmptyString) hs.

Section WithCollator.
(** [String.prototype.localeCompare] belongs to the host's collator. *)
Variable localeCompare : string -> string -> number.

(** The comparator of the sort step. *)
Definition compareRows (col : string) (order : option SortOrder) (a b : row) : number :=
  let aVal := get a col in
  let bVal := get b col in
  match aVal, bVal with
  | VNum x, VNum y => if is_desc order then sub y x else sub x y
  | _, _ =>
      let aStr := toLowerCase (String_ (or_else aVal (VStr EmptyString))) in
      let bStr := toLowerCase (String_ (or_else bVal (VStr EmptyString))) in
      if is_desc order then localeCompare bStr aStr
      else localeCompare aStr bStr
  end.

Definition applySort (params : AnalyzeCSVParams) (hs : list string)
    (rs : list row) : list row :=
  match given (sortBy params) with
  | Some col =>
      if Array_includes hs col then sort (compareRows col (sortOrder params)) rs
      else rs
  | None => rs
  end.

Definition applyLimit (params : AnalyzeCSVParams) (rs : list row) : list row :=
  match limit params with
  | Some n => if (JSNumber.truthy n && gt n pzero)%bool then slice0 rs n else rs
  | None => rs
  end.

Definition analyzeCSV (params : AnalyzeCSVParams) : M AnalyzeCSVResult :=
  logged "Error analyzing CSV:"
    (let* data := getCSVData in
     match data with
     | None => throw "No CSV data uploaded. Please upload a CSV file first."
     | Some data =>
         let hs := Store.headers data in
         if (Nat.eqb (length hs) 0 || Nat.eqb (length (Store.rows data)) 0)%bool then
           throw "CSV data is incomplete or empty."
         else
           let rs := applyFilter params (Store.rows data) in
           let rs := applySort params hs rs in
           let totalRows := length rs in
           let rs := applyLimit params rs in
           let summary :=
             {| label := "Total Rows"; value := of_length totalRows |}
             :: averages hs (Store.rows data) in
           ret {| headers := hs;
                  rows := map (rowArray hs) rs;
                  totalRows := totalRows;
                  summary := summary |}
     end).
End WithCollator.

End WithCasing.

End Query.

(** ** Insight generator ([data-insights]) *)

Module Insights.
Import JSNumber JSString JSValue JSArray Store.

Record DataInsightsParams := {
  analysisType : string;
  column : option string;
  limit : option number
}.

Inductive MetricType := positive | neutral | warning.

Module InsightMetric.
Record t := { label : string; value : string; type : MetricType }.
End InsightMetric.

Module TopPerformer.
Record t := { rank : nat; name : string; value : string; details : string }.
End TopPerformer.

Section WithCasing.
Context {casing : Casing}.

Record DataInsight := {
  title : string;
  description : string;
  metrics : list InsightMetric.t;
  topPerformers : option (list TopPerformer.t);
  recommendations : option (list string)
}.

Definition numericColumns (headers : list string) (rows : list row) : list string :=
  List.filter (fun h => is_number (first_cell rows h)) headers.

Definition sum (values : list number) : number := fold_left add values (of_Z 0).

Definition average (values : list number) : number :=
  div (sum values) (of_nat (length values)).

Definition summaryMetrics (rows : list row) (col : string) : list InsightMetric.t :=
  let values := numbers_of rows col in
  if Nat.ltb 0 (length values) then
    let avg := average values in
    let max := Math_max values in
    let min := Math_min values in
    [ {| InsightMetric.label := col +:+ " Range";
         InsightMetric.value := toFixed min 0 +:+ " - " +:+ toFixed max 0;
         InsightMetric.type := neutral |};
      {| InsightMetric.label := col +:+ " Average";
         InsightMetric.value := toFixed avg 2;
         InsightMetric.type := positive |} ]
  else [].

Definition generateSummary (headers : list string) (rows : list row)
    (numericColumns : list string) : DataInsight :=
  {| title := "Data Summary";
     description :=
       "Analysis of " +:+ of_length (length rows) +:+ " records with "
       +:+ of_length (length headers) +:+ " columns";
     metrics :=
       ([ {| InsightMetric.label := "Total Records";
            InsightMetric.value := of_length (length rows);
            InsightMetric.type := neutral |};
         {| InsightMetric.label := "Data Columns";
            InsightMetric.value := of_length (length headers);
            InsightMetric.type := neutral |} ]
       ++ flat_map (summaryMetrics rows) (firstn 3 numericColumns))%list;
     topPerformers := None;
     recommendations :=
       Some [ "Explore top performers by clicking on a specific metric";
              "Use search to filter data by product name or region";
              "Sort columns to find trends in your data" ] |}.

(** The double-quote character. *)
Definition quote : string := String (ascii_of_nat 34) EmptyString.

(** A property key that may be [undefined]. *)
Definition key (column : option string) : string := default "undefined" column.

Definition labelColumn (headers : list string) (rows : list row) : string :=
  let by_name :=
    find (fun h => Array_includes ["name"; "product"; "title"; "label"] (toLowerCase h))
         headers in
  let by_type := find (fun h => is_string (first_cell rows h)) headers in
  let truthy o := match o with Some EmptyString | None => None | Some h => Some h end in
  match truthy by_name with
  | Some h => h
  | None =>
      match truthy by_type with
      | Some h => h
      | None => key (head headers)
      end
  end.

(** The comparator of the ranking: numeric difference, or zero. *)
Definition compareByColumn (column : string) (a b : row) : number :=
  match get a column, get b column with
  | VNum x, VNum y => sub y x
  | _, _ => of_Z 0
  end.

Definition performer (labelColumn column : string) (idx : nat) (r : row) : TopPerformer.t :=
  {| TopPerformer.rank := idx + 1;
     TopPerformer.name :=
       String_ (or_else (get r labelColumn) (VStr ("Item " +:+ of_length (idx + 1))));
     TopPerformer.value := String_ (nullish (get r column) (VStr "N/A"));
     TopPerformer.details := column +:+ ": " +:+ String_ (get r column) |}.

Definition generateTopPerformers (headers : list string) (rows : list row)
    (column : option string) (limit : number) : M DataInsight :=
  match column with
  | Some c =>
      if Array_includes headers c then
        let label := labelColumn headers rows in
        let sorted := slice0 (sort (compareByColumn c) rows) limit in
        let total :=
          fold_left (fun acc r => plus acc (or_else (get r c) (VNum (of_Z 0))))
                    sorted (VNum (of_Z 0)) in
        ret {| title := "Top " +:+ toString limit +:+ " by " +:+ c;
               description := "Highest performing items based on " +:+ c;
               metrics :=
                 [ {| InsightMetric.label := "Top Value";
                      InsightMetric.value :=
                        String_ (nullish (first_cell sorted c) (VStr "N/A"));
                      InsightMetric.type := positive |};
                   {| InsightMetric.label := "Items Analyzed";
                      InsightMetric.value := of_length (length rows);
                      InsightMetric.type := neutral |} ];
               topPerformers := Some (map_indexed (performer label c) sorted);
               recommendations :=
                 Some [ "Focus on top performers: "
                        +:+ join ", " (map (fun r => String_ (get r label))
                                          (slice0 sorted (of_Z 3)));
                        "Average " +:+ c +:+ ": "
                        +:+ toFixed (div (ToNumber total) (of_nat (length sorted))) 2 ] |}
      else
        throw ("Column " +:+ quote +:+ c +:+ quote
               +:+ " not found. Available columns: " +:+ join ", " headers)
  | None =>
      throw ("Column " +:+ quote +:+ "undefined" +:+ quote
             +:+ " not found. Available columns: " +:+ join ", " headers)
  end.

Definition trendMetric (rows : list row) (col : string) : list InsightMetric.t :=
  let values := numbers_of rows col in
  if Nat.leb 2 (length values) then
    let first := nth 0 values NaN in
    let last := nth (length values - 1) values NaN in
    let change := mul (div (sub last first) first) (of_Z 100) in
    let trend :=
      if gt change pzero then positive
      else if lt change pzero then warning
      else neutral in
    [ {| InsightMetric.label := col +:+ " Trend";
         InsightMetric.value :=
           (if gt change pzero then "+" else EmptyString) +:+ toFixed change 1 +:+ "%";
         InsightMetric.type := trend |} ]
  else [].

Definition generateTrends (headers : list string) (rows : list row)
    (numericColumns : list string) : DataInsight :=
  let metrics := flat_map (trendMetric rows) numericColumns in
  {| title := "Data Trends";
     description := "Trend analysis across numeric columns";
     metrics :=
       if Nat.ltb 0 (length metrics) then metrics
       else [ {| InsightMetric.label := "Status";
                 InsightMetric.value := "No trends detected";
                 InsightMetric.type := neutral |} ];
     topPerformers := None;
     recommendations :=
       Some [ "Monitor positive trends for growth opportunities";
              "Investigate negative trends to identify issues";
              "Compare trends across different time periods" ] |}.

Definition concentrationAdvice (headers : list string) (rows : list row) : list string :=
  let stringColumns := List.filter (fun h => is_string (first_cell rows h)) headers in
  match stringColumns with
  | [] => []
  | firstStringCol :: _ =>
      let size := Set_size (map (fun r => get r firstStringCol) rows) in
      let concentration :=
        mul (div (of_nat size) (of_nat (length rows))) (of_Z 100) in
      if lt concentration (of_Z 30) then
        [ "⚠️ High concentration: " +:+ of_length size +:+ " unique "
          +:+ firstStringCol +:+ "s for " +:+ of_length (length rows)
          +:+ " records. Consider diversification." ]
      else if gt concentration (of_Z 70) then
        [ "✅ Good diversity: " +:+ of_length size +:+ " unique "
          +:+ firstStringCol +:+ "s across " +:+ of_length (length rows)
          +:+ " records" ]
      else []
  end.

Definition outlierAdvice (rows : list row) (col : string) : list string :=
  let values := numbers_of rows col in
  if Nat.ltb 0 (length values) then
    let avg := average values in
    let max := Math_max values in
    let min := Math_min values in
    ((if gt max (mul avg (of_decimal 15 (-1))) then
        [ "📈 " +:+ col +:+ " has high outliers (max: " +:+ toFixed max 0
          +:+ " vs avg: " +:+ toFixed avg 0 +:+ "). These may be opportunities." ]
      else [])
     ++
     (if lt min (mul avg (of_decimal 5 (-1))) then
        [ "📉 " +:+ col +:+ " has low outliers (min: " +:+ toFixed min 0
          +:+ " vs avg: " +:+ toFixed avg 0 +:+ "). Consider investigation." ]
      else []))%list
  else [].

Definition generateRecommendations (headers : list string) (rows : list row)
    (numericColumns : list string) : DataInsight :=
  let found :=
    (concentrationAdvice headers rows
     ++ flat_map (outlierAdvice rows) (firstn 2 numericColumns))%list in
  let recommendations :=
    if Nat.eqb (length found) 0 then
      [ "Data looks balanced - maintain current trends";
        "Monitor for changes in key metrics";
        "Use sorting and filtering to discover insights" ]
    else found in
  {| title := "Data Recommendations";
     description := "Actionable insights based on data analysis";
     metrics :=
       [ {| InsightMetric.label := "Total Records";
            InsightMetric.value := of_length (length rows);
            InsightMetric.type := neutral |};
         {| InsightMetric.label := "Data Quality";
            InsightMetric.value := "Good";
            InsightMetric.type := positive |} ];
     topPerformers := None;
     recommendations := Some recommendations |}.

(** [o || fallback] on an optional string. *)
Definition string_or (o fallback : option string) : option string :=
  match o with
  | Some s => if String.eqb s EmptyString then fallback else Some s
  | None => fallback
  end.

(** [o || fallback] on an optional number. *)
Definition number_or (o : option number) (fallback : number) : number :=
  match o with
  | Some n => if JSNumber.truthy n then n else fallback
  | None => fallback
  end.

Definition generateDataInsights (params : DataInsightsParams) : M DataInsight :=
  logged "Error generating data insights:"
    (let* csvData := getCSVData in
     match csvData with
     | None => throw "No CSV data uploaded. Please upload a file first."
     | Some csvData =>
         let headers := headers csvData in
         let rows := rows csvData in
         if (Nat.eqb (length headers) 0 || Nat.eqb (length rows) 0)%bool then
           throw "CSV data is incomplete or empty."
         else
           let numericColumns := numericColumns headers rows in
           if String.eqb (analysisType params) "summary" then
             ret (generateSummary headers rows numericColumns)
           else if String.eqb (analysisType params) "top_performers" then
             generateTopPerformers headers rows
               (string_or (column params) (head numericColumns))
               (number_or (limit params) (of_Z 5))
           else if String.eqb (analysisType params) "trends" then
             ret (generateTrends headers rows numericColumns)
           else if String.eqb (analysisType params) "recommendations" then
             ret (generateRecommendations headers rows numericColumns)
           else ret (generateSummary headers rows numericColumns)
     end).

End WithCasing.

End Insights.

(** ** Suggestion generator ([exploration-suggestions]) *)

Module Suggestions.
Import JSNumber JSString JSValue Store.

Section WithCasing.
Context {casing : Casing}.

Record Suggestion := { label : string; description : string; action : string }.

Record ExplorationSuggestion := {
  mainInsight : string;
  suggestions : list Suggestion
}.

(** [a[i]] rendered inside a template literal. *)
Definition at_ (l : list string) (i : nat) : string := nth i l "undefined".

Definition plural (n : nat) : string := if Nat.ltb 1 n then "s" else EmptyString.

Definition buildMainInsight (headers : list string) (rows : list row)
    (stringColumns numericColumns : list string) (hasDateColumn : bool) : string :=
  let totalRows := length rows in
  let totalColumns := length headers in
  let uniqueCounts :=
    map (fun col =>
           of_length (Set_size (map (fun r => get r col) rows))
           +:+ " unique " +:+ toLowerCase col)
        (firstn 2 stringColumns) in
  "Your dataset has " +:+ of_length totalRows +:+ " records across "
  +:+ of_length totalColumns +:+ " columns. "
  +:+ (if Nat.ltb 0 (length stringColumns) then
         "You have " +:+ of_length (length stringColumns) +:+ " category column"
         +:+ plural (length stringColumns) +:+ " (" +:+ join ", " stringColumns
         +:+ ") with " +:+ join " and " uniqueCounts +:+ ". "
       else EmptyString)
  +:+ (if Nat.ltb 0 (length numericColumns) then
         "There are " +:+ of_length (length numericColumns) +:+ " numeric metric"
         +:+ plural (length numericColumns) +:+ " (" +:+ join ", " numericColumns
         +:+ ") to analyze. "
       else EmptyString)
  +:+ (if hasDateColumn then
         "Your data spans a time period, so you can analyze trends. "
       else EmptyString)
  +:+ "Here are some interesting ways to explore your data:".

Definition build (headers : list string) (rows : list row) : ExplorationSuggestion :=
  let stringColumns := List.filter (fun h => is_string (first_cell rows h)) headers in
  let numericColumns := List.filter (fun h => is_number (first_cell rows h)) headers in
  let hasDateColumn := existsb Analyzer.is_date_name headers in
  let ns := length numericColumns in
  let ss := length stringColumns in
  let suggestions :=
    ((if (Nat.ltb 0 ss && Nat.ltb 0 ns)%bool then
        let categoryColumn := at_ stringColumns 0 in
        let metricColumn := at_ numericColumns 0 in
        [ {| label := "Compare by " +:+ categoryColumn;
             description :=
               "See how " +:+ toLowerCase metricColumn
               +:+ " varies across different " +:+ toLowerCase categoryColumn;
             action :=
               "Show me the top 5 " +:+ toLowerCase categoryColumn +:+ " by "
               +:+ metricColumn +:+ " in a ranked list with details" |} ]
      else [])
     ++ (if Nat.ltb 0 ns then
           let column := at_ numericColumns 0 in
           [ {| label := "Identify Outliers";
                description := "Find unusually high or low values in " +:+ column;
                action :=
                  "Analyze " +:+ column
                  +:+ ": Show me the highest 3 and lowest 3 values. What makes them unusual? Explain the outliers." |} ]
         else [])
     ++ (if (hasDateColumn && Nat.ltb 0 ns)%bool then
           let metric := at_ numericColumns 0 in
           [ {| label := "Analyze Trends";
                description := "See how " +:+ toLowerCase metric +:+ " changes over time";
                action :=
                  "Show me " +:+ metric
                  +:+ " trends over the time period. Are values increasing, decreasing, or stable? Explain any patterns." |} ]
         else [])
     ++ (if Nat.leb 2 ns then
           let col1 := at_ numericColumns 0 in
           let col2 := at_ numericColumns 1 in
           [ {| label := "Distribution Analysis";
                description := "Compare distribution of " +:+ col1 +:+ " vs " +:+ col2;
                action :=
                  "How does " +:+ col1 +:+ " compare to " +:+ col2
                  +:+ "? Show the relationship between these metrics and identify correlations." |} ]
         else [])
     ++ (if (Nat.ltb 1 ss && Nat.ltb 0 ns)%bool then
           let cat1 := at_ stringColumns 0 in
           let cat2 := at_ stringColumns 1 in
           [ {| label := cat1 +:+ " vs " +:+ cat2 +:+ " Breakdown";
                description := "Analyze how these two categories interact";
                action :=
                  "Show me the relationship between " +:+ cat1 +:+ " and " +:+ cat2
                  +:+ ". Which combinations have the highest values?" |} ]
         else [])
     ++ (if Nat.leb 2 ns then
           [ {| label := "Best Performers";
                description := "Find the top overall performers across all metrics";
                action :=
                  "What are the best performing items overall? Consider all metrics and show me the top 5 with full details." |} ]
         else []))%list in
  {| mainInsight := buildMainInsight headers rows stringColumns numericColumns hasDateColumn;
     suggestions :=
       if Nat.ltb 0 (length suggestions) then suggestions
       else [ {| label := "Explore Data";
                 description := "Get a summary of your data";
                 action := "Give me an overview of this data with key metrics and insights" |} ] |}.

Definition generateExplorationSuggestions : M ExplorationSuggestion :=
  logged "Error generating exploration suggestions:"
    (let* csvData := getCSVData in
     match csvData with
     | None => throw "No CSV data uploaded. Please upload a CSV file first."
     | Some csvData =>
         let headers := headers csvData in
         let rows := rows csvData in
         if (Nat.eqb (length headers) 0 || Nat.eqb (length rows) 0)%bool then
           throw "CSV file is empty or invalid."
         else ret (build headers rows)
     end).

End WithCasing.

End Suggestions.

(** ** Sample data *)

Module Sample.
Import JSNumber JSString JSValue Store.

(** A collator ordering strings by code unit. *)
Definition codeUnitCompare (a b : string) : number :=
  match String.compare a b with
  | Lt => of_Z (-1)
  | Eq => of_Z 0
  | Gt => of_Z 1
  end.

Definition sale (month : string) (revenue : Z) (region : string) : row :=
  <["Month" := VStr month]>
    (<["Revenue" := VNum (of_Z revenue)]> (<["Region" := VStr region]> ∅)).

(** The dataset of the specification's scenarios. *)
Definition sales : CSVDataStore :=
  {| headers := ["Month"; "Revenue"; "Region"];
     rows := [sale "Jan" 100 "East"; sale "Feb" 150 "West"];
     fileName := "sales.csv" |}.

Definition product (name : string) (units revenue : Z) : row :=
  <["Product" := VStr name]>
    (<["Units" := VNum (of_Z units)]> (<["Revenue" := VNum (of_Z revenue)]> ∅)).

Definition products : CSVDataStore :=
  {| headers := ["Product"; "Units"; "Revenue"];
     rows := [product "Widget" 3 120; product "Gadget" 7 80; product "Gizmo" 5 200];
     fileName := "products.csv" |}.

(** A score column whose second cell is not a number. *)
Definition scores : CSVDataStore :=
  {| headers := ["Name"; "Score"];
     rows := [ <["Name" := VStr "a"]> (<["Score" := VNum (of_Z 1)]> ∅);
               <["Name" := VStr "b"]> (<["Score" := VStr "n/a"]> ∅);
               <["Name" := VStr "c"]> (<["Score" := VNum (of_Z 5)]> ∅) ];
     fileName := "scores.csv" |}.

(** A metric that starts from zero. *)
Definition signups : CSVDataStore :=
  {| headers := ["Week"; "Signups"];
     rows := [ <["Week" := VStr "w1"]> (<["Signups" := VNum (of_Z 0)]> ∅);
               <["Week" := VStr "w2"]> (<["Signups" := VNum (of_Z 12)]> ∅) ];
     fileName := "signups.csv" |}.

Definition loaded (d : CSVDataStore) : World :=
  {| tamboCSVData := Some d; console := [] |}.

(** The world after loading the sales data and clearing the store. *)
Definition cleared : World :=
  world_after (let* _ := setCSVData sales in clearCSVData) initial.

(** Another dataset with the columns and first-row types of [sales]. *)
Definition december : CSVDataStore :=
  {| headers := ["Month"; "Revenue"; "Region"];
     rows := [sale "Dec" 7 "North"];
     fileName := "december.csv" |}.


Definition east_query : Query.AnalyzeCSVParams :=
  {| Query.query := "east"; Query.sortBy := None; Query.sortOrder := None;
     Query.limit := None;
     Query.filterColumn := Some "Region"; Query.filterValue := Some "east" |}.





Definition trends : Insights.DataInsightsParams :=
  {| Insights.analysisType := "trends"; Insights.column := None;
     Insights.limit := None |}.

End Sample.

(** ** Vocabulary of the specification *)

Module Spec.
Import JSNumber JSString JSValue Store.

Section WithCasing.
Context {casing : Casing}.

(** A name contains a keyword, ignoring case. *)
Definition contains_ignoring_case (h kw : string) : Prop :=
  exists pre post, toLowerCase h = pre +:+ kw +:+ post.

(** The keywords of the date-name rule. *)
Definition date_keywords : list string := ["date"; "time"; "month"; "year"].

(** The types of the first row's values, column by column; [None] when the
    dataset has no row. *)
Definition first_row_types (d : CSVDataStore) : option (list type_tag) :=
  match rows d with
  | [] => None
  | r :: _ => Some (map (fun h => typeof (get r h)) (headers d))
  end.

(** A cell rendered for the result grid: missing cells give the empty string. *)
Definition render_cell (r : row) (h : string) : string :=
  match r !! h with
  | None | Some VUndefined | Some VNull => EmptyString
  | Some v => String_ v
  end.


(** The cell of a row in a column is a number of the binary64 format other
    than NaN. *)
Definition numeric_cell (col : string) (r : row) : Prop :=
  exists x, get r col = VNum x /\ is_nan x = false /\ valid_binary prec emax x = true.

(** Numbers in non-increasing order. *)
Definition descending (ns : list number) : Prop :=
  Sorted (fun a b => ge a b = true) ns.



(** A query with neither filter, nor sort, nor limit. *)
Definition plain_query (q : string) : Query.AnalyzeCSVParams :=
  {| Query.query := q; Query.sortBy := None; Query.sortOrder := None;
     Query.limit := None; Query.filterColumn := None; Query.filterValue := None |}.


End WithCasing.

End Spec.

(** ** More of the runtime: suffixes and general slices *)

Module JSText.
Import JSNumber JSString.

(** [s.endsWith(p)] *)
Fixpoint endsWith (s p : string) : bool :=
  (String.eqb s p
   || match s with
      | EmptyString => false
      | String _ s' => endsWith s' p
      end)%bool.

(** The double-quote character. *)
Definition quote : string := String (ascii_of_nat 34) EmptyString.

(** [a.slice(start, end)] for integers [start] and [end]. *)
Definition slice {A} (l : list A) (start end_ : Z) : list A :=
  let len := Z.of_nat (length l) in
  let k := if start <? 0 then Z.max (len + start) 0 else Z.min start len in
  let final := if end_ <? 0 then Z.max (len + end_) 0 else Z.min end_ len in
  firstn (Z.to_nat (Z.max (final - k) 0)) (skipn (Z.to_nat k) l).

End JSText.

(** ** The upload component ([csv-upload]) *)

Module Upload.
Import JSString JSText JSValue Store.

(** The part of a [File] the component looks at. *)
Record File := { name : string; size : Z }.

(** What the CSV parser hands back: the [complete] callback with its
    errors, data and header fields, or the [error] callback. *)
Inductive ParseResult :=
| Complete (errors : list string) (data : list row) (fields : option (list string))
| Failed (message : string).

(** The component's state. *)
Record State := {
  isDragging : bool;
  uploadedFile : option string;
  error : option string;
  isProcessing : bool
}.

Definition initial : State :=
  {| isDragging := false; uploadedFile := None; error := None; isProcessing := false |}.

Definition setIsDragging (b : bool) (st : State) : State :=
  {| isDragging := b; uploadedFile := uploadedFile st; error := error st;
     isProcessing := isProcessing st |}.

Definition setUploadedFile (f : option string) (st : State) : State :=
  {| isDragging := isDragging st; uploadedFile := f; error := error st;
     isProcessing := isProcessing st |}.

Definition setError (e : option string) (st : State) : State :=
  {| isDragging := isDragging st; uploadedFile := uploadedFile st; error := e;
     isProcessing := isProcessing st |}.

Definition setIsProcessing (b : bool) (st : State) : State :=
  {| isDragging := isDragging st; uploadedFile := uploadedFile st; error := error st;
     isProcessing := b |}.

(** The size ceiling, [10 * 1024 * 1024] bytes. *)
Definition maxSize : Z := 10 * 1024 * 1024.

Section Component.
(** The owner's state and the two callbacks it passes as props. *)
Context {P : Type}.
Variable onDataParsed : CSVDataStore -> P -> P.
Variable onClear : option (P -> P).
(** The CSV parser. *)
Variable parse : File -> ParseResult.

(** [parseCSV], once the parser has called back. *)
Definition parseCSV (file : File) (s : State * P) : State * P :=
  let st := setIsProcessing true (setError None (fst s)) in
  match parse file with
  | Complete errors data fields =>
      let st := setIsProcessing false st in
      match errors with
      | e :: _ => (setError (Some ("Parsing error: " +:+ e)) st, snd s)
      | [] =>
          if Nat.eqb (length data) 0 then (setError (Some "CSV file is empty") st, snd s)
          else
            (setUploadedFile (Some (name file)) st,
             onDataParsed {| headers := default [] fields;
                             rows := data;
                             fileName := name file |} (snd s))
      end
  | Failed message =>
      (setError (Some ("Failed to parse CSV: " +:+ message)) (setIsProcessing false st),
       snd s)
  end.

Definition handleFileSelect (files : option (list File)) (s : State * P) : State * P :=
  match files with
  | None | Some [] => s
  | Some (file :: _) =>
      if negb (endsWith (name file) ".csv") then
        (setError (Some "Please upload a CSV file") (fst s), snd s)
      else if maxSize <? size file then
        (setError (Some "File size must be less than 10MB") (fst s), snd s)
      else parseCSV file s
  end.

Definition handleDragOver (s : State * P) : State * P :=
  (setIsDragging true (fst s), snd s).

Definition handleDragLeave (s : State * P) : State * P :=
  (setIsDragging false (fst s), snd s).

Definition handleDrop (files : option (list File)) (s : State * P) : State * P :=
  handleFileSelect files (setIsDragging false (fst s), snd s).

Definition handleClear (s : State * P) : State * P :=
  (setError None (setUploadedFile None (fst s)),
   match onClear with
   | Some f => f (snd s)
   | None => snd s
   end).

End Component.

End Upload.

(** ** The page that owns the store ([page]) *)

Module Page.
Import JSNumber JSString JSText JSValue Store.

Record State := {
  inputValue : string;
  submittedPrompt : string;
  promptKey : nat;
  newChatKey : nat;
  csvUploaded : bool;
  world : World
}.

Definition initial : State :=
  {| inputValue := EmptyString; submittedPrompt := EmptyString; promptKey := 0;
     newChatKey := 0; csvUploaded := false; world := Store.initial |}.

Definition handleNewChat (s : State) : State :=
  {| inputValue := EmptyString; submittedPrompt := EmptyString;
     promptKey := promptKey s; newChatKey := newChatKey s + 1;
     csvUploaded := false; world := world_after clearCSVData (world s) |}.

Definition handleCsvUploaded (data : CSVDataStore) (s : State) : State :=
  {| inputValue := inputValue s; submittedPrompt := submittedPrompt s;
     promptKey := promptKey s; newChatKey := newChatKey s;
     csvUploaded := true; world := world_after (setCSVData data) (world s) |}.

Definition handleCsvCleared (s : State) : State :=
  {| inputValue := inputValue s; submittedPrompt := submittedPrompt s;
     promptKey := promptKey s; newChatKey := newChatKey s;
     csvUploaded := false; world := world_after clearCSVData (world s) |}.

(** The [availableData] context helper. *)
Definition baseData : string :=
  "Available data: Stock symbols are NVDA, TSLA, MSFT, COIN, AMD, GOOGL. Sectors: Semiconductors, Automotive, Software, Cryptocurrency, Technology. Street food origins: Thailand, Mexico, Vietnam, India, Germany, Japan, Venezuela/Colombia, China, Spain. Population data is LIVE from the World Bank API — covers 2004-2023 globally and 20 countries across all continents (CHN, IND, USA, IDN, PAK, BRA, NGA, DEU, AUS, JPN, GBR, FRA, MEX, ETH, EGY, ZAF, KOR, ARG, COL, THA). ".

Definition refinementNote : string :=
  "

REFINEMENT: If user says " +:+ quote +:+ "make it" +:+ quote +:+ ", " +:+ quote +:+ "sort by" +:+ quote +:+ ", " +:+ quote +:+ "filter by" +:+ quote +:+ ", " +:+ quote +:+ "change to" +:+ quote +:+ " → Update current component, don't render new one.".

Definition availableData : M string :=
  let* csvData := getCSVData in
  ret (baseData
       +:+ match csvData with
           | Some csvData =>
               "CSV FILE UPLOADED: " +:+ quote +:+ fileName csvData +:+ quote
               +:+ " with " +:+ of_length (length (rows csvData))
               +:+ " rows and columns: " +:+ join ", " (headers csvData)
               +:+ ".
AVAILABLE TOOLS:
1. analyzeDataStructure - Analyzes CSV structure and recommends best component (timeseries→Graph, ranking→InsightCard, complex→DataTable). Use this to determine how to visualize the data.
2. analyzeCSV - Query/filter data, get summaries, find top performers.
3. generateDataInsights - Analyze patterns, find top performers, trends, and generate recommendations. "
           | None => EmptyString
           end
       +:+ refinementNote).

End Page.

(** ** A session: the upload component mounted in the page *)

Module Session.
Import JSValue Store.

Section WithParser.
Context {casing : JSString.Casing}.
Variable parse : Upload.File -> Upload.ParseResult.
(** The collator used by the query tool. *)
Variable localeCompare : string -> string -> JSNumber.number.

Definition State : Type := Upload.State * Page.State.

Definition initial : State := (Upload.initial, Page.initial).

(** What can happen to a session: the user's gestures on the upload
    component and the page, and the tools invoked on the store. *)
Inductive Event :=
| SelectFiles (files : option (list Upload.File))
| DragOver
| DragLeave
| Drop (files : option (list Upload.File))
| ClearFile
| NewChat
| RunAnalyzeCSV (params : Query.AnalyzeCSVParams)
| RunAnalyzeDataStructure
| RunGenerateDataInsights (params : Insights.DataInsightsParams)
| RunGenerateExplorationSuggestions.

(** A tool call only acts on the world of the page. *)
Definition onWorld {A} (m : M A) (s : State) : State :=
  (fst s,
   {| Page.inputValue := Page.inputValue (snd s);
      Page.submittedPrompt := Page.submittedPrompt (snd s);
      Page.promptKey := Page.promptKey (snd s);
      Page.newChatKey := Page.newChatKey (snd s);
      Page.csvUploaded := Page.csvUploaded (snd s);
      Page.world := world_after m (Page.world (snd s)) |}).

Definition step (s : State) (e : Event) : State :=
  match e with
  | SelectFiles files =>
      Upload.handleFileSelect Page.handleCsvUploaded parse files s
  | DragOver => Upload.handleDragOver s
  | DragLeave => Upload.handleDragLeave s
  | Drop files => Upload.handleDrop Page.handleCsvUploaded parse files s
  | ClearFile => Upload.handleClear (Some Page.handleCsvCleared) s
  | NewChat => (fst s, Page.handleNewChat (snd s))
  | RunAnalyzeCSV params => onWorld (Query.analyzeCSV localeCompare params) s
  | RunAnalyzeDataStructure => onWorld Analyzer.analyzeDataStructure s
  | RunGenerateDataInsights params => onWorld (Insights.generateDataInsights params) s
  | RunGenerateExplorationSuggestions =>
      onWorld Suggestions.generateExplorationSuggestions s
  end.

Definition run (events : list Event) : State := fold_left step events initial.

(** The dataset currently in the store. *)
Definition dataset (s : State) : option CSVDataStore :=
  tamboCSVData (Page.world (snd s)).

End WithParser.

End Session.

(** ** Refinement heuristics ([component-state], [refinement-helper]) *)

Module Refinement.
Import JSNumber JSString JSText JSValue.

Section WithCasing.
Context {casing : Casing}.

Inductive ComponentType := Graph | DataTable | StockCard | Other.

Definition type_name (t : ComponentType) : string :=
  match t with
  | Graph => "Graph"
  | DataTable => "DataTable"
  | StockCard => "StockCard"
  | Other => "Other"
  end.

(** The typed fields of a component's state. *)
Record ComponentState := {
  activeFilters : option (gmap string value);
  sortBy : option string;
  sortOrder : option Query.SortOrder;
  chartType : option string;
  searchTerm : option string;
  pageNumber : option number;
  visibleColumns : option (list string);
  dataRange : option string
}.

Record ComponentStateSnapshot := {
  componentId : string;
  type : ComponentType;
  state : ComponentState;
  timestamp : number;
  summary : string
}.

Definition refinementKeywords : list string :=
  [ "make it"; "show only"; "sort by"; "change to"; "filter by"; "switch to";
    "convert to"; "group by"; "highlight"; "remove"; "add"; "hide"; "show";
    "display"; "only"; "exclude"; "include" ].

Definition isRefinementRequest (message : string) : bool :=
  let lowerMessage := toLowerCase message in
  existsb (fun keyword => includes lowerMessage keyword) refinementKeywords.

Definition generateRefinementInstruction
    (activeComponent : option ComponentStateSnapshot) : string :=
  match activeComponent with
  | None => EmptyString
  | Some activeComponent =>
      "
REFINEMENT_MODE_ACTIVE: The user's last message appears to be refining the currently displayed "
      +:+ type_name (type activeComponent) +:+ ".
Current component state: " +:+ summary activeComponent +:+ "

Instructions:
1. If the message references the current component (e.g., " +:+ quote
      +:+ "Make it a bar chart" +:+ quote +:+ ", " +:+ quote +:+ "Sort by revenue"
      +:+ quote +:+ "), ONLY update that component's state/settings
2. Do NOT create a new component - modify the existing one
3. Keep the same data source and structure
4. Return the same component type with updated props
5. If you're unsure if it's a refinement, assume it is if the message is short and action-oriented
"
  end.

Definition buildRefinementContext (baseContext : string)
    (activeComponent : option ComponentStateSnapshot) (userMessage : string) : string :=
  match activeComponent with
  | None => baseContext
  | Some activeComponent =>
      if negb (isRefinementRequest userMessage) then baseContext
      else
        baseContext +:+ "

COMPONENT_REFINEMENT_MODE:
Current display: " +:+ type_name (type activeComponent) +:+ "
State: " +:+ summary activeComponent +:+ "

The user is likely refining this component. If so:
- Modify only the component props
- Do NOT create a new component
- Keep same data structure
- Return updated component with new settings"
  end.

Definition detectComponentReferenceInMessage (message : string) : option string :=
  let lowerMsg := toLowerCase message in
  if (includes lowerMsg "chart" || includes lowerMsg "graph" || includes lowerMsg "bar"
      || includes lowerMsg "line" || includes lowerMsg "pie")%bool then Some "Graph"
  else if (includes lowerMsg "table" || includes lowerMsg "data"
           || includes lowerMsg "column")%bool then Some "DataTable"
  else if (includes lowerMsg "stock" || includes lowerMsg "risk"
           || includes lowerMsg "gain")%bool then Some "StockCard"
  else None.

Definition formatComponentState (component : ComponentStateSnapshot) : string :=
  "Component: " +:+ type_name (type component) +:+ " - " +:+ summary component.

End WithCasing.

End Refinement.

(** ** The table component's pipeline ([data-table]) *)

Module Table.
Import JSNumber JSString JSText JSArray.

Section WithCasing.
Context {casing : Casing}.

Inductive Direction := asc | desc.

Definition rowsPerPage : nat := 10.

(** [a[i]], or the empty string where the row has no such cell. *)
Definition cell (r : list string) (i : nat) : string := nth i r EmptyString.

(** The rows kept by the search box. *)
Definition filteredRows (searchTerm : string) (safeRows : list (list string))
    : list (list string) :=
  if (String.eqb searchTerm EmptyString || Nat.eqb (length safeRows) 0)%bool then safeRows
  else
    List.filter
      (fun r => existsb (fun c => includes (toLowerCase c) (toLowerCase searchTerm)) r)
      safeRows.

Section WithCollator.
Variable localeCompare : string -> string -> number.

(** The comparator of the column sort. *)
Definition compareCells (idx : nat) (direction : Direction) (a b : list string) : number :=
  let aVal := cell a idx in
  let bVal := cell b idx in
  let aNum := StringToNumber aVal in
  let bNum := StringToNumber bVal in
  if (negb (is_nan aNum) && negb (is_nan bNum)
      && negb (String.eqb aVal EmptyString) && negb (String.eqb bVal EmptyString))%bool
  then
    match direction with
    | asc => sub aNum bNum
    | desc => sub bNum aNum
    end
  else
    let aStr := toLowerCase aVal in
    let bStr := toLowerCase bVal in
    match direction with
    | asc => localeCompare aStr bStr
    | desc => localeCompare bStr aStr
    end.

Definition sortedRows (sortColumnIdx : option nat) (sortDirection : Direction)
    (filteredRows : list (list string)) : list (list string) :=
  match sortColumnIdx with
  | None => filteredRows
  | Some idx =>
      if Nat.eqb (length filteredRows) 0 then filteredRows
      else sort (compareCells idx sortDirection) filteredRows
  end.
End WithCollator.

(** [Math.ceil(sortedRows.length / rowsPerPage)], on array lengths. *)
Definition totalPages (sortedRows : list (list string)) : Z :=
  (Z.of_nat (length sortedRows) + Z.of_nat rowsPerPage - 1) / Z.of_nat rowsPerPage.

Definition paginatedRows (currentPage : Z) (sortedRows : list (list string))
    : list (list string) :=
  slice sortedRows ((currentPage - 1) * Z.of_nat rowsPerPage)
        (currentPage * Z.of_nat rowsPerPage).

(** [handleSort(idx)] on the pair of sort column and direction. *)
Definition handleSort (idx : nat) (s : option nat * Direction) : option nat * Direction :=
  match fst s with
  | Some current =>
      if Nat.eqb current idx then
        (fst s, match snd s with asc => desc | desc => asc end)
      else (Some idx, asc)
  | None => (Some idx, asc)
  end.

(** The Previous and Next buttons. *)
Definition previousPage (p : Z) : Z := Z.max 1 (p - 1).
Definition nextPage (totalPages p : Z) : Z := Z.min totalPages (p + 1).

(** The text written by [exportToCSV]. *)
Definition exportLine (visibleColumns : gset nat) (r : list string) : string :=
  join ","
    (map snd
       (List.filter (fun ic => bool_decide (fst ic ∈ visibleColumns))
          (map_indexed
             (fun i _ => (i, if bool_decide (i ∈ visibleColumns)
                             then (if String.eqb (cell r i) EmptyString
                                   then EmptyString else cell r i)
                             else EmptyString))
             r))).

Definition exportHeader (visibleColumns : gset nat) (safeHeaders : list string) : string :=
  join ","
    (List.filter (fun h => negb (String.eqb h EmptyString))
       (map_indexed
          (fun i h => if bool_decide (i ∈ visibleColumns) then h else EmptyString)
          safeHeaders)).

Definition csvContent (visibleColumns : gset nat) (safeHeaders : list string)
    (sortedRows : list (list string)) : string :=
  join "
" (exportHeader visibleColumns safeHeaders :: map (exportLine visibleColumns) sortedRows).

End WithCasing.

End Table.

(** ** More vocabulary and sample inputs *)

Module Terms.
Import JSNumber JSString JSValue Store.

Section WithCasing.
Context {casing : Casing}.


(** The same query without its limit. *)
Definition without_limit (p : Query.AnalyzeCSVParams) : Query.AnalyzeCSVParams :=
  {| Query.query := Query.query p; Query.sortBy := Query.sortBy p;
     Query.sortOrder := Query.sortOrder p; Query.limit := None;
     Query.filterColumn := Query.filterColumn p;
     Query.filterValue := Query.filterValue p |}.

(** The world left by a computation that threw [e] under the log prefix
    [prefix]: the store is untouched and the console has one more line. *)
Definition with_log (w : World) (prefix e : string) : World :=
  {| tamboCSVData := tamboCSVData w; console := (console w ++ [(prefix, e)])%list |}.

(** Some column name contains a date keyword, ignoring case. *)
Definition has_date_name (hs : list string) : Prop :=
  exists h kw, In h hs /\ In kw Spec.date_keywords /\ Spec.contains_ignoring_case h kw.

(** The upload component refuses a file: its name does not end in ".csv",
    it is larger than the ceiling, or the parser fails, reports an error or
    finds no row. *)
Definition refused (parse : Upload.File -> Upload.ParseResult) (f : Upload.File) : Prop :=
  (~ exists stem, Upload.name f = stem +:+ ".csv")
  \/ Upload.maxSize < Upload.size f
  \/ (exists message, parse f = Upload.Failed message)
  \/ (exists e es data fields, parse f = Upload.Complete (e :: es) data fields)
  \/ (exists fields, parse f = Upload.Complete [] [] fields).

(** The upload component accepts a file: a ".csv" name, a size within the
    ceiling and a parse without error that found these rows and fields. *)
Definition accepted (parse : Upload.File -> Upload.ParseResult) (f : Upload.File)
    (data : list row) (fields : option (list string)) : Prop :=
  (exists stem, Upload.name f = stem +:+ ".csv")
  /\ Upload.size f <= Upload.maxSize
  /\ parse f = Upload.Complete [] data fields
  /\ data <> [].

(** What a session keeps true: the page's uploaded flag says whether the
    store holds a dataset; a stored dataset has a row and is the file the
    upload component displays; the component is not left processing. *)
Definition consistent (s : Upload.State * Page.State) : Prop :=
  (Page.csvUploaded (snd s) = true <-> tamboCSVData (Page.world (snd s)) <> None)
  /\ (forall d, tamboCSVData (Page.world (snd s)) = Some d ->
        rows d <> [] /\ Upload.uploadedFile (fst s) = Some (fileName d))
  /\ Upload.isProcessing (fst s) = false.

(** A message mentions one of the words, ignoring the message's case. *)
Definition mentions (message : string) (words : list string) : Prop :=
  exists kw, In kw words /\ Spec.contains_ignoring_case message kw.

(** The refinement keywords without "show only". *)
Definition effective_keywords : list string :=
  [ "make it"; "sort by"; "change to"; "filter by"; "switch to"; "convert to";
    "group by"; "highlight"; "remove"; "add"; "hide"; "show"; "display"; "only";
    "exclude"; "include" ].

Definition graph_words : list string := ["chart"; "graph"; "bar"; "line"; "pie"].
Definition table_words : list string := ["table"; "data"; "column"].
Definition stock_words : list string := ["stock"; "risk"; "gain"].

(** The first [n] columns are all visible. *)
Definition all_visible (visibleColumns : gset nat) (n : nat) : Prop :=
  forall i, (i < n)%nat -> i ∈ visibleColumns.

(** The cells at visible positions, in order, counting positions from [i]. *)
Fixpoint visible_from (visibleColumns : gset nat) (i : nat) (l : list string)
    : list string :=
  match l with
  | [] => []
  | x :: l' =>
      if bool_decide (i ∈ visibleColumns)
      then x :: visible_from visibleColumns (S i) l'
      else visible_from visibleColumns (S i) l'
  end.

Definition visible_cells (visibleColumns : gset nat) (l : list string) : list string :=
  visible_from visibleColumns 0 l.

(** The pages of a table, from page one to the last. *)
Definition pages (sortedRows : list (list string)) : list (list (list string)) :=
  map (fun p => Table.paginatedRows (Z.of_nat p) sortedRows)
      (seq 1 (Z.to_nat (Table.totalPages sortedRows))).

End WithCasing.

End Terms.

Module Fixtures.
Import JSNumber JSString JSValue Store.

Definition sales_file : Upload.File := {| Upload.name := "sales.csv"; Upload.size := 2048 |}.
Definition notes_file : Upload.File := {| Upload.name := "notes.txt"; Upload.size := 2048 |}.
Definition huge_file : Upload.File :=
  {| Upload.name := "huge.csv"; Upload.size := 11 * 1024 * 1024 |}.
Definition broken_file : Upload.File := {| Upload.name := "broken.csv"; Upload.size := 10 |}.

(** A parser that reads the sales rows from [sales.csv] and reports an error
    for any other file. *)
Definition parser (f : Upload.File) : Upload.ParseResult :=
  if String.eqb (Upload.name f) "sales.csv" then
    Upload.Complete [] (rows Sample.sales) (Some (headers Sample.sales))
  else Upload.Complete ["Unable to auto-detect delimiting character"] [] None.

(** A dataset with no header, and one with no row. *)
Definition headless : CSVDataStore :=
  {| headers := []; rows := rows Sample.sales; fileName := "headless.csv" |}.
Definition rowless : CSVDataStore :=
  {| headers := headers Sample.sales; rows := []; fileName := "rowless.csv" |}.

(** Sales with a repeated region, to observe ties. *)
Definition regional : CSVDataStore :=
  {| headers := ["Month"; "Revenue"; "Region"];
     rows := [ Sample.sale "Jan" 100 "East"; Sample.sale "Feb" 150 "West";
               Sample.sale "Mar" 20 "East"; Sample.sale "Apr" 70 "West" ];
     fileName := "regional.csv" |}.

Definition by_region : Query.AnalyzeCSVParams :=
  {| Query.query := "by region"; Query.sortBy := Some "Region";
     Query.sortOrder := None; Query.limit := None;
     Query.filterColumn := None; Query.filterValue := None |}.

Definition by_revenue (limit : option number) : Query.AnalyzeCSVParams :=
  {| Query.query := "by revenue"; Query.sortBy := Some "Revenue";
     Query.sortOrder := Some Query.asc; Query.limit := limit;
     Query.filterColumn := None; Query.filterValue := None |}.

Definition in_east (r : row) : bool :=
  match get r "Region" with
  | VStr s => String.eqb s "East"
  | _ => false
  end.

(** Text-only data: no numeric column. *)
Definition contacts : CSVDataStore :=
  {| headers := ["Name"; "City"];
     rows := [ <["Name" := VStr "Ann"]> (<["City" := VStr "Oslo"]> ∅) ];
     fileName := "contacts.csv" |}.

Definition insight (kind : string) : Insights.DataInsightsParams :=
  {| Insights.analysisType := kind; Insights.column := None; Insights.limit := None |}.

Definition chart : Refinement.ComponentStateSnapshot :=
  {| Refinement.componentId := "graph-1";
     Refinement.type := Refinement.Graph;
     Refinement.state :=
       {| Refinement.activeFilters := None; Refinement.sortBy := None;
          Refinement.sortOrder := None; Refinement.chartType := Some "bar";
          Refinement.searchTerm := None; Refinement.pageNumber := None;
          Refinement.visibleColumns := None; Refinement.dataRange := None |};
     Refinement.timestamp := of_Z 0;
     Refinement.summary := "Graph (bar) showing all data" |}.

(** A small table with mixed case, and three visible columns. *)
Definition cities : list (list string) :=
  [["Oslo"; "Norway"; "7"]; ["Lyon"; "France"; "12"]; ["OSAKA"; "Japan"; "3"]].
Definition three_columns : gset nat := {[ 0%nat; 1%nat; 2%nat ]}.
Definition city_headers : list string := ["City"; "Country"; "Rank"].
Definition city_and_rank : gset nat := {[ 0%nat; 2%nat ]}.

(** A grid of twenty-three rows. *)
Definition grid : list (list string) :=
  map (fun i => [JSString.of_length i; "x"]) (seq 1 23).

End Fixtures.

(** The sample inputs are ASCII text; on them the case mapping is that of
    the letters A to Z. *)
#[global] Instance ascii_casing : JSString.Casing := JSString.ascii_toLowerCase.

(** * Properties *)

Import JSNumber JSString JSValue JSArray Store.

(** ** Strings *)

Lemma starts_with_spec (p s : string) :
  starts_with p s = true <-> exists post, s = p +:+ post.
Proof.
  revert s. induction p as [|a p IH]; intros s; simpl.
  - split; [intros _; exists s; reflexivity | reflexivity].
  - destruct s as [|b s].
    + split; [discriminate | intros [post H]; discriminate].
    + rewrite andb_true_iff, IH. split.
      * intros [Hab [post ->]]. apply Ascii.eqb_eq in Hab. subst b.
        exists post. reflexivity.
      * intros [post H]. injection H as -> ->. split.
        -- apply Ascii.eqb_refl.
        -- exists post. reflexivity.
Qed.

(** [includes] decides the substring relation. *)
Lemma includes_spec (s p : string) :
  includes s p = true <-> exists pre post, s = pre +:+ p +:+ post.
Proof.
  induction s as [|c s IH]; simpl.
  - rewrite orb_false_r, starts_with_spec. split.
    + intros [post H]. exists EmptyString, post. exact H.
    + intros [pre [post H]]. destruct pre; simpl in H.
      * exists post. exact H.
      * discriminate.
  - rewrite orb_true_iff, starts_with_spec, IH. split.
    + intros [[post H] | [pre [post H]]].
      * exists EmptyString, post. exact H.
      * exists (String c pre), post. rewrite H. reflexivity.
    + intros [pre [post H]]. destruct pre as [|c' pre]; simpl in H.
      * left. exists post. exact H.
      * right. injection H as -> ->. exists pre, post. reflexivity.
Qed.

(** ** Running the operations on a loaded store *)

Section LoadedStore.
Context {casing : Casing}.

Lemma length_eqb_0 {A} (l : list A) : l <> [] -> Nat.eqb (length l) 0 = false.
Proof. destruct l; [congruence | reflexivity]. Qed.

Lemma analyzeDataStructure_loaded (w : World) (d : CSVDataStore) :
  tamboCSVData w = Some d -> headers d <> [] -> rows d <> [] ->
  Analyzer.analyzeDataStructure w = (Returned (Analyzer.classify (headers d) (rows d)), w).
Proof.
  intros Hd Hh Hr.
  unfold Analyzer.analyzeDataStructure, logged, bind, getCSVData.
  rewrite Hd, (length_eqb_0 _ Hh), (length_eqb_0 _ Hr). reflexivity.
Qed.

Lemma analyzeCSV_loaded lc (p : Query.AnalyzeCSVParams) (w : World) (d : CSVDataStore) :
  tamboCSVData w = Some d -> headers d <> [] -> rows d <> [] ->
  Query.analyzeCSV lc p w =
  (Returned
     (let rs := Query.applySort lc p (headers d) (Query.applyFilter p (rows d)) in
      {| Query.headers := headers d;
         Query.rows := map (Query.rowArray (headers d)) (Query.applyLimit p rs);
         Query.totalRows := length rs;
         Query.summary :=
           {| Query.label := "Total Rows"; Query.value := of_length (length rs) |}
           :: Query.averages (headers d) (rows d) |}), w).
Proof.
  intros Hd Hh Hr.
  unfold Query.analyzeCSV, logged, bind, getCSVData.
  rewrite Hd, (length_eqb_0 _ Hh), (length_eqb_0 _ Hr). reflexivity.
Qed.

Lemma generateDataInsights_loaded (p : Insights.DataInsightsParams) (w : World)
    (d : CSVDataStore) :
  tamboCSVData w = Some d -> headers d <> [] -> rows d <> [] ->
  Insights.analysisType p = "trends" ->
  Insights.generateDataInsights p w =
  (Returned (Insights.generateTrends (headers d) (rows d)
               (Insights.numericColumns (headers d) (rows d))), w).
Proof.
  intros Hd Hh Hr Ht.
  unfold Insights.generateDataInsights, logged, bind, getCSVData.
  rewrite Hd, (length_eqb_0 _ Hh), (length_eqb_0 _ Hr), Ht. reflexivity.
Qed.

End LoadedStore.

(** ** No dataset loaded *)

Section NotLoaded.
Context {casing : Casing}.

(** C7. Every downstream operation (query, shape classification, insight
    generation, suggestion generation) run on a world whose dataset slot is
    empty throws the not-loaded error and computes nothing; the slot stays
    empty. *)
Theorem not_loaded_is_rejected lc (w : World) :
  tamboCSVData w = None ->
  (forall p, result_of (Query.analyzeCSV lc p) w
             = Thrown "No CSV data uploaded. Please upload a CSV file first.")
  /\ result_of Analyzer.analyzeDataStructure w
     = Thrown "No CSV data uploaded. Please upload a CSV file first."
  /\ (forall p, result_of (Insights.generateDataInsights p) w
                = Thrown "No CSV data uploaded. Please upload a file first.")
  /\ result_of Suggestions.generateExplorationSuggestions w
     = Thrown "No CSV data uploaded. Please upload a CSV file first.".
Proof.
  intros Hw.
  unfold result_of, Query.analyzeCSV, Analyzer.analyzeDataStructure,
    Insights.generateDataInsights, Suggestions.generateExplorationSuggestions,
    logged, bind, getCSVData, throw.
  rewrite Hw. simpl. repeat split; reflexivity.
Qed.

Lemma cleared_not_loaded (w : World) : tamboCSVData (world_after clearCSVData w) = None.
Proof. reflexivity. Qed.

End NotLoaded.

(** The slot is empty before any load and after a clear. *)
Lemma initial_not_loaded : tamboCSVData initial = None.
Proof. reflexivity. Qed.

Lemma not_loaded_is_rejected_after_clear :
  tamboCSVData Sample.cleared = None
  /\ result_of Analyzer.analyzeDataStructure Sample.cleared
     = Thrown "No CSV data uploaded. Please upload a CSV file first.".
Proof.
  split; [reflexivity |].
  apply (not_loaded_is_rejected Sample.codeUnitCompare Sample.cleared).
  reflexivity.
Defined.

(** ** Sorting and slicing *)

Section Slicing.
Context {casing : Casing}.

Section SortFacts.
Context {A : Type}.
Variable cmp : A -> A -> number.

Lemma insert_length (x : A) (l : list A) : length (insert cmp x l) = S (length l).
Proof.
  induction l as [|y l IH]; simpl; [reflexivity |].
  destruct (gt (cmp x y) pzero); simpl; [rewrite IH |]; reflexivity.
Qed.

Lemma sort_length (l : list A) : length (sort cmp l) = length l.
Proof.
  induction l as [|x l IH]; simpl; [reflexivity |].
  rewrite insert_length, IH. reflexivity.
Qed.

Lemma insert_In (x y : A) (l : list A) : In y (insert cmp x l) -> y = x \/ In y l.
Proof.
  induction l as [|z l IH]; simpl.
  - intros [<- | []]. left. reflexivity.
  - destruct (gt (cmp x z) pzero); simpl.
    + intros [<- | H]; [right; left; reflexivity |].
      destruct (IH H) as [-> | H']; [left; reflexivity | right; right; exact H'].
    + intros [<- | [<- | H]]; [left | right; left | right; right]; trivial.
Qed.

Lemma sort_In (y : A) (l : list A) : In y (sort cmp l) -> In y l.
Proof.
  induction l as [|x l IH]; simpl; [trivial |].
  intros H. destruct (insert_In _ _ _ H) as [-> | H']; [left; reflexivity | right; auto].
Qed.

Lemma insert_Permutation (x : A) (l : list A) : Permutation (insert cmp x l) (x :: l).
Proof.
  induction l as [|y l IH]; simpl; [reflexivity |].
  destruct (gt (cmp x y) pzero); [| reflexivity].
  rewrite IH. apply perm_swap.
Qed.

Lemma sort_Permutation (l : list A) : Permutation (sort cmp l) l.
Proof.
  induction l as [|x l IH]; simpl; [reflexivity |].
  rewrite insert_Permutation, IH. reflexivity.
Qed.

End SortFacts.







End Slicing.

(** ** Shape classification *)

Section ShapeClassification.
Context {casing : Casing}.

Lemma is_date_name_spec (h : string) :
  Analyzer.is_date_name h = true <->
  exists kw, In kw Spec.date_keywords /\ Spec.contains_ignoring_case h kw.
Proof.
  unfold Analyzer.is_date_name, Spec.contains_ignoring_case, Spec.date_keywords.
  rewrite !orb_true_iff, !includes_spec. split.
  - intros [[[H | H] | H] | H]; eexists; (split; [| exact H]); simpl; tauto.
  - intros [kw [Hkw H]]. simpl in Hkw.
    destruct Hkw as [<- | [<- | [<- | [<- | []]]]]; tauto.
Qed.

(** C5. A loaded dataset with at least one row, one of whose column names
    contains "date", "time", "month" or "year" (ignoring case), is classified
    as a time series with confidence 0.95 and the chart component, whatever
    its rows contain. *)
Theorem date_name_rule_takes_precedence (w : World) (d : CSVDataStore) (h kw : string) :
  tamboCSVData w = Some d -> rows d <> [] ->
  In h (headers d) -> In kw Spec.date_keywords -> Spec.contains_ignoring_case h kw ->
  result_of Analyzer.analyzeDataStructure w =
  Returned
    {| Analyzer.dataType := Analyzer.timeseries;
       Analyzer.suggestedComponent := Analyzer.Graph;
       Analyzer.reasoning := "Your data contains temporal information (dates/times). Time-series data is best visualized as trends and patterns using a Graph component.";
       Analyzer.confidence := of_decimal 95 (-2) |}.
Proof.
  intros Hd Hr Hin Hkw Hc.
  assert (Hh : headers d <> []) by (intros E; rewrite E in Hin; destruct Hin).
  unfold result_of. rewrite (analyzeDataStructure_loaded w d Hd Hh Hr). simpl.
  unfold Analyzer.classify.
  assert (He : existsb Analyzer.is_date_name (headers d) = true).
  { apply existsb_exists. exists h. split; [exact Hin |].
    apply is_date_name_spec. exists kw. split; assumption. }
  rewrite He. reflexivity.
Qed.

Lemma typeof_is_number (v1 v2 : value) :
  typeof v1 = typeof v2 -> is_number v1 = is_number v2.
Proof. destruct v1, v2; simpl; congruence. Qed.

Lemma typeof_is_string (v1 v2 : value) :
  typeof v1 = typeof v2 -> is_string v1 = is_string v2.
Proof. destruct v1, v2; simpl; congruence. Qed.

Lemma classify_first_row_types (hs : list string) (r1 r2 : row) (t1 t2 : list row) :
  map (fun h => typeof (get r1 h)) hs = map (fun h => typeof (get r2 h)) hs ->
  Analyzer.classify hs (r1 :: t1) = Analyzer.classify hs (r2 :: t2).
Proof.
  intros Ht.
  assert (Hn : Analyzer.numericColumns hs (r1 :: t1) = Analyzer.numericColumns hs (r2 :: t2)).
  { apply filter_ext_in. intros h Hh. simpl. apply typeof_is_number.
    revert h Hh. apply map_ext_in_iff. exact Ht. }
  assert (Hs : Analyzer.textColumns hs (r1 :: t1) = Analyzer.textColumns hs (r2 :: t2)).
  { apply filter_ext_in. intros h Hh. simpl. apply typeof_is_string.
    revert h Hh. apply map_ext_in_iff. exact Ht. }
  unfold Analyzer.classify. rewrite Hn, Hs. reflexivity.
Qed.

Lemma analyzeDataStructure_reads_only (w : World) :
  tamboCSVData (world_after Analyzer.analyzeDataStructure w) = tamboCSVData w.
Proof.
  unfold world_after, Analyzer.analyzeDataStructure, logged, bind, getCSVData, throw, ret.
  destruct (tamboCSVData w) as [d|] eqn:Hd; simpl; [| exact Hd].
  destruct (Nat.eqb (length (headers d)) 0); simpl; [exact Hd |].
  destruct (Nat.eqb (length (rows d)) 0); simpl; exact Hd.
Qed.

Lemma analyzeDataStructure_slot (w1 w2 : World) :
  tamboCSVData w1 = tamboCSVData w2 ->
  result_of Analyzer.analyzeDataStructure w1 = result_of Analyzer.analyzeDataStructure w2.
Proof.
  intros H.
  unfold result_of, Analyzer.analyzeDataStructure, logged, bind, getCSVData, throw, ret.
  rewrite H. destruct (tamboCSVData w2) as [d|]; simpl; [| reflexivity].
  destruct (Nat.eqb (length (headers d)) 0); simpl; [reflexivity |].
  destruct (Nat.eqb (length (rows d)) 0); reflexivity.
Qed.

(** C8. Classification is deterministic: invoked again on the unchanged
    store it returns the same result and leaves the dataset in place; and two
    loaded datasets with the same column names and the same types of
    first-row values are classified identically. *)
Theorem classification_is_deterministic (w1 w2 : World) (d1 d2 : CSVDataStore) :
  tamboCSVData w1 = Some d1 -> tamboCSVData w2 = Some d2 ->
  headers d1 = headers d2 -> Spec.first_row_types d1 = Spec.first_row_types d2 ->
  result_of Analyzer.analyzeDataStructure w1 = result_of Analyzer.analyzeDataStructure w2
  /\ result_of Analyzer.analyzeDataStructure (world_after Analyzer.analyzeDataStructure w1)
     = result_of Analyzer.analyzeDataStructure w1
  /\ tamboCSVData (world_after Analyzer.analyzeDataStructure w1) = Some d1.
Proof.
  intros H1 H2 Hh Ht. split; [| split].
  - unfold result_of, Analyzer.analyzeDataStructure, logged, bind, getCSVData, throw, ret.
    rewrite H1, H2, <- Hh. simpl.
    destruct (Nat.eqb (length (headers d1)) 0); simpl; [reflexivity |].
    unfold Spec.first_row_types in Ht. rewrite <- Hh in Ht.
    destruct (rows d1) as [|r1 t1], (rows d2) as [|r2 t2]; simpl; try discriminate.
    + reflexivity.
    + injection Ht as Ht. rewrite (classify_first_row_types _ r1 r2 t1 t2 Ht). reflexivity.
  - apply analyzeDataStructure_slot, analyzeDataStructure_reads_only.
  - rewrite analyzeDataStructure_reads_only. exact H1.
Qed.

End ShapeClassification.

Lemma date_name_rule_on_sales :
  result_of Analyzer.analyzeDataStructure (Sample.loaded Sample.sales) =
  Returned
    {| Analyzer.dataType := Analyzer.timeseries;
       Analyzer.suggestedComponent := Analyzer.Graph;
       Analyzer.reasoning := "Your data contains temporal information (dates/times). Time-series data is best visualized as trends and patterns using a Graph component.";
       Analyzer.confidence := S754_finite false 8556839292003942 (-53) |}.
Proof.
  apply (date_name_rule_takes_precedence (Sample.loaded Sample.sales) Sample.sales
           "Month" "month").
  - reflexivity.
  - discriminate.
  - simpl. tauto.
  - simpl. tauto.
  - exists EmptyString, EmptyString. reflexivity.
Defined.

Lemma classification_is_deterministic_on_sales :
  result_of Analyzer.analyzeDataStructure (Sample.loaded Sample.sales)
  = result_of Analyzer.analyzeDataStructure (Sample.loaded Sample.december).
Proof.
  apply (classification_is_deterministic (Sample.loaded Sample.sales)
           (Sample.loaded Sample.december) Sample.sales Sample.december);
    reflexivity.
Defined.

(** ** Query engine *)

Section QueryEngine.
Context {casing : Casing}.

Lemma rowArray_render (hs : list string) (r : row) :
  Query.rowArray hs r = map (Spec.render_cell r) hs.
Proof.
  unfold Query.rowArray. apply map_ext. intros h.
  unfold Spec.render_cell, get. destruct (r !! h) as [[| | b | n | s]|]; reflexivity.
Qed.

(** C2. Querying a loaded dataset that has a column and a row, with no
    filter, no sort and no limit, returns the column names in order, every row
    in its original order rendered cell by cell (missing cells as the empty
    string), and the row count as [totalRows]. *)
Theorem plain_query_round_trip lc (w : World) (d : CSVDataStore) (q : string) :
  tamboCSVData w = Some d -> headers d <> [] -> rows d <> [] ->
  exists res,
    result_of (Query.analyzeCSV lc (Spec.plain_query q)) w = Returned res
    /\ Query.headers res = headers d
    /\ Query.rows res = map (fun r => map (Spec.render_cell r) (headers d)) (rows d)
    /\ Query.totalRows res = length (rows d).
Proof.
  intros Hd Hh Hr. unfold result_of.
  rewrite (analyzeCSV_loaded lc _ w d Hd Hh Hr). simpl.
  eexists. split; [reflexivity |]. simpl. repeat split.
  apply map_ext. intros r. apply rowArray_render.
Qed.






Lemma Array_includes_spec (l : list string) (x : string) :
  Array_includes l x = true <-> In x l.
Proof.
  unfold Array_includes. rewrite existsb_exists. split.
  - intros [y [Hy E]]. apply String.eqb_eq in E. subst y. exact Hy.
  - intros H. exists x. split; [exact H | apply String.eqb_refl].
Qed.



End QueryEngine.

Lemma plain_query_round_trip_on_sales :
  exists res,
    result_of (Query.analyzeCSV Sample.codeUnitCompare (Spec.plain_query "all rows"))
              (Sample.loaded Sample.sales) = Returned res
    /\ Query.headers res = ["Month"; "Revenue"; "Region"]
    /\ Query.rows res = [["Jan"; "100"; "East"]; ["Feb"; "150"; "West"]]
    /\ Query.totalRows res = 2%nat.
Proof.
  apply (plain_query_round_trip Sample.codeUnitCompare (Sample.loaded Sample.sales)
           Sample.sales "all rows"); [reflexivity | discriminate | discriminate].
Defined.





(** ** Repeated sorting *)

Section RepeatedSorting.
Context {casing : Casing}.

Section SortTwice.
Context {A : Type}.
Variable cmp : A -> A -> number.

(** The comparator never orders two elements both ways. *)
Hypothesis cmp_one_way :
  forall x y, gt (cmp x y) pzero = true -> gt (cmp y x) pzero = false.

Lemma insert_HdRel (y x : A) (l : list A) :
  in_order cmp y x -> HdRel (in_order cmp) y l -> HdRel (in_order cmp) y (insert cmp x l).
Proof.
  intros Hyx Hl. destruct l as [|z l]; simpl.
  - constructor. exact Hyx.
  - inversion Hl; subst. destruct (gt (cmp x z) pzero); constructor; assumption.
Qed.

Lemma insert_Sorted (x : A) (l : list A) :
  Sorted (in_order cmp) l -> Sorted (in_order cmp) (insert cmp x l).
Proof.
  induction 1 as [|y l Hs IH Hhd]; simpl.
  - repeat constructor.
  - destruct (gt (cmp x y) pzero) eqn:E.
    + constructor; [exact IH |]. apply insert_HdRel; [| exact Hhd].
      apply cmp_one_way. exact E.
    + constructor; [constructor; assumption |]. constructor. exact E.
Qed.

Lemma sort_Sorted (l : list A) : Sorted (in_order cmp) (sort cmp l).
Proof.
  induction l as [|x l IH]; simpl; [constructor | apply insert_Sorted, IH].
Qed.

Lemma sort_of_Sorted (l : list A) : Sorted (in_order cmp) l -> sort cmp l = l.
Proof.
  induction 1 as [|x l Hs IH Hhd]; simpl; [reflexivity |].
  rewrite IH. destruct Hhd as [|y l' Hxy]; simpl; [reflexivity |].
  unfold in_order in Hxy. rewrite Hxy. reflexivity.
Qed.

End SortTwice.

Section SortConsistent.
Context {A : Type}.
Variable cmp : A -> A -> number.

Lemma consistent_comparatorb_sound (l : list A) :
  consistent_comparatorb cmp l = true -> consistent_comparator cmp l.
Proof.
  unfold consistent_comparatorb. intros H a b c Ha Hb Hc.
  rewrite forallb_forall in H. specialize (H a Ha).
  rewrite forallb_forall in H. specialize (H b Hb).
  rewrite forallb_forall in H. specialize (H c Hc).
  unfold consistent_at in H.
  repeat (apply andb_true_iff in H; destruct H as [H ?]).
  apply negb_true_iff in H.
  repeat split; try assumption.
  - intros E. rewrite E in *. assumption.
  - intros E1 E2. rewrite E1, E2 in *. assumption.
  - intros E1 E2. rewrite E1, E2 in *. assumption.
  - intros E1 E2. rewrite E1, E2 in *. assumption.
Qed.

(** A consistent comparator never orders two elements both ways. *)
Lemma consistent_one_way (l : list A) (x y : A) :
  consistent_comparator cmp l -> In x l -> In y l ->
  gt (cmp x y) pzero = true -> gt (cmp y x) pzero = false.
Proof.
  intros Hc Hx Hy Hxy.
  destruct (gt (cmp y x) pzero) eqn:Hyx; [| reflexivity].
  destruct (Hc x y x Hx Hy Hx) as [_ [Hrefl [_ [_ [_ Habove]]]]].
  specialize (Habove Hxy Hyx).
  unfold level, above in Hrefl, Habove. rewrite Habove in Hrefl.
  rewrite andb_false_r in Hrefl. discriminate Hrefl.
Qed.

Lemma consistent_self (l : list A) (x : A) :
  consistent_comparator cmp l -> In x l -> gt (cmp x x) pzero = false.
Proof.
  intros Hc Hx. destruct (Hc x x x Hx Hx Hx) as [_ [Hrefl _]].
  unfold level, above in Hrefl. apply andb_true_iff in Hrefl.
  destruct Hrefl as [_ H]. apply negb_true_iff in H. exact H.
Qed.

Lemma insert_Sorted_in (x : A) (l : list A) :
  (forall y, In y l -> gt (cmp x y) pzero = true -> gt (cmp y x) pzero = false) ->
  Sorted (in_order cmp) l -> Sorted (in_order cmp) (insert cmp x l).
Proof.
  intros Hx Hs. induction Hs as [|y l Hs IH Hhd]; simpl.
  - repeat constructor.
  - destruct (gt (cmp x y) pzero) eqn:E.
    + constructor; [apply IH; intros z Hz; apply Hx; right; exact Hz |].
      assert (Hyx : in_order cmp y x) by (apply Hx; [left; reflexivity | exact E]).
      destruct l as [|z l]; simpl.
      * constructor. exact Hyx.
      * inversion Hhd; subst. destruct (gt (cmp x z) pzero); constructor; assumption.
    + constructor; [constructor; assumption |]. constructor. exact E.
Qed.

Lemma sort_Sorted_in (l : list A) :
  (forall x y, In x l -> In y l ->
     gt (cmp x y) pzero = true -> gt (cmp y x) pzero = false) ->
  Sorted (in_order cmp) (sort cmp l).
Proof.
  induction l as [|x l IH]; intros H; simpl; [constructor |].
  apply insert_Sorted_in.
  - intros y Hy. apply H; [left; reflexivity | right; apply (sort_In cmp y l Hy)].
  - apply IH. intros a b Ha Hb. apply H; right; assumption.
Qed.

Lemma sort_consistent_Sorted (l : list A) :
  consistent_comparator cmp l -> Sorted (in_order cmp) (sort cmp l).
Proof.
  intros Hc. apply sort_Sorted_in. intros x y. apply consistent_one_way. exact Hc.
Qed.


End SortConsistent.

(** Rounding a negative quantity never gives a number above zero. *)
Lemma binary_round_negative (m : positive) (e : Z) :
  SFltb pzero (binary_round prec emax true m e) = false.
Proof.
  unfold pzero, binary_round, binary_round_aux.
  destruct (shl_align m e _) as [mz ez].
  destruct (shr_fexp prec emax (Z.pos mz) ez loc_Exact) as [mrs e'].
  destruct (shr_fexp prec emax _ e' loc_Exact) as [mrs' e''].
  destruct (shr_m mrs'); [reflexivity | | reflexivity].
  destruct (e'' <=? emax - prec); reflexivity.
Qed.

Lemma binary_normalize_one_way (z : Z) (e : Z) :
  SFltb pzero (binary_normalize prec emax z e false) = true ->
  SFltb pzero (binary_normalize prec emax (- z) e false) = false.
Proof.
  destruct z as [|p|p]; simpl.
  - unfold pzero. discriminate.
  - intros _. apply binary_round_negative.
  - rewrite binary_round_negative. discriminate.
Qed.

(** A difference and the opposite difference are never both above zero. *)
Lemma sub_one_way (x y : number) :
  gt (sub x y) pzero = true -> gt (sub y x) pzero = false.
Proof.
  unfold gt, sub, pzero.
  destruct x as [sx|sx| |sx mx ex], y as [sy|sy| |sy my ey].
  16: { unfold SFsub. rewrite (Z.min_comm ey ex).
        set (a := cond_Zopp sx _). set (b := cond_Zopp sy _).
        replace (b - a) with (- (a - b)) by lia.
        apply binary_normalize_one_way. }
  all: try destruct sx; try destruct sy; cbv; congruence.
Qed.

Lemma given_inv (o : option string) (c : string) : Query.given o = Some c -> o = Some c.
Proof.
  unfold Query.given. destruct o as [c'|]; [| discriminate].
  destruct (String.eqb c' EmptyString); [discriminate |]. intros [= <-]. reflexivity.
Qed.


End RepeatedSorting.


(** ** Trends *)

Section Trends.
Context {casing : Casing}.

(** Percent change from a zero first value: never a finite number. *)
Lemma change_from_zero (last : number) (s : bool) :
  let change := mul (div (sub last (S754_zero s)) (S754_zero s)) (of_Z 100) in
  change = S754_nan \/ change = S754_infinity false \/ change = S754_infinity true.
Proof.
  destruct last as [sl|sl| |sl ml el]; try destruct sl; destruct s; cbv; auto.
Qed.

Lemma trendMetric_from_zero (rs : list row) (col : string) (s : bool) (rest : list number) :
  numbers_of rs col = S754_zero s :: rest -> rest <> [] ->
  exists v t,
    Insights.trendMetric rs col =
      [ {| Insights.InsightMetric.label := col +:+ " Trend";
           Insights.InsightMetric.value := v;
           Insights.InsightMetric.type := t |} ]
    /\ In (v, t) [ ("+Infinity%", Insights.positive);
                   ("-Infinity%", Insights.warning);
                   ("NaN%", Insights.neutral) ].
Proof.
  intros Hv Hrest. unfold Insights.trendMetric. rewrite Hv.
  destruct rest as [|r0 rest']; [congruence |].
  change (Nat.leb 2 (length (S754_zero s :: r0 :: rest'))) with true.
  change (nth 0 (S754_zero s :: r0 :: rest') NaN) with (S754_zero s).
  set (last := nth _ _ NaN).
  destruct (change_from_zero last s) as [E | [E | E]]; rewrite E;
    eexists _, _; (split; [reflexivity |]); simpl; auto.
Qed.

(** C10. For a loaded dataset with a numeric column holding at least two
    numbers, the first of which is zero, the trend analysis returns normally
    and reports for that column a percentage that is not finite: the metric
    value is "+Infinity%", "-Infinity%" or "NaN%". *)
Theorem trend_from_zero_is_not_finite (w : World) (d : CSVDataStore)
    (p : Insights.DataInsightsParams) (col : string) (s : bool) (rest : list number) :
  tamboCSVData w = Some d -> rows d <> [] ->
  Insights.analysisType p = "trends" ->
  In col (Insights.numericColumns (headers d) (rows d)) ->
  numbers_of (rows d) col = S754_zero s :: rest -> rest <> [] ->
  exists ins v t,
    result_of (Insights.generateDataInsights p) w = Returned ins
    /\ In {| Insights.InsightMetric.label := col +:+ " Trend";
             Insights.InsightMetric.value := v;
             Insights.InsightMetric.type := t |} (Insights.metrics ins)
    /\ In (v, t) [ ("+Infinity%", Insights.positive);
                   ("-Infinity%", Insights.warning);
                   ("NaN%", Insights.neutral) ].
Proof.
  intros Hd Hr Ht Hcol Hv Hrest.
  assert (Hh : headers d <> []).
  { intros E. unfold Insights.numericColumns in Hcol. rewrite E in Hcol. destruct Hcol. }
  destruct (trendMetric_from_zero (rows d) col s rest Hv Hrest) as [v [t [Hm Hvt]]].
  unfold result_of. rewrite (generateDataInsights_loaded p w d Hd Hh Hr Ht). simpl.
  eexists _, v, t. split; [reflexivity |]. split; [| exact Hvt].
  assert (Hin : In {| Insights.InsightMetric.label := col +:+ " Trend";
                      Insights.InsightMetric.value := v;
                      Insights.InsightMetric.type := t |}
                   (flat_map (Insights.trendMetric (rows d))
                      (Insights.numericColumns (headers d) (rows d)))).
  { apply in_flat_map. exists col. split; [exact Hcol |]. rewrite Hm. left. reflexivity. }
  simpl. destruct (flat_map _ _) as [|m ms]; [destruct Hin | exact Hin].
Qed.

End Trends.

Lemma trend_from_zero_on_signups :
  exists ins,
    result_of (Insights.generateDataInsights Sample.trends)
              (Sample.loaded Sample.signups) = Returned ins
    /\ Insights.metrics ins =
       [ {| Insights.InsightMetric.label := "Signups Trend";
            Insights.InsightMetric.value := "+Infinity%";
            Insights.InsightMetric.type := Insights.positive |} ].
Proof.
  destruct (trend_from_zero_is_not_finite (Sample.loaded Sample.signups) Sample.signups
              Sample.trends "Signups" false [of_Z 12])
    as [ins [v [t [Hres _]]]];
    [reflexivity | discriminate | reflexivity | vm_compute; left; reflexivity
    | reflexivity | discriminate |].
  exists ins. split; [exact Hres |].
  revert Hres. vm_compute. intros [= <-]. reflexivity.
Defined.

(** ** Sign of a rounded difference *)

Lemma digits2_pos_upper (m : positive) : Z.pos m < 2 ^ Z.pos (digits2_pos m).
Proof.
  induction m as [m IH | m IH |]; simpl digits2_pos.
  - rewrite Pos2Z.inj_succ, Z.pow_succ_r by lia. lia.
  - rewrite Pos2Z.inj_succ, Z.pow_succ_r by lia. lia.
  - reflexivity.
Qed.

Lemma digits2_pos_lower (m : positive) : 2 ^ Z.pos (digits2_pos m) <= 2 * Z.pos m.
Proof.
  induction m as [m IH | m IH |]; simpl digits2_pos.
  - rewrite Pos2Z.inj_succ, Z.pow_succ_r by lia. lia.
  - rewrite Pos2Z.inj_succ, Z.pow_succ_r by lia. lia.
  - simpl. lia.
Qed.

Lemma shr_1_lower (r : shr_record) (k : Z) :
  0 <= k -> 2 ^ (1 + k) <= shr_m r -> 2 ^ k <= shr_m (shr_1 r).
Proof.
  intros Hk. rewrite Z.pow_add_r by lia. change (2 ^ 1) with 2.
  assert (0 < 2 ^ k) by (apply Z.pow_pos_nonneg; lia).
  destruct r as [m rb sb]. destruct m as [|[p|p|]|p]; simpl; lia.
Qed.

Lemma iter_shr_1_lower (p : positive) :
  forall (r : shr_record) (k : Z),
    0 <= k -> 2 ^ (Z.pos p + k) <= shr_m r -> 2 ^ k <= shr_m (SpecFloat.iter_pos shr_1 p r).
Proof.
  induction p as [p IH | p IH |]; intros r k Hk Hr; simpl SpecFloat.iter_pos.
  - apply IH; [exact Hk |]. apply IH; [lia |]. apply shr_1_lower; [lia |].
    replace (1 + (Z.pos p + (Z.pos p + k))) with (Z.pos p~1 + k) by lia. exact Hr.
  - apply IH; [exact Hk |]. apply IH; [lia |].
    replace (Z.pos p + (Z.pos p + k)) with (Z.pos p~0 + k) by lia. exact Hr.
  - apply shr_1_lower; assumption.
Qed.

(** Shifting a positive mantissa to its format exponent keeps it positive,
    provided the exponent is not below the minimal one. *)
Lemma shr_fexp_positive (m : positive) (e : Z) (l : location) :
  emin prec emax <= e ->
  0 < shr_m (fst (shr_fexp prec emax (Z.pos m) e l))
  /\ emin prec emax <= snd (shr_fexp prec emax (Z.pos m) e l).
Proof.
  intros He. unfold shr_fexp, shr. simpl Zdigits2.
  set (r := shr_record_of_loc (Z.pos m) l).
  assert (Hr : shr_m r = Z.pos m) by (unfold r; destruct l as [|[]]; reflexivity).
  destruct (fexp prec emax (Z.pos (digits2_pos m) + e) - e) as [|n|n] eqn:En; simpl.
  - rewrite Hr. lia.
  - split; [| lia].
    assert (Hn : Z.pos n < Z.pos (digits2_pos m)).
    { revert En He. unfold fexp, emin, prec, emax. lia. }
    assert (Hlow : 2 ^ Z.pos n <= shr_m r).
    { rewrite Hr. pose proof (digits2_pos_lower m) as Hd.
      assert (2 * 2 ^ Z.pos n <= 2 ^ Z.pos (digits2_pos m)).
      { rewrite <- Z.pow_succ_r by lia. apply Z.pow_le_mono_r; lia. }
      lia. }
    pose proof (iter_shr_1_lower n r 0 (Z.le_refl 0)) as Hi.
    rewrite Z.add_0_r in Hi. specialize (Hi Hlow). simpl in Hi. lia.
  - rewrite Hr. lia.
Qed.

Lemma round_nearest_even_positive (m : Z) (l : location) :
  0 < m -> 0 < round_nearest_even m l.
Proof.
  intros Hm. destruct l as [|[]]; simpl; try lia. destruct (Z.even m); lia.
Qed.

Lemma binary_round_aux_positive (m : positive) (e : Z) (l : location) :
  emin prec emax <= e ->
  SFltb pzero (binary_round_aux prec emax false (Z.pos m) e l) = true.
Proof.
  intros He. unfold binary_round_aux.
  destruct (shr_fexp_positive m e l He) as [H1 H2].
  destruct (shr_fexp prec emax (Z.pos m) e l) as [mrs' e']. simpl in H1, H2.
  pose proof (round_nearest_even_positive (shr_m mrs') (loc_of_shr_record mrs') H1) as Hp.
  destruct (round_nearest_even (shr_m mrs') (loc_of_shr_record mrs')) as [|m1|m1];
    try lia.
  destruct (shr_fexp_positive m1 e' loc_Exact H2) as [H3 _].
  destruct (shr_fexp prec emax (Z.pos m1) e' loc_Exact) as [mrs'' e'']. simpl in H3.
  destruct (shr_m mrs'') as [|m2|m2]; try lia.
  destruct (e'' <=? emax - prec); reflexivity.
Qed.

Lemma binary_round_positive (m : positive) (e : Z) :
  emin prec emax <= e ->
  SFltb pzero (binary_round prec emax false m e) = true.
Proof.
  intros He. unfold binary_round, shl_align.
  destruct (fexp prec emax (Z.pos (digits2_pos m) + e) - e) as [|d|d] eqn:Ed;
    apply binary_round_aux_positive; try exact He.
  unfold fexp in *. lia.
Qed.

Lemma shl_align_value (m : positive) (e e' : Z) :
  e' <= e -> Z.pos (fst (shl_align m e e')) = Z.pos m * 2 ^ (e - e').
Proof.
  intros He. unfold shl_align.
  destruct (e' - e) as [|d|d] eqn:Ed; simpl fst.
  - replace (e - e') with 0 by lia. lia.
  - lia.
  - replace (e - e') with (Z.pos d) by lia.
    rewrite <- Z.shiftl_mul_pow2 by lia. unfold Z.shiftl.
    apply (Pos.iter_swap_gen _ _ Z.pos xO (Z.mul 2)). reflexivity.
Qed.

Lemma bounded_exponent (m : positive) (e : Z) :
  bounded prec emax m e = true ->
  emin prec emax <= e
  /\ Z.pos (digits2_pos m) <= prec
  /\ (emin prec emax < e -> Z.pos (digits2_pos m) = prec).
Proof.
  unfold bounded, canonical_mantissa, fexp, emin, prec, emax.
  rewrite andb_true_iff, Z.eqb_eq. lia.
Qed.

(** Of two canonical mantissas, the one with the larger exponent denotes the
    larger magnitude. *)
Lemma canonical_lt (mx : positive) (ex : Z) (my : positive) (ey : Z) :
  bounded prec emax mx ex = true -> bounded prec emax my ey = true ->
  ex < ey -> Z.pos mx < Z.pos my * 2 ^ (ey - ex).
Proof.
  intros Hx Hy Hlt.
  destruct (bounded_exponent mx ex Hx) as [Hx1 [Hx2 _]].
  destruct (bounded_exponent my ey Hy) as [_ [_ Hy3]].
  assert (Hdy : Z.pos (digits2_pos my) = prec) by (apply Hy3; lia).
  pose proof (digits2_pos_upper mx) as Hux.
  pose proof (digits2_pos_lower my) as Hly. rewrite Hdy in Hly.
  assert (Hpx : 2 ^ Z.pos (digits2_pos mx) <= 2 ^ prec)
    by (apply Z.pow_le_mono_r; lia).
  assert (Hp : 2 ^ 1 <= 2 ^ (ey - ex)) by (apply Z.pow_le_mono_r; lia).
  change (2 ^ 1) with 2 in Hp.
  assert (Z.pos my * 2 <= Z.pos my * 2 ^ (ey - ex))
    by (apply Z.mul_le_mono_nonneg_l; lia).
  lia.
Qed.

Lemma binary_normalize_positive (z e : Z) :
  0 < z -> emin prec emax <= e ->
  SFltb pzero (binary_normalize prec emax z e false) = true.
Proof.
  intros Hz He. destruct z as [|p|p]; try lia. apply binary_round_positive. exact He.
Qed.

(** The difference [y - x] of two numbers with [x < y] is above zero. *)
Lemma sub_positive (x y : number) :
  valid_binary prec emax x = true -> valid_binary prec emax y = true ->
  lt x y = true -> gt (sub y x) pzero = true.
Proof.
  unfold lt, gt, sub.
  destruct x as [sx|sx| |sx mx ex], y as [sy|sy| |sy my ey]; intros Hx Hy.
  16: { simpl in Hx, Hy.
        destruct (bounded_exponent mx ex Hx) as [Hex _].
        destruct (bounded_exponent my ey Hy) as [Hey _].
        intros Hlt. unfold SFsub. apply binary_normalize_positive; [| lia].
        rewrite (shl_align_value my ey (Z.min ey ex)) by lia.
        rewrite (shl_align_value mx ex (Z.min ey ex)) by lia.
        unfold SFltb, SFcompare in Hlt.
        destruct sx, sy; simpl cond_Zopp; try discriminate Hlt.
        - (* both negative *)
          destruct (Z.compare_spec ex ey) as [E | E | E]; try discriminate Hlt.
          + subst ey. rewrite Z.min_id, Z.sub_diag. simpl Z.pow.
            rewrite Pos.compare_cont_spec in Hlt. simpl in Hlt.
            destruct (Pos.compare_spec mx my); try discriminate Hlt. lia.
          + rewrite Z.min_l by lia. rewrite Z.sub_diag. simpl (2 ^ 0).
            pose proof (canonical_lt my ey mx ex Hy Hx E). lia.
        - (* x negative, y positive *)
          assert (0 < 2 ^ (ey - Z.min ey ex)) by (apply Z.pow_pos_nonneg; lia).
          assert (0 < 2 ^ (ex - Z.min ey ex)) by (apply Z.pow_pos_nonneg; lia).
          nia.
        - (* both positive *)
          destruct (Z.compare_spec ex ey) as [E | E | E]; try discriminate Hlt.
          + subst ey. rewrite Z.min_id, Z.sub_diag. simpl Z.pow.
            rewrite Pos.compare_cont_spec in Hlt. simpl in Hlt.
            destruct (Pos.compare_spec mx my); try discriminate Hlt. lia.
          + rewrite Z.min_r by lia. rewrite Z.sub_diag. simpl (2 ^ 0).
            pose proof (canonical_lt mx ex my ey Hx Hy E). lia. }
  all: clear Hx Hy; try destruct sx; try destruct sy; cbv; congruence.
Qed.

Lemma SFcompare_antisym (x y : number) :
  SFcompare x y = option_map CompOpp (SFcompare y x).
Proof.
  destruct x as [sx|sx| |sx mx ex], y as [sy|sy| |sy my ey];
    try destruct sx; try destruct sy; try reflexivity;
    simpl; rewrite !Pos.compare_cont_spec; simpl Pos.switch_Eq;
    rewrite (Z.compare_antisym ey ex), (Pos.compare_antisym my mx);
    destruct (Z.compare ey ex), (Pos.compare my mx); reflexivity.
Qed.

(** Two numbers, neither of which is NaN, are comparable. *)
Lemma not_ge_lt (x y : number) :
  is_nan x = false -> is_nan y = false -> ge x y = false -> lt x y = true.
Proof.
  unfold ge, lt, SFleb, SFltb. intros Hx Hy. rewrite (SFcompare_antisym y x).
  destruct (SFcompare x y) as [[]|] eqn:E; simpl; try congruence.
  destruct x, y; simpl in *; try discriminate;
    repeat match goal with s : bool |- _ => destruct s end; discriminate.
Qed.

(** ** Ranking *)

Section Ranking.
Context {casing : Casing}.


Lemma firstn_In {A} (n : nat) (l : list A) (x : A) : In x (firstn n l) -> In x l.
Proof.
  revert l. induction n as [|n IH]; intros l; simpl; [intros [] |].
  destruct l as [|y l]; simpl; [trivial |].
  intros [<- | H]; [left; reflexivity | right; apply IH, H].
Qed.

Lemma slice0_firstn {A} (l : list A) (n : number) : exists k, slice0 l n = firstn k l.
Proof.
  unfold slice0. destruct (ToIntegerOrInfinity n) as [|z|].
  - exists 0%nat. reflexivity.
  - destruct (z <? 0); eexists; reflexivity.
  - exists (length l). symmetry. apply firstn_all.
Qed.




Lemma map_indexed_from_rank (label col : string) (l : list row) (i : nat) :
  map Insights.TopPerformer.rank
      (map_indexed_from (Insights.performer label col) i l)
  = seq (i + 1) (length l).
Proof.
  revert i. induction l as [|r l IH]; intros i; simpl; [reflexivity |].
  f_equal. rewrite IH. reflexivity.
Qed.



Lemma compareByColumn_one_way (col : string) (a b : row) :
  gt (Insights.compareByColumn col a b) pzero = true ->
  gt (Insights.compareByColumn col b a) pzero = false.
Proof.
  unfold Insights.compareByColumn.
  destruct (get a col) as [| | ba | na | sa], (get b col) as [| | bb | nb | sb];
    try (cbv; congruence).
  apply sub_one_way.
Qed.

Lemma in_order_ge (col : string) (a b : row) (x y : number) :
  get a col = VNum x -> is_nan x = false -> valid_binary prec emax x = true ->
  get b col = VNum y -> is_nan y = false -> valid_binary prec emax y = true ->
  in_order (Insights.compareByColumn col) a b -> ge x y = true.
Proof.
  intros Ha Hnx Hvx Hb Hny Hvy. unfold in_order, Insights.compareByColumn.
  rewrite Ha, Hb. intros Hord.
  destruct (ge x y) eqn:E; [reflexivity |].
  rewrite (sub_positive x y Hvx Hvy (not_ge_lt x y Hnx Hny E)) in Hord. discriminate.
Qed.

Lemma sorted_numbers_descending (col : string) (l : list row) :
  (forall r, In r l -> Spec.numeric_cell col r) ->
  Sorted (in_order (Insights.compareByColumn col)) l ->
  map (fun r => String_ (nullish (get r col) (VStr "N/A"))) l
  = map JSNumber.toString (numbers_of l col)
  /\ Spec.descending (numbers_of l col).
Proof.
  intros Hnum Hs. induction Hs as [|a l Hs IH Hhd].
  - split; [reflexivity | constructor].
  - destruct (Hnum a (or_introl eq_refl)) as [x [Ha [Hnx Hvx]]].
    destruct IH as [IH1 IH2]; [intros r Hr; apply Hnum; right; exact Hr |].
    unfold numbers_of in *. simpl. rewrite Ha. simpl. split.
    + f_equal. exact IH1.
    + constructor; [exact IH2 |].
      destruct Hhd as [|b l' Hab]; simpl; [constructor |].
      destruct (Hnum b (or_intror (or_introl eq_refl))) as [y [Hb [Hny Hvy]]].
      rewrite Hb. simpl. constructor.
      exact (in_order_ge col a b x y Ha Hnx Hvx Hb Hny Hvy Hab).
Qed.

Lemma logged_result {A} (prefix : string) (m : M A) (w : World) :
  result_of (logged prefix m) w = result_of m w.
Proof.
  unfold result_of, logged. destruct (m w) as [[a | e] w']; reflexivity.
Qed.





End Ranking.



(** ** Scenarios of the specification *)

Example products_are_ranking_data :
  exists r,
    result_of Analyzer.analyzeDataStructure (Sample.loaded Sample.products) = Returned r
    /\ Analyzer.dataType r = Analyzer.ranking
    /\ Analyzer.suggestedComponent r = Analyzer.InsightCard
    /\ Analyzer.confidence r = of_decimal 9 (-1).
Proof. eexists. split; [vm_compute; reflexivity |]. repeat split. Qed.

Example filter_east_keeps_january :
  exists res,
    result_of (Query.analyzeCSV Sample.codeUnitCompare Sample.east_query)
              (Sample.loaded Sample.sales) = Returned res
    /\ Query.rows res = [["Jan"; "100"; "East"]]
    /\ Query.totalRows res = 1%nat.
Proof. eexists. split; [vm_compute; reflexivity |]. split; reflexivity. Qed.

Example revenue_trend_is_plus_fifty :
  exists ins,
    result_of (Insights.generateDataInsights Sample.trends)
              (Sample.loaded Sample.sales) = Returned ins
    /\ Insights.metrics ins =
       [ {| Insights.InsightMetric.label := "Revenue Trend";
            Insights.InsightMetric.value := "+50.0%";
            Insights.InsightMetric.type := Insights.positive |} ].
Proof. eexists. split; [vm_compute; reflexivity |]. reflexivity. Qed.

(** A limit is applied after the sort and never lengthens the grid. *)
Example limit_after_sort :
  exists res,
    result_of
      (Query.analyzeCSV Sample.codeUnitCompare
         {| Query.query := "best"; Query.sortBy := Some "Revenue";
            Query.sortOrder := Some Query.desc; Query.limit := Some (of_Z 2);
            Query.filterColumn := None; Query.filterValue := None |})
      (Sample.loaded Sample.products) = Returned res
    /\ Query.rows res = [["Gizmo"; "5"; "200"]; ["Widget"; "3"; "120"]]
    /\ Query.totalRows res = 3%nat.
Proof. eexists. split; [vm_compute; reflexivity |]. split; reflexivity. Qed.

(** * Further properties *)

(** ** Sorting keeps ties in place *)

Section SortKeeps.
Context {A : Type}.
Variable cmp : A -> A -> number.

(** Elements selected by [P] never move past one another. *)
Variable P : A -> bool.

Lemma insert_filter (x : A) (l : list A) :
  (forall y, In y l -> P x = true -> P y = true -> gt (cmp x y) pzero = false) ->
  List.filter P (insert cmp x l) = List.filter P (x :: l).
Proof.
  induction l as [|y l IH]; intros Hties; [reflexivity |].
  simpl insert. destruct (gt (cmp x y) pzero) eqn:E; [| reflexivity].
  simpl. simpl in IH. rewrite IH by (intros z Hz; apply Hties; right; exact Hz).
  destruct (P x) eqn:Px, (P y) eqn:Py; try reflexivity.
  rewrite (Hties y (or_introl eq_refl) eq_refl Py) in E. discriminate E.
Qed.

Lemma sort_filter (l : list A) :
  (forall x y, In x l -> In y l -> P x = true -> P y = true ->
     gt (cmp x y) pzero = false) ->
  List.filter P (sort cmp l) = List.filter P l.
Proof.
  induction l as [|x l IH]; intros Hties; [reflexivity |].
  simpl sort. rewrite insert_filter.
  - simpl. rewrite IH by (intros a b Ha Hb; apply Hties; right; assumption).
    reflexivity.
  - intros y Hy. apply Hties; [left; reflexivity | right; apply (sort_In cmp y l Hy)].
Qed.

End SortKeeps.

(** ** More on the query engine *)

Section QueryGrid.
Context {casing : Casing}.

(** X1. A limit only cuts the grid: the rows returned by a query are a
    prefix of the rows returned by the same query without its limit, and the
    headers, [totalRows] and the summary are those of the unlimited query. *)
Theorem limit_keeps_a_prefix lc (w : World) (d : CSVDataStore)
    (p : Query.AnalyzeCSVParams) :
  tamboCSVData w = Some d -> headers d <> [] -> rows d <> [] ->
  exists res full k,
    result_of (Query.analyzeCSV lc p) w = Returned res
    /\ result_of (Query.analyzeCSV lc (Terms.without_limit p)) w = Returned full
    /\ Query.rows res = firstn k (Query.rows full)
    /\ Query.headers res = Query.headers full
    /\ Query.totalRows res = Query.totalRows full
    /\ Query.summary res = Query.summary full.
Proof.
  intros Hd Hh Hr. unfold result_of.
  rewrite !(analyzeCSV_loaded lc _ w d Hd Hh Hr). simpl.
  set (rs := Query.applySort lc p (headers d) (Query.applyFilter p (rows d))).
  assert (Hk : exists k, Query.applyLimit p rs = firstn k rs).
  { unfold Query.applyLimit. destruct (Query.limit p) as [n|].
    - destruct (JSNumber.truthy n && gt n pzero)%bool; [apply slice0_firstn |].
      exists (length rs). symmetry. apply firstn_all.
    - exists (length rs). symmetry. apply firstn_all. }
  destruct Hk as [k Hk].
  eexists _, _, k. split; [reflexivity |]. split; [reflexivity |]. simpl.
  fold rs. rewrite Hk, firstn_map. repeat split; reflexivity.
Qed.

Lemma applyFilter_incl (p : Query.AnalyzeCSVParams) (rs : list row) (r : row) :
  In r (Query.applyFilter p rs) -> In r rs.
Proof.
  unfold Query.applyFilter.
  destruct (Query.given (Query.filterColumn p)), (Query.given (Query.filterValue p));
    trivial.
  intros H. apply filter_In in H. apply H.
Qed.

Lemma applySort_Permutation lc (p : Query.AnalyzeCSVParams) (hs : list string)
    (rs : list row) :
  Permutation (Query.applySort lc p hs rs) rs.
Proof.
  unfold Query.applySort. destruct (Query.given (Query.sortBy p)) as [col|]; [| reflexivity].
  destruct (Array_includes hs col); [apply sort_Permutation | reflexivity].
Qed.

(** X2. Without a limit, the grid is the rendering of a rearrangement of
    the rows kept by the filter: sorting neither drops nor repeats a row, and
    every row shown is a stored row. *)
Theorem grid_rearranges_filtered_rows lc (w : World) (d : CSVDataStore)
    (p : Query.AnalyzeCSVParams) :
  tamboCSVData w = Some d -> headers d <> [] -> rows d <> [] ->
  Query.limit p = None ->
  exists res shown,
    result_of (Query.analyzeCSV lc p) w = Returned res
    /\ Query.rows res = map (Query.rowArray (headers d)) shown
    /\ Permutation shown (Query.applyFilter p (rows d))
    /\ (forall r, In r shown -> In r (rows d)).
Proof.
  intros Hd Hh Hr Hl. unfold result_of.
  rewrite (analyzeCSV_loaded lc p w d Hd Hh Hr). simpl.
  eexists _, _. split; [reflexivity |]. simpl.
  unfold Query.applyLimit. rewrite Hl. split; [reflexivity |].
  pose proof (applySort_Permutation lc p (headers d) (Query.applyFilter p (rows d))) as Hp.
  split; [exact Hp |].
  intros r Hin. apply (applyFilter_incl p). apply (Permutation_in _ Hp). exact Hin.
Qed.

(** X3. The grid is rectangular: every row of a returned result has exactly
    one cell per header, whatever cells the stored rows have or lack. *)
Theorem grid_is_rectangular lc (w : World) (p : Query.AnalyzeCSVParams) :
  match result_of (Query.analyzeCSV lc p) w with
  | Returned res =>
      Forall (fun cells => length cells = length (Query.headers res)) (Query.rows res)
  | Thrown _ => True
  end.
Proof.
  unfold result_of, Query.analyzeCSV, logged, bind, getCSVData, throw, ret.
  destruct (tamboCSVData w) as [d|]; simpl; [| exact I].
  destruct (Nat.eqb (length (headers d)) 0 || Nat.eqb (length (rows d)) 0)%bool;
    simpl; [exact I |].
  apply List.Forall_forall. intros cells Hin. apply in_map_iff in Hin.
  destruct Hin as [r [<- _]]. unfold Query.rowArray. apply length_map.
Qed.

Lemma numbers_of_numeric_column (rs : list row) (col : string) :
  is_number (first_cell rs col) = true -> Nat.ltb 0 (length (numbers_of rs col)) = true.
Proof.
  destruct rs as [|r rs]; simpl; [discriminate |].
  unfold numbers_of. simpl. destruct (get r col); try discriminate. reflexivity.
Qed.

(** X4. The summary of a query has the "Total Rows" entry followed by
    exactly one average per numeric column, for the first three numeric
    columns in header order: a column whose first cell is a number always has
    a number to average. *)
Theorem summary_has_one_average_per_numeric_column lc (w : World) (d : CSVDataStore)
    (p : Query.AnalyzeCSVParams) :
  tamboCSVData w = Some d -> headers d <> [] -> rows d <> [] ->
  exists res,
    result_of (Query.analyzeCSV lc p) w = Returned res
    /\ map Query.label (Query.summary res)
       = "Total Rows"
         :: map (fun c => "Avg " +:+ c)
              (firstn 3 (List.filter (fun h => is_number (first_cell (rows d) h))
                           (headers d))).
Proof.
  intros Hd Hh Hr. unfold result_of.
  rewrite (analyzeCSV_loaded lc p w d Hd Hh Hr). simpl.
  eexists. split; [reflexivity |]. simpl. f_equal.
  unfold Query.averages.
  set (cols := firstn 3 _).
  assert (Hcols : forall c, In c cols -> is_number (first_cell (rows d) c) = true).
  { intros c Hc. unfold cols in Hc. apply firstn_In in Hc.
    apply filter_In in Hc. apply Hc. }
  clearbody cols. induction cols as [|c cols IH]; [reflexivity |].
  simpl. unfold Query.averageEntry at 1.
  rewrite (numbers_of_numeric_column _ _ (Hcols c (or_introl eq_refl))).
  simpl. f_equal. apply IH. intros c' Hc'. apply Hcols. right. exact Hc'.
Qed.

Section SortAgrees.
Context {A : Type}.
Variables cmp cmp' : A -> A -> number.



End SortAgrees.




(** X6. The sort step is stable: when its comparator is a consistent
    comparison function for the rows, the rows that share one value in the
    sort column come out in the order they went in. *)
Theorem sort_step_is_stable lc (p : Query.AnalyzeCSVParams) (hs : list string)
    (rs : list row) (col : string) (v : value) (P : row -> bool) :
  Query.sortBy p = Some col ->
  consistent_comparator (Query.compareRows lc col (Query.sortOrder p)) rs ->
  (forall r, P r = true -> get r col = v) ->
  List.filter P (Query.applySort lc p hs rs) = List.filter P rs.
Proof.
  intros Hs Hc HP. unfold Query.applySort. rewrite Hs.
  destruct (Query.given (Some col)) as [c|] eqn:Hg; [| reflexivity].
  apply given_inv in Hg. injection Hg as <-.
  destruct (Array_includes hs col); [| reflexivity].
  apply sort_filter. intros a b Ha Hb Pa Pb.
  replace (Query.compareRows lc col (Query.sortOrder p) a b)
    with (Query.compareRows lc col (Query.sortOrder p) a a)
    by (unfold Query.compareRows; rewrite (HP a Pa), (HP b Pb); reflexivity).
  apply (consistent_self _ rs a Hc Ha).
Qed.

End QueryGrid.

Lemma limit_keeps_a_prefix_on_products :
  exists res full k,
    result_of (Query.analyzeCSV Sample.codeUnitCompare (Fixtures.by_revenue (Some (of_Z 2))))
              (Sample.loaded Sample.products) = Returned res
    /\ result_of (Query.analyzeCSV Sample.codeUnitCompare (Fixtures.by_revenue None))
                 (Sample.loaded Sample.products) = Returned full
    /\ Query.rows res = firstn k (Query.rows full)
    /\ Query.rows res = [["Gadget"; "7"; "80"]; ["Widget"; "3"; "120"]].
Proof.
  destruct (limit_keeps_a_prefix Sample.codeUnitCompare (Sample.loaded Sample.products)
              Sample.products (Fixtures.by_revenue (Some (of_Z 2))))
    as [res [full [k [H1 [H2 [H3 _]]]]]]; [reflexivity | discriminate | discriminate |].
  exists res, full, k. repeat split; try assumption.
  revert H1. vm_compute. intros [= <-]. reflexivity.
Defined.

Lemma grid_rearranges_filtered_rows_on_regional :
  exists res shown,
    result_of (Query.analyzeCSV Sample.codeUnitCompare Fixtures.by_region)
              (Sample.loaded Fixtures.regional) = Returned res
    /\ Query.rows res = map (Query.rowArray (headers Fixtures.regional)) shown
    /\ Permutation shown (rows Fixtures.regional).
Proof.
  destruct (grid_rearranges_filtered_rows Sample.codeUnitCompare
              (Sample.loaded Fixtures.regional) Fixtures.regional Fixtures.by_region)
    as [res [shown [H1 [H2 [H3 _]]]]];
    [reflexivity | discriminate | discriminate | reflexivity |].
  exists res, shown. repeat split; assumption.
Defined.

Lemma summary_has_one_average_per_numeric_column_on_products :
  exists res,
    result_of (Query.analyzeCSV Sample.codeUnitCompare (Spec.plain_query "all"))
              (Sample.loaded Sample.products) = Returned res
    /\ map Query.label (Query.summary res) = ["Total Rows"; "Avg Units"; "Avg Revenue"].
Proof.
  apply (summary_has_one_average_per_numeric_column Sample.codeUnitCompare
           (Sample.loaded Sample.products) Sample.products (Spec.plain_query "all"));
    [reflexivity | discriminate | discriminate].
Defined.


Lemma sort_step_is_stable_on_regional :
  map (fun r => get r "Month")
      (Query.applySort Sample.codeUnitCompare Fixtures.by_region
         (headers Fixtures.regional) (rows Fixtures.regional))
  = [VStr "Jan"; VStr "Mar"; VStr "Feb"; VStr "Apr"]
  /\ List.filter Fixtures.in_east
       (Query.applySort Sample.codeUnitCompare Fixtures.by_region
          (headers Fixtures.regional) (rows Fixtures.regional))
     = List.filter Fixtures.in_east (rows Fixtures.regional).
Proof.
  split; [vm_compute; reflexivity |].
  apply (sort_step_is_stable Sample.codeUnitCompare Fixtures.by_region
           (headers Fixtures.regional) (rows Fixtures.regional) "Region" (VStr "East")).
  - reflexivity.
  - apply consistent_comparatorb_sound. vm_compute. reflexivity.
  - intros r. unfold Fixtures.in_east.
    destruct (get r "Region") as [| | b | n | s]; try discriminate.
    intros H. apply String.eqb_eq in H. subst s. reflexivity.
Defined.

(** ** Errors and the console *)

Section ErrorsAndConsole.
Context {casing : Casing}.

(** A computation that leaves the world as it found it. *)
Lemma logged_reader {A} (prefix : string) (m : M A) (w : World) :
  world_after m w = w ->
  match result_of (logged prefix m) w with
  | Returned _ => world_after (logged prefix m) w = w
  | Thrown e => world_after (logged prefix m) w = Terms.with_log w prefix e
  end.
Proof.
  unfold world_after, result_of, logged. destruct (m w) as [[a | e] w']; simpl.
  - trivial.
  - intros ->. reflexivity.
Qed.

(** X7. The four operations only read the store.  When one returns, the
    world is exactly as before; when one throws, the dataset slot is untouched
    and the console has gained one line, made of the operation's prefix and
    the message thrown. *)
Theorem operations_read_and_log lc (w : World) :
  (forall p,
     match result_of (Query.analyzeCSV lc p) w with
     | Returned _ => world_after (Query.analyzeCSV lc p) w = w
     | Thrown e => world_after (Query.analyzeCSV lc p) w
                   = Terms.with_log w "Error analyzing CSV:" e
     end)
  /\ match result_of Analyzer.analyzeDataStructure w with
     | Returned _ => world_after Analyzer.analyzeDataStructure w = w
     | Thrown e => world_after Analyzer.analyzeDataStructure w
                   = Terms.with_log w "Error analyzing data structure:" e
     end
  /\ (forall p,
        match result_of (Insights.generateDataInsights p) w with
        | Returned _ => world_after (Insights.generateDataInsights p) w = w
        | Thrown e => world_after (Insights.generateDataInsights p) w
                      = Terms.with_log w "Error generating data insights:" e
        end)
  /\ match result_of Suggestions.generateExplorationSuggestions w with
     | Returned _ => world_after Suggestions.generateExplorationSuggestions w = w
     | Thrown e => world_after Suggestions.generateExplorationSuggestions w
                   = Terms.with_log w "Error generating exploration suggestions:" e
     end.
Proof.
  repeat split; intros;
    unfold Query.analyzeCSV, Analyzer.analyzeDataStructure,
      Insights.generateDataInsights, Suggestions.generateExplorationSuggestions;
    apply logged_reader;
    unfold world_after, bind, getCSVData, throw, ret;
    destruct (tamboCSVData w) as [d|]; simpl; try reflexivity.
  - destruct (_ || _)%bool; reflexivity.
  - destruct (Nat.eqb (length (headers d)) 0); simpl; [reflexivity |].
    destruct (Nat.eqb (length (rows d)) 0); reflexivity.
  - destruct (_ || _)%bool; simpl; [reflexivity |].
    repeat (match goal with
            | |- context [if ?b then _ else _] => destruct b
            end; simpl; try reflexivity).
    all: unfold Insights.generateTopPerformers;
      destruct (Insights.string_or _ _) as [c|]; simpl; try reflexivity;
      destruct (Array_includes (headers d) c); reflexivity.
  - destruct (_ || _)%bool; reflexivity.
Qed.

(** X8. A stored dataset without a header or without a row is rejected
    by every operation: the query and the insight generator report incomplete
    data, the classifier says which of the two is missing (headers first),
    the suggestion generator reports an empty or invalid file. *)
Theorem empty_dataset_is_rejected lc (w : World) (d : CSVDataStore) :
  tamboCSVData w = Some d -> headers d = [] \/ rows d = [] ->
  (forall p, result_of (Query.analyzeCSV lc p) w
             = Thrown "CSV data is incomplete or empty.")
  /\ result_of Analyzer.analyzeDataStructure w
     = Thrown (if Nat.eqb (length (headers d)) 0
               then "CSV file has no headers. Please upload valid data."
               else "CSV file is empty. Please upload data.")
  /\ (forall p, result_of (Insights.generateDataInsights p) w
                = Thrown "CSV data is incomplete or empty.")
  /\ result_of Suggestions.generateExplorationSuggestions w
     = Thrown "CSV file is empty or invalid.".
Proof.
  intros Hd Hempty.
  assert (E : (Nat.eqb (length (headers d)) 0 || Nat.eqb (length (rows d)) 0)%bool = true).
  { destruct Hempty as [-> | ->]; simpl; [reflexivity | apply orb_true_r]. }
  unfold result_of, Query.analyzeCSV, Analyzer.analyzeDataStructure,
    Insights.generateDataInsights, Suggestions.generateExplorationSuggestions,
    logged, bind, getCSVData, throw.
  rewrite Hd. simpl. rewrite E. simpl. repeat split.
  destruct (Nat.eqb (length (headers d)) 0) eqn:Eh; simpl; [reflexivity |].
  simpl in E. rewrite E. reflexivity.
Qed.

End ErrorsAndConsole.

Lemma empty_dataset_is_rejected_without_rows :
  result_of Analyzer.analyzeDataStructure (Sample.loaded Fixtures.rowless)
  = Thrown "CSV file is empty. Please upload data."
  /\ result_of Analyzer.analyzeDataStructure (Sample.loaded Fixtures.headless)
     = Thrown "CSV file has no headers. Please upload valid data.".
Proof.
  split.
  - apply (empty_dataset_is_rejected Sample.codeUnitCompare
             (Sample.loaded Fixtures.rowless) Fixtures.rowless);
      [reflexivity | right; reflexivity].
  - apply (empty_dataset_is_rejected Sample.codeUnitCompare
             (Sample.loaded Fixtures.headless) Fixtures.headless);
      [reflexivity | left; reflexivity].
Defined.

(** ** More on the shape classifier *)

Section ClassifierTable.
Context {casing : Casing}.

Lemma existsb_is_date_name (hs : list string) :
  existsb Analyzer.is_date_name hs = true <-> Terms.has_date_name hs.
Proof.
  rewrite existsb_exists. unfold Terms.has_date_name. split.
  - intros [h [Hin Hd]]. apply is_date_name_spec in Hd. destruct Hd as [kw [Hkw Hc]].
    exists h, kw. repeat split; assumption.
  - intros [h [kw [Hin [Hkw Hc]]]]. exists h. split; [exact Hin |].
    apply is_date_name_spec. exists kw. split; assumption.
Qed.

(** A column is never counted both as numeric and as text. *)
Lemma numeric_and_text_columns (hs : list string) (rs : list row) :
  (length (Analyzer.numericColumns hs rs) + length (Analyzer.textColumns hs rs)
   <= length hs)%nat.
Proof.
  unfold Analyzer.numericColumns, Analyzer.textColumns.
  induction hs as [|h hs IH]; simpl; [lia |].
  destruct (first_cell rs h); simpl; lia.
Qed.

Lemma classify_cases (hs : list string) (rs : list row) :
  (let n := length (Analyzer.numericColumns hs rs) in
   let t := length (Analyzer.textColumns hs rs) in
   match Analyzer.dataType (Analyzer.classify hs rs) with
   | Analyzer.timeseries => Terms.has_date_name hs
   | Analyzer.ranking => ~ Terms.has_date_name hs /\ t = 1 /\ 2 <= n
   | Analyzer.comparison => ~ Terms.has_date_name hs /\ 2 <= t /\ 1 <= n
   | Analyzer.categorical => ~ Terms.has_date_name hs /\ t = 0 /\ 3 <= n
   | Analyzer.unknown =>
       ~ Terms.has_date_name hs /\ (n = 0 \/ (t = 0 /\ n <= 2) \/ (t = 1 /\ n <= 1))
   end)%nat
  /\ (Analyzer.suggestedComponent (Analyzer.classify hs rs),
      Analyzer.confidence (Analyzer.classify hs rs))
     = match Analyzer.dataType (Analyzer.classify hs rs) with
       | Analyzer.timeseries => (Analyzer.Graph, of_decimal 95 (-2))
       | Analyzer.ranking => (Analyzer.InsightCard, of_decimal 9 (-1))
       | Analyzer.comparison => (Analyzer.InfoCard, of_decimal 85 (-2))
       | Analyzer.categorical => (Analyzer.Graph, of_decimal 75 (-2))
       | Analyzer.unknown => (Analyzer.DataTable, of_decimal 6 (-1))
       end.
Proof.
  unfold Analyzer.classify.
  destruct (existsb Analyzer.is_date_name hs) eqn:Edate.
  - simpl. split; [apply existsb_is_date_name, Edate | reflexivity].
  - assert (Hno : ~ Terms.has_date_name hs).
    { intros H. apply existsb_is_date_name in H. congruence. }
    set (n := length (Analyzer.numericColumns hs rs)).
    set (t := length (Analyzer.textColumns hs rs)).
    destruct (Nat.leb 2 n && Nat.eqb t 1)%bool eqn:E1.
    { simpl. apply andb_true_iff in E1. destruct E1 as [E1 E1'].
      apply Nat.leb_le in E1. apply Nat.eqb_eq in E1'. repeat split; assumption. }
    destruct (Nat.leb 2 t && Nat.leb 1 n)%bool eqn:E2.
    { simpl. apply andb_true_iff in E2. destruct E2 as [E2 E2'].
      apply Nat.leb_le in E2, E2'. repeat split; assumption. }
    destruct (Nat.leb 3 n && Nat.leb t 1)%bool eqn:E3.
    { simpl. apply andb_true_iff in E3. destruct E3 as [E3 E3'].
      apply Nat.leb_le in E3, E3'.
      apply andb_false_iff in E1. rewrite Nat.leb_gt, Nat.eqb_neq in E1.
      repeat split; try assumption. lia. }
    simpl. apply andb_false_iff in E1, E2, E3.
    rewrite Nat.leb_gt, ?Nat.eqb_neq in E1. rewrite !Nat.leb_gt in E2, E3.
    repeat split; try assumption. lia.
Qed.

(** X9. What each category means.  For a loaded dataset with a column and
    a row, with [n] numeric and [t] text columns by the first row: the
    result is a time series exactly when a column name contains a date
    keyword; otherwise ranking means [t = 1] and [n >= 2], comparison means
    [t >= 2] and [n >= 1], categorical means no text column at all and
    [n >= 3], and everything else is unknown.  The component and the
    confidence are fixed by the category. *)
Theorem classification_table (w : World) (d : CSVDataStore) :
  tamboCSVData w = Some d -> headers d <> [] -> rows d <> [] ->
  exists r,
    result_of Analyzer.analyzeDataStructure w = Returned r
    /\ (let n := length (Analyzer.numericColumns (headers d) (rows d)) in
        let t := length (Analyzer.textColumns (headers d) (rows d)) in
        match Analyzer.dataType r with
        | Analyzer.timeseries => Terms.has_date_name (headers d)
        | Analyzer.ranking => ~ Terms.has_date_name (headers d) /\ t = 1 /\ 2 <= n
        | Analyzer.comparison => ~ Terms.has_date_name (headers d) /\ 2 <= t /\ 1 <= n
        | Analyzer.categorical => ~ Terms.has_date_name (headers d) /\ t = 0 /\ 3 <= n
        | Analyzer.unknown =>
            ~ Terms.has_date_name (headers d)
            /\ (n = 0 \/ (t = 0 /\ n <= 2) \/ (t = 1 /\ n <= 1))
        end)%nat
    /\ (Analyzer.suggestedComponent r, Analyzer.confidence r)
       = match Analyzer.dataType r with
         | Analyzer.timeseries => (Analyzer.Graph, of_decimal 95 (-2))
         | Analyzer.ranking => (Analyzer.InsightCard, of_decimal 9 (-1))
         | Analyzer.comparison => (Analyzer.InfoCard, of_decimal 85 (-2))
         | Analyzer.categorical => (Analyzer.Graph, of_decimal 75 (-2))
         | Analyzer.unknown => (Analyzer.DataTable, of_decimal 6 (-1))
         end.
Proof.
  intros Hd Hh Hr. unfold result_of.
  rewrite (analyzeDataStructure_loaded w d Hd Hh Hr). simpl.
  eexists. split; [reflexivity |]. apply classify_cases.
Qed.

(** X10. A dataset with fewer than three columns, none of which has a
    date-like name, is never classified: the result is "unknown" with the
    table component and confidence 0.6, whatever the cells are. *)
Theorem small_datasets_are_unclassified (w : World) (d : CSVDataStore) :
  tamboCSVData w = Some d -> headers d <> [] -> rows d <> [] ->
  (length (headers d) < 3)%nat -> ~ Terms.has_date_name (headers d) ->
  exists r,
    result_of Analyzer.analyzeDataStructure w = Returned r
    /\ Analyzer.dataType r = Analyzer.unknown
    /\ Analyzer.suggestedComponent r = Analyzer.DataTable
    /\ Analyzer.confidence r = of_decimal 6 (-1).
Proof.
  intros Hd Hh Hr Hlen Hno. unfold result_of.
  rewrite (analyzeDataStructure_loaded w d Hd Hh Hr). simpl.
  destruct (classify_cases (headers d) (rows d)) as [Hcase Hcc].
  pose proof (numeric_and_text_columns (headers d) (rows d)) as Hsum.
  eexists. split; [reflexivity |].
  assert (Ht : Analyzer.dataType (Analyzer.classify (headers d) (rows d))
               = Analyzer.unknown).
  { simpl in Hcase.
    destruct (Analyzer.dataType (Analyzer.classify (headers d) (rows d)));
      try reflexivity; try contradiction; exfalso; lia. }
  rewrite Ht in Hcc. injection Hcc as Hc1 Hc2. repeat split; assumption.
Qed.

End ClassifierTable.

Lemma classification_table_on_products :
  exists r,
    result_of Analyzer.analyzeDataStructure (Sample.loaded Sample.products) = Returned r
    /\ Analyzer.dataType r = Analyzer.ranking
    /\ (Analyzer.suggestedComponent r, Analyzer.confidence r)
       = (Analyzer.InsightCard, of_decimal 9 (-1)).
Proof.
  destruct (classification_table (Sample.loaded Sample.products) Sample.products)
    as [r [Hres [_ Hcc]]]; [reflexivity | discriminate | discriminate |].
  exists r. split; [exact Hres |].
  assert (Ht : Analyzer.dataType r = Analyzer.ranking).
  { revert Hres. vm_compute. intros [= <-]. reflexivity. }
  split; [exact Ht |]. rewrite Hcc, Ht. reflexivity.
Defined.

Lemma small_datasets_are_unclassified_on_scores :
  exists r,
    result_of Analyzer.analyzeDataStructure (Sample.loaded Sample.scores) = Returned r
    /\ Analyzer.dataType r = Analyzer.unknown
    /\ Analyzer.suggestedComponent r = Analyzer.DataTable
    /\ Analyzer.confidence r = of_decimal 6 (-1).
Proof.
  apply (small_datasets_are_unclassified (Sample.loaded Sample.scores) Sample.scores);
    [reflexivity | discriminate | discriminate | simpl; lia |].
  intros H. apply existsb_is_date_name in H. discriminate H.
Defined.

(** ** More on the insight generator *)

Section InsightKinds.
Context {casing : Casing}.

Lemma generateDataInsights_kind (p : Insights.DataInsightsParams) (w : World)
    (d : CSVDataStore) :
  tamboCSVData w = Some d -> headers d <> [] -> rows d <> [] ->
  result_of (Insights.generateDataInsights p) w
  = let numericColumns := Insights.numericColumns (headers d) (rows d) in
    if String.eqb (Insights.analysisType p) "summary" then
      Returned (Insights.generateSummary (headers d) (rows d) numericColumns)
    else if String.eqb (Insights.analysisType p) "top_performers" then
      result_of
        (Insights.generateTopPerformers (headers d) (rows d)
           (Insights.string_or (Insights.column p) (head numericColumns))
           (Insights.number_or (Insights.limit p) (of_Z 5))) w
    else if String.eqb (Insights.analysisType p) "trends" then
      Returned (Insights.generateTrends (headers d) (rows d) numericColumns)
    else if String.eqb (Insights.analysisType p) "recommendations" then
      Returned (Insights.generateRecommendations (headers d) (rows d) numericColumns)
    else Returned (Insights.generateSummary (headers d) (rows d) numericColumns).
Proof.
  intros Hd Hh Hr. unfold Insights.generateDataInsights. rewrite logged_result.
  unfold result_of, bind, getCSVData.
  rewrite Hd, (length_eqb_0 _ Hh), (length_eqb_0 _ Hr). simpl.
  repeat (match goal with
          | |- context [String.eqb ?a ?b] => destruct (String.eqb a b)
          end; try reflexivity).
Qed.


Lemma slice0_five {A} (l : list A) : slice0 l (of_Z 5) = firstn 5 l.
Proof. reflexivity. Qed.

(** X12. With no column and no limit, the ranking is made on the first
    numeric column and keeps at most five rows: the entries are ranked 1, 2,
    ... up to the smaller of five and the row count, and they describe the
    first five rows of a rearrangement of the stored rows, which is in
    non-increasing order of the column when its cells are all numbers other
    than NaN. *)
Theorem top_performers_defaults (w : World) (d : CSVDataStore)
    (p : Insights.DataInsightsParams) (c : string) (others : list string) :
  tamboCSVData w = Some d -> rows d <> [] ->
  Insights.analysisType p = "top_performers" ->
  Insights.column p = None -> Insights.limit p = None ->
  Insights.numericColumns (headers d) (rows d) = c :: others ->
  exists ins tp,
    result_of (Insights.generateDataInsights p) w = Returned ins
    /\ Insights.title ins = "Top 5 by " +:+ c
    /\ Insights.topPerformers ins = Some tp
    /\ map Insights.TopPerformer.rank tp
       = seq 1 (Nat.min 5 (length (rows d)))
    /\ exists ranked,
         Permutation ranked (rows d)
         /\ map Insights.TopPerformer.details tp
            = map (fun r => c +:+ ": " +:+ String_ (get r c)) (firstn 5 ranked)
         /\ ((forall r, In r (rows d) -> Spec.numeric_cell c r) ->
             Spec.descending (numbers_of ranked c)).
Proof.
  intros Hd Hr Ht Hc Hl Hn.
  assert (Hin : In c (headers d)).
  { assert (H : In c (Insights.numericColumns (headers d) (rows d)))
      by (rewrite Hn; left; reflexivity).
    apply filter_In in H. apply H. }
  assert (Hh : headers d <> []) by (intros E; rewrite E in Hin; destruct Hin).
  rewrite (generateDataInsights_kind p w d Hd Hh Hr), Ht, Hc, Hl, Hn.
  cbn [String.eqb Ascii.eqb Bool.eqb head Insights.string_or Insights.number_or].
  unfold Insights.generateTopPerformers.
  rewrite (proj2 (Array_includes_spec (headers d) c) Hin).
  rewrite !slice0_five.
  set (ranked := sort (Insights.compareByColumn c) (rows d)).
  set (sorted := firstn 5 ranked).
  unfold result_of, ret. cbn [fst].
  eexists _, _. split; [reflexivity |].
  cbn [Insights.title Insights.topPerformers]. split; [reflexivity |].
  split; [reflexivity |]. unfold map_indexed. split.
  - rewrite map_indexed_from_rank. change (0 + 1)%nat with 1%nat. f_equal.
    unfold sorted, ranked. rewrite length_firstn, sort_length. reflexivity.
  - exists ranked. split; [apply sort_Permutation |]. split.
    + fold sorted. generalize 0%nat.
      induction sorted as [|r l IH]; intros i; simpl; [reflexivity |].
      f_equal. apply IH.
    + intros Hnum. apply (sorted_numbers_descending c ranked).
      * intros r Hrin. apply Hnum.
        apply (sort_In (Insights.compareByColumn c)), Hrin.
      * apply sort_Sorted. apply compareByColumn_one_way.
Qed.

(** X13. The trend analysis reports one metric per numeric column that
    holds at least two numbers, in header order, labelled with the column;
    when there is no such column it reports the single "Status" metric, so
    the list of metrics is never empty. *)
Theorem trends_one_metric_per_column (w : World) (d : CSVDataStore)
    (p : Insights.DataInsightsParams) :
  tamboCSVData w = Some d -> headers d <> [] -> rows d <> [] ->
  Insights.analysisType p = "trends" ->
  exists ins,
    result_of (Insights.generateDataInsights p) w = Returned ins
    /\ Insights.metrics ins <> []
    /\ map Insights.InsightMetric.label (Insights.metrics ins)
       = match List.filter (fun c => Nat.leb 2 (length (numbers_of (rows d) c)))
                 (Insights.numericColumns (headers d) (rows d)) with
         | [] => ["Status"]
         | cols => map (fun c => c +:+ " Trend") cols
         end.
Proof.
  intros Hd Hh Hr Ht.
  rewrite (generateDataInsights_kind p w d Hd Hh Hr), Ht. simpl.
  eexists. split; [reflexivity |].
  unfold Insights.generateTrends. cbn [Insights.metrics].
  set (cols := Insights.numericColumns (headers d) (rows d)).
  assert (Hl : map Insights.InsightMetric.label
                 (flat_map (Insights.trendMetric (rows d)) cols)
               = map (fun c => c +:+ " Trend")
                   (List.filter (fun c => Nat.leb 2 (length (numbers_of (rows d) c)))
                      cols)).
  { clearbody cols. induction cols as [|c cols IH]; [reflexivity |].
    cbn [flat_map List.filter]. rewrite map_app, IH.
    unfold Insights.trendMetric at 1.
    destruct (Nat.leb 2 (length (numbers_of (rows d) c))); reflexivity. }
  destruct (flat_map (Insights.trendMetric (rows d)) cols) as [|m ms] eqn:Ef.
  - cbn [length Nat.ltb Nat.leb map]. split; [discriminate |].
    destruct (List.filter _ cols); [reflexivity | discriminate Hl].
  - cbn [length Nat.ltb Nat.leb]. split; [discriminate |]. rewrite Hl.
    destruct (List.filter _ cols); [discriminate Hl | reflexivity].
Qed.

(** X14. Any analysis type other than "top_performers", "trends" and
    "recommendations" is answered with the summary: two count metrics, then
    a range and an average for each of the first three numeric columns. *)
Theorem summary_is_the_default (w : World) (d : CSVDataStore)
    (p : Insights.DataInsightsParams) :
  tamboCSVData w = Some d -> headers d <> [] -> rows d <> [] ->
  ~ In (Insights.analysisType p) ["top_performers"; "trends"; "recommendations"] ->
  exists ins,
    result_of (Insights.generateDataInsights p) w = Returned ins
    /\ Insights.title ins = "Data Summary"
    /\ map Insights.InsightMetric.label (Insights.metrics ins)
       = "Total Records" :: "Data Columns"
         :: flat_map (fun c => [c +:+ " Range"; c +:+ " Average"])
              (firstn 3 (Insights.numericColumns (headers d) (rows d))).
Proof.
  intros Hd Hh Hr Hk.
  assert (E : result_of (Insights.generateDataInsights p) w
              = Returned (Insights.generateSummary (headers d) (rows d)
                            (Insights.numericColumns (headers d) (rows d)))).
  { rewrite (generateDataInsights_kind p w d Hd Hh Hr). simpl.
    destruct (String.eqb (Insights.analysisType p) "summary"); [reflexivity |].
    destruct (String.eqb_spec (Insights.analysisType p) "top_performers") as [E | _];
      [exfalso; apply Hk; rewrite E; simpl; tauto |].
    destruct (String.eqb_spec (Insights.analysisType p) "trends") as [E | _];
      [exfalso; apply Hk; rewrite E; simpl; tauto |].
    destruct (String.eqb_spec (Insights.analysisType p) "recommendations") as [E | _];
      [exfalso; apply Hk; rewrite E; simpl; tauto |].
    reflexivity. }
  rewrite E. eexists. split; [reflexivity |]. split; [reflexivity |].
  unfold Insights.generateSummary. simpl. do 2 f_equal.
  set (cols := firstn 3 _).
  assert (Hcols : forall c, In c cols -> is_number (first_cell (rows d) c) = true).
  { intros c Hc. unfold cols in Hc. apply firstn_In in Hc.
    apply filter_In in Hc. apply Hc. }
  clearbody cols. induction cols as [|c cols IH]; [reflexivity |].
  simpl. rewrite map_app. unfold Insights.summaryMetrics at 1.
  rewrite (numbers_of_numeric_column _ _ (Hcols c (or_introl eq_refl))).
  simpl. do 2 f_equal. apply IH. intros c' Hc'. apply Hcols. right. exact Hc'.
Qed.

Lemma flat_map_length_le {A B} (f : A -> list B) (k : nat) (l : list A) :
  (forall x, length (f x) <= k)%nat -> (length (flat_map f l) <= k * length l)%nat.
Proof.
  intros H. induction l as [|x l IH]; simpl; [lia |].
  rewrite length_app. specialize (H x). lia.
Qed.

(** X15. The recommendations analysis always returns between one and five
    recommendations, and reports the data quality as "Good" whatever the
    data. *)
Theorem recommendations_are_never_empty (w : World) (d : CSVDataStore)
    (p : Insights.DataInsightsParams) :
  tamboCSVData w = Some d -> headers d <> [] -> rows d <> [] ->
  Insights.analysisType p = "recommendations" ->
  exists ins recs,
    result_of (Insights.generateDataInsights p) w = Returned ins
    /\ Insights.recommendations ins = Some recs
    /\ (1 <= length recs <= 5)%nat
    /\ In {| Insights.InsightMetric.label := "Data Quality";
             Insights.InsightMetric.value := "Good";
             Insights.InsightMetric.type := Insights.positive |}
          (Insights.metrics ins).
Proof.
  intros Hd Hh Hr Ht.
  rewrite (generateDataInsights_kind p w d Hd Hh Hr), Ht. simpl.
  eexists _, _. split; [reflexivity |]. simpl. split; [reflexivity |].
  split; [| right; left; reflexivity].
  set (conc := Insights.concentrationAdvice (headers d) (rows d)).
  set (out := flat_map (Insights.outlierAdvice (rows d)) _).
  assert (Hc : (length conc <= 1)%nat).
  { unfold conc, Insights.concentrationAdvice.
    destruct (List.filter _ (headers d)) as [|c cs]; simpl; [lia |].
    destruct (lt _ _); simpl; [lia |]. destruct (gt _ _); simpl; lia. }
  assert (Ho : (length out <= 4)%nat).
  { unfold out. etransitivity.
    - apply (flat_map_length_le _ 2). intros c. unfold Insights.outlierAdvice.
      destruct (Nat.ltb 0 _); simpl; [| lia].
      rewrite length_app. destruct (gt _ _), (lt _ _); simpl; lia.
    - rewrite length_firstn. lia. }
  destruct (Nat.eqb (length (conc ++ out)) 0) eqn:E; simpl; [lia |].
  apply Nat.eqb_neq in E. rewrite length_app in *. lia.
Qed.

End InsightKinds.


Lemma top_performers_defaults_on_products :
  exists ins tp,
    result_of (Insights.generateDataInsights (Fixtures.insight "top_performers"))
              (Sample.loaded Sample.products) = Returned ins
    /\ Insights.title ins = "Top 5 by Units"
    /\ Insights.topPerformers ins = Some tp
    /\ map Insights.TopPerformer.rank tp = [1; 2; 3]%nat
    /\ map Insights.TopPerformer.details tp = ["Units: 7"; "Units: 5"; "Units: 3"].
Proof.
  destruct (top_performers_defaults (Sample.loaded Sample.products) Sample.products
              (Fixtures.insight "top_performers") "Units" ["Revenue"])
    as [ins [tp [H1 [H2 [H3 [H4 _]]]]]];
    [reflexivity | discriminate | reflexivity | reflexivity | reflexivity
    | reflexivity |].
  exists ins, tp. split; [exact H1 |]. split; [exact H2 |]. split; [exact H3 |].
  split; [exact H4 |].
  revert H1 H3. vm_compute. intros [= <-] [= <-]. reflexivity.
Defined.

Lemma trends_one_metric_per_column_on_contacts :
  exists ins,
    result_of (Insights.generateDataInsights Sample.trends)
              (Sample.loaded Fixtures.contacts) = Returned ins
    /\ map Insights.InsightMetric.label (Insights.metrics ins) = ["Status"].
Proof.
  destruct (trends_one_metric_per_column (Sample.loaded Fixtures.contacts)
              Fixtures.contacts Sample.trends)
    as [ins [H1 [_ H3]]]; [reflexivity | discriminate | discriminate | reflexivity |].
  exists ins. split; [exact H1 | exact H3].
Defined.

Lemma summary_is_the_default_on_products :
  exists ins,
    result_of (Insights.generateDataInsights (Fixtures.insight "overview"))
              (Sample.loaded Sample.products) = Returned ins
    /\ Insights.title ins = "Data Summary"
    /\ map Insights.InsightMetric.label (Insights.metrics ins)
       = [ "Total Records"; "Data Columns"; "Units Range"; "Units Average";
           "Revenue Range"; "Revenue Average" ].
Proof.
  apply (summary_is_the_default (Sample.loaded Sample.products) Sample.products
           (Fixtures.insight "overview"));
    [reflexivity | discriminate | discriminate |].
  simpl. intros [H | [H | [H | []]]]; discriminate H.
Defined.

Lemma recommendations_are_never_empty_on_contacts :
  exists ins recs,
    result_of (Insights.generateDataInsights (Fixtures.insight "recommendations"))
              (Sample.loaded Fixtures.contacts) = Returned ins
    /\ Insights.recommendations ins = Some recs
    /\ (1 <= length recs <= 5)%nat.
Proof.
  destruct (recommendations_are_never_empty (Sample.loaded Fixtures.contacts)
              Fixtures.contacts (Fixtures.insight "recommendations"))
    as [ins [recs [H1 [H2 [H3 _]]]]];
    [reflexivity | discriminate | discriminate | reflexivity |].
  exists ins, recs. repeat split; try assumption; apply H3.
Defined.

(** ** The suggestion generator *)

Section SuggestionRules.
Context {casing : Casing}.

Lemma generateExplorationSuggestions_loaded (w : World) (d : CSVDataStore) :
  tamboCSVData w = Some d -> headers d <> [] -> rows d <> [] ->
  result_of Suggestions.generateExplorationSuggestions w
  = Returned (Suggestions.build (headers d) (rows d)).
Proof.
  intros Hd Hh Hr. unfold Suggestions.generateExplorationSuggestions.
  rewrite logged_result. unfold result_of, bind, getCSVData.
  rewrite Hd, (length_eqb_0 _ Hh), (length_eqb_0 _ Hr). reflexivity.
Qed.

(** X16. Every rule of the suggestion generator needs a numeric column.
    A loaded dataset without one gets the single generic suggestion; a
    dataset with one gets between one and six suggestions, "Identify
    Outliers" always among them. *)
Theorem suggestions_need_a_numeric_column (w : World) (d : CSVDataStore) :
  tamboCSVData w = Some d -> headers d <> [] -> rows d <> [] ->
  exists s,
    result_of Suggestions.generateExplorationSuggestions w = Returned s
    /\ (1 <= length (Suggestions.suggestions s) <= 6)%nat
    /\ (Insights.numericColumns (headers d) (rows d) = [] ->
        map Suggestions.label (Suggestions.suggestions s) = ["Explore Data"])
    /\ (Insights.numericColumns (headers d) (rows d) <> [] ->
        In "Identify Outliers" (map Suggestions.label (Suggestions.suggestions s))).
Proof.
  intros Hd Hh Hr.
  rewrite (generateExplorationSuggestions_loaded w d Hd Hh Hr).
  eexists. split; [reflexivity |].
  unfold Suggestions.build. cbn [Suggestions.suggestions].
  change (List.filter (fun h => is_number (first_cell (rows d) h)) (headers d))
    with (Insights.numericColumns (headers d) (rows d)).
  set (ns := length (Insights.numericColumns (headers d) (rows d))).
  set (ss := length (List.filter _ (headers d))).
  assert (Hns : Insights.numericColumns (headers d) (rows d) = [] <-> ns = 0%nat)
    by (unfold ns; apply iff_sym, length_zero_iff_nil).
  destruct ns as [|[|n]]; destruct ss as [|[|s]];
    destruct (existsb Analyzer.is_date_name (headers d));
    cbn [Nat.ltb Nat.leb andb app length map]; repeat split;
    try lia; try (intros H; apply Hns in H; discriminate H);
    try (intros H; exfalso; apply H, Hns; reflexivity);
    intros _; cbn [In]; tauto.
Qed.

(** X17. The classifier and the suggestion generator agree on dates: for
    a loaded dataset with a date-like column name and a numeric column, the
    one answers "timeseries" and the other proposes "Analyze Trends". *)
Theorem time_series_get_a_trend_suggestion (w : World) (d : CSVDataStore) :
  tamboCSVData w = Some d -> rows d <> [] ->
  Terms.has_date_name (headers d) ->
  Insights.numericColumns (headers d) (rows d) <> [] ->
  exists r s,
    result_of Analyzer.analyzeDataStructure w = Returned r
    /\ Analyzer.dataType r = Analyzer.timeseries
    /\ result_of Suggestions.generateExplorationSuggestions w = Returned s
    /\ In "Analyze Trends" (map Suggestions.label (Suggestions.suggestions s)).
Proof.
  intros Hd Hr Hdate Hnum.
  assert (Hh : headers d <> []).
  { intros E. rewrite E in Hnum. apply Hnum. reflexivity. }
  apply existsb_is_date_name in Hdate.
  unfold result_of at 1. rewrite (analyzeDataStructure_loaded w d Hd Hh Hr).
  rewrite (generateExplorationSuggestions_loaded w d Hd Hh Hr).
  eexists _, _. split; [reflexivity |]. split.
  { unfold Analyzer.classify. rewrite Hdate. reflexivity. }
  split; [reflexivity |].
  unfold Suggestions.build. cbn [Suggestions.suggestions]. rewrite Hdate.
  change (List.filter (fun h => is_number (first_cell (rows d) h)) (headers d))
    with (Insights.numericColumns (headers d) (rows d)).
  destruct (Insights.numericColumns (headers d) (rows d)) as [|c cs]; [congruence |].
  set (ss := length (List.filter _ (headers d))).
  destruct cs as [|c' cs]; destruct ss as [|[|s]];
    cbn [length Nat.ltb Nat.leb andb app map In]; tauto.
Qed.

End SuggestionRules.

Lemma suggestions_need_a_numeric_column_on_contacts :
  exists s,
    result_of Suggestions.generateExplorationSuggestions (Sample.loaded Fixtures.contacts)
    = Returned s
    /\ map Suggestions.label (Suggestions.suggestions s) = ["Explore Data"].
Proof.
  destruct (suggestions_need_a_numeric_column (Sample.loaded Fixtures.contacts)
              Fixtures.contacts)
    as [s [H1 [_ [H3 _]]]]; [reflexivity | discriminate | discriminate |].
  exists s. split; [exact H1 |]. apply H3. reflexivity.
Defined.

Lemma time_series_get_a_trend_suggestion_on_sales :
  exists r s,
    result_of Analyzer.analyzeDataStructure (Sample.loaded Sample.sales) = Returned r
    /\ Analyzer.dataType r = Analyzer.timeseries
    /\ result_of Suggestions.generateExplorationSuggestions (Sample.loaded Sample.sales)
       = Returned s
    /\ In "Analyze Trends" (map Suggestions.label (Suggestions.suggestions s)).
Proof.
  apply (time_series_get_a_trend_suggestion (Sample.loaded Sample.sales) Sample.sales);
    [reflexivity | discriminate | | discriminate].
  exists "Month", "month". repeat split; [simpl; tauto | simpl; tauto |].
  exists EmptyString, EmptyString. reflexivity.
Defined.

(** ** Uploading *)

Section Uploading.
Context {casing : Casing}.

Lemma endsWith_spec (s p : string) :
  JSText.endsWith s p = true <-> exists stem, s = stem +:+ p.
Proof.
  induction s as [|c s IH]; cbn [JSText.endsWith].
  - rewrite orb_false_r, String.eqb_eq. split.
    + intros <-. exists EmptyString. reflexivity.
    + intros [stem H]. destruct stem; simpl in H; [exact H | discriminate].
  - rewrite orb_true_iff, String.eqb_eq, IH. split.
    + intros [<- | [stem ->]].
      * exists EmptyString. reflexivity.
      * exists (String c stem). reflexivity.
    + intros [stem H]. destruct stem as [|c' stem]; simpl in H.
      * left. exact H.
      * right. injection H as -> ->. exists stem. reflexivity.
Qed.

Section UploadFacts.
Context {P : Type}.
Variable onDataParsed : CSVDataStore -> P -> P.
Variable parse : Upload.File -> Upload.ParseResult.

(** X18. A refused file changes nothing but the error line: the owner is
    not called, the file name on display stays, and an error message is
    shown.  This covers a name that does not end in ".csv", a size above
    10 MB, a parser failure, a parse error and a file without rows. *)
Theorem refused_upload_only_sets_the_error (f : Upload.File) (others : list Upload.File)
    (st : Upload.State) (p : P) :
  Terms.refused parse f ->
  let after := Upload.handleFileSelect onDataParsed parse (Some (f :: others)) (st, p) in
  snd after = p
  /\ Upload.uploadedFile (fst after) = Upload.uploadedFile st
  /\ Upload.isDragging (fst after) = Upload.isDragging st
  /\ Upload.error (fst after) <> None.
Proof.
  intros Href. unfold Upload.handleFileSelect.
  destruct (JSText.endsWith (Upload.name f) ".csv") eqn:Ename; simpl negb; cbv iota.
  2: { simpl. repeat split. discriminate. }
  destruct (Upload.maxSize <? Upload.size f) eqn:Esize.
  { simpl. repeat split. discriminate. }
  apply Z.ltb_ge in Esize.
  destruct Href as [Hn | [Hs | [[m Hm] | [[e [es [data [fields Hc]]]] | [fields Hc]]]]].
  - exfalso. apply Hn. apply endsWith_spec. exact Ename.
  - lia.
  - unfold Upload.parseCSV. rewrite Hm. simpl. repeat split. discriminate.
  - unfold Upload.parseCSV. rewrite Hc. simpl. repeat split. discriminate.
  - unfold Upload.parseCSV. rewrite Hc. simpl. repeat split. discriminate.
Qed.

End UploadFacts.

Lemma logged_store {A} (prefix : string) (m : M A) (w : World) :
  tamboCSVData (world_after m w) = tamboCSVData w ->
  tamboCSVData (world_after (logged prefix m) w) = tamboCSVData w.
Proof.
  unfold world_after, logged. destruct (m w) as [[a | e] w']; simpl; trivial.
Qed.

(** None of the four operations changes the dataset slot. *)
Lemma operations_keep_the_store lc (w : World) :
  (forall p, tamboCSVData (world_after (Query.analyzeCSV lc p) w) = tamboCSVData w)
  /\ tamboCSVData (world_after Analyzer.analyzeDataStructure w) = tamboCSVData w
  /\ (forall p, tamboCSVData (world_after (Insights.generateDataInsights p) w)
                = tamboCSVData w)
  /\ tamboCSVData (world_after Suggestions.generateExplorationSuggestions w)
     = tamboCSVData w.
Proof.
  repeat split; intros;
    unfold Query.analyzeCSV, Analyzer.analyzeDataStructure,
      Insights.generateDataInsights, Suggestions.generateExplorationSuggestions;
    apply logged_store;
    unfold world_after, bind, getCSVData, throw, ret;
    destruct (tamboCSVData w) as [d|] eqn:Ed; simpl; try (exact Ed).
  - destruct (_ || _)%bool; simpl; exact Ed.
  - destruct (Nat.eqb (length (headers d)) 0); simpl; [exact Ed |].
    destruct (Nat.eqb (length (rows d)) 0); simpl; exact Ed.
  - destruct (_ || _)%bool; simpl; [exact Ed |].
    repeat (match goal with
            | |- context [if ?b then _ else _] => destruct b
            end; simpl; try (exact Ed)).
    all: unfold Insights.generateTopPerformers;
      destruct (Insights.string_or _ _) as [c|]; simpl; try (exact Ed);
      destruct (Array_includes (headers d) c); simpl; exact Ed.
  - destruct (_ || _)%bool; simpl; exact Ed.
Qed.

Section SessionFacts.
Variable parse : Upload.File -> Upload.ParseResult.
Variable lc : string -> string -> number.

Lemma handleFileSelect_accepted (f : Upload.File) (others : list Upload.File)
    (data : list row) (fields : option (list string)) (s : Session.State) :
  Terms.accepted parse f data fields ->
  Upload.handleFileSelect Page.handleCsvUploaded parse (Some (f :: others)) s
  = (Upload.setUploadedFile (Some (Upload.name f))
       (Upload.setIsProcessing false
          (Upload.setIsProcessing true (Upload.setError None (fst s)))),
     Page.handleCsvUploaded
       {| headers := default [] fields; rows := data; fileName := Upload.name f |}
       (snd s)).
Proof.
  intros [Hname [Hsize [Hparse Hdata]]].
  unfold Upload.handleFileSelect, Upload.parseCSV.
  apply endsWith_spec in Hname. rewrite Hname. cbn [negb].
  apply Z.leb_le in Hsize. rewrite Z.leb_antisym in Hsize.
  apply negb_true_iff in Hsize. rewrite Hsize, Hparse.
  rewrite (length_eqb_0 _ Hdata). reflexivity.
Qed.

(** X19. An accepted file becomes the stored dataset, whatever was
    stored before: its header fields (none if the parser gave none), its rows
    and its name.  The page shows it as uploaded with no error, and a plain
    query that follows returns exactly the parsed rows, rendered cell by
    cell. *)
Theorem accepted_upload_is_what_queries_read (f : Upload.File)
    (others : list Upload.File) (data : list row) (fields : list string)
    (s : Session.State) (q : string) :
  Terms.accepted parse f data (Some fields) -> fields <> [] ->
  let s' := Session.step parse lc s (Session.SelectFiles (Some (f :: others))) in
  Session.dataset s'
  = Some {| headers := fields; rows := data; fileName := Upload.name f |}
  /\ Page.csvUploaded (snd s') = true
  /\ Upload.uploadedFile (fst s') = Some (Upload.name f)
  /\ Upload.error (fst s') = None
  /\ exists res,
       result_of (Query.analyzeCSV lc (Spec.plain_query q)) (Page.world (snd s'))
       = Returned res
       /\ Query.headers res = fields
       /\ Query.rows res = map (fun r => map (Spec.render_cell r) fields) data
       /\ Query.totalRows res = length data.
Proof.
  intros Hacc Hfields. cbn zeta. unfold Session.step.
  rewrite (handleFileSelect_accepted f others data (Some fields) s Hacc).
  cbn [fst snd default]. repeat split.
  set (d := {| headers := fields; rows := data; fileName := Upload.name f |}).
  unfold result_of.
  rewrite (analyzeCSV_loaded lc _ _ d); [| reflexivity | exact Hfields |
    destruct Hacc as [_ [_ [_ Hd]]]; exact Hd].
  eexists. split; [reflexivity |]. simpl. repeat split.
  apply map_ext. intros r. apply rowArray_render.
Qed.

Lemma handleFileSelect_consistent (files : option (list Upload.File))
    (s : Session.State) :
  Terms.consistent s ->
  Terms.consistent (Upload.handleFileSelect Page.handleCsvUploaded parse files s).
Proof.
  intros Hs. destruct s as [u p].
  pose proof Hs as [Hflag [Hdata Hproc]]. cbn [fst snd] in Hflag, Hdata, Hproc.
  unfold Upload.handleFileSelect.
  destruct files as [[|f others]|]; cbv iota; try exact Hs.
  destruct (negb _); [exact Hs |].
  destruct (_ <? _); [exact Hs |].
  unfold Upload.parseCSV. cbn [fst snd].
  destruct (parse f) as [errors data fields | message];
    [| split; [exact Hflag | split; [exact Hdata | reflexivity]]].
  destruct errors as [|e es];
    [| split; [exact Hflag | split; [exact Hdata | reflexivity]]].
  destruct (Nat.eqb (length data) 0) eqn:El;
    [split; [exact Hflag | split; [exact Hdata | reflexivity]] |].
  unfold Terms.consistent. cbn.
  split; [split; [discriminate | reflexivity] |].
  split; [| reflexivity].
  intros d [= <-]. cbn. split; [| reflexivity].
  intros ->. discriminate.
Qed.

Lemma step_consistent (s : Session.State) (e : Session.Event) :
  Terms.consistent s -> Terms.consistent (Session.step parse lc s e).
Proof.
  intros Hs. destruct e; cbn [Session.step].
  - apply handleFileSelect_consistent. exact Hs.
  - exact Hs.
  - exact Hs.
  - apply handleFileSelect_consistent. exact Hs.
  - split; [| split].
    + cbn. split; [discriminate | intros H; contradiction H; reflexivity].
    + cbn. discriminate.
    + apply Hs.
  - split; [| split].
    + cbn. split; [discriminate | intros H; contradiction H; reflexivity].
    + cbn. discriminate.
    + apply Hs.
  - unfold Terms.consistent, Session.onWorld. cbn [fst snd Page.world Page.csvUploaded].
    rewrite (proj1 (operations_keep_the_store lc _)). exact Hs.
  - unfold Terms.consistent, Session.onWorld. cbn [fst snd Page.world Page.csvUploaded].
    rewrite (proj1 (proj2 (operations_keep_the_store lc _))). exact Hs.
  - unfold Terms.consistent, Session.onWorld. cbn [fst snd Page.world Page.csvUploaded].
    rewrite (proj1 (proj2 (proj2 (operations_keep_the_store lc _)))). exact Hs.
  - unfold Terms.consistent, Session.onWorld. cbn [fst snd Page.world Page.csvUploaded].
    rewrite (proj2 (proj2 (proj2 (operations_keep_the_store lc _)))). exact Hs.
Qed.

(** X20. Whatever the user and the tools do in a session, in any order,
    the page's uploaded flag tells whether the store holds a dataset, a stored
    dataset has at least one row and is the file the upload component
    displays, and the component is not left processing. *)
Theorem sessions_stay_consistent (events : list Session.Event) :
  let s := Session.run parse lc events in
  (Page.csvUploaded (snd s) = true <-> Session.dataset s <> None)
  /\ (forall d, Session.dataset s = Some d ->
        rows d <> [] /\ Upload.uploadedFile (fst s) = Some (fileName d))
  /\ Upload.isProcessing (fst s) = false.
Proof.
  cbn zeta. change (Terms.consistent (Session.run parse lc events)).
  unfold Session.run.
  assert (H0 : Terms.consistent Session.initial).
  { repeat split; cbn; try discriminate. intros H. contradiction H. reflexivity. }
  revert H0. generalize Session.initial.
  induction events as [|e events IH]; intros s Hs; [exact Hs |].
  cbn [fold_left]. apply IH. apply step_consistent. exact Hs.
Qed.

End SessionFacts.

End Uploading.

Lemma refused_upload_only_sets_the_error_on_notes :
  let after := Upload.handleFileSelect Page.handleCsvUploaded Fixtures.parser
                 (Some [Fixtures.notes_file]) Session.initial in
  snd after = Page.initial
  /\ Upload.uploadedFile (fst after) = None
  /\ Upload.isDragging (fst after) = false
  /\ Upload.error (fst after) <> None.
Proof.
  apply (refused_upload_only_sets_the_error Page.handleCsvUploaded Fixtures.parser
           Fixtures.notes_file [] Upload.initial Page.initial).
  left. intros H. apply endsWith_spec in H. discriminate H.
Defined.

Lemma accepted_upload_is_what_queries_read_on_sales :
  exists res,
    result_of (Query.analyzeCSV Sample.codeUnitCompare (Spec.plain_query "all rows"))
      (Page.world (snd (Session.step Fixtures.parser Sample.codeUnitCompare
                          (Session.initial)
                          (Session.SelectFiles (Some [Fixtures.sales_file])))))
    = Returned res
    /\ Query.headers res = ["Month"; "Revenue"; "Region"]
    /\ Query.rows res = [["Jan"; "100"; "East"]; ["Feb"; "150"; "West"]]
    /\ Query.totalRows res = 2%nat.
Proof.
  apply (accepted_upload_is_what_queries_read Fixtures.parser Sample.codeUnitCompare
           Fixtures.sales_file [] (rows Sample.sales) (headers Sample.sales)
           Session.initial "all rows").
  - repeat split; [exists "sales"; reflexivity | discriminate | discriminate].
  - discriminate.
Defined.

(** ** Refinement heuristics *)

Section RefinementHeuristics.
Context {casing : Casing}.

Lemma append_cons (x : ascii) (a b : string) : String x a +:+ b = String x (a +:+ b).
Proof. reflexivity. Qed.

Lemma append_assoc (a b c : string) : (a +:+ b) +:+ c = a +:+ b +:+ c.
Proof.
  induction a as [|x a IH]; [reflexivity |].
  rewrite ?append_cons. simpl. rewrite IH. reflexivity.
Qed.

Lemma append_length (a b : string) :
  String.length (a +:+ b) = (String.length a + String.length b)%nat.
Proof.
  induction a as [|x a IH]; [reflexivity |].
  rewrite ?append_cons. simpl. rewrite IH. reflexivity.
Qed.

Lemma append_empty_r (a : string) : a +:+ EmptyString = a.
Proof.
  induction a as [|x a IH]; [reflexivity |].
  rewrite ?append_cons. simpl. rewrite IH. reflexivity.
Qed.

Lemma includes_trans (s p q : string) :
  includes s p = true -> includes p q = true -> includes s q = true.
Proof.
  rewrite !includes_spec. intros [a [b ->]] [c [d ->]].
  exists (a +:+ c), (d +:+ b). rewrite !append_assoc. reflexivity.
Qed.

Lemma mentions_spec (m : string) (ws : list string) :
  existsb (includes (toLowerCase m)) ws = true <-> Terms.mentions m ws.
Proof.
  rewrite existsb_exists. unfold Terms.mentions, Spec.contains_ignoring_case.
  split; intros [kw [Hin H]]; exists kw; (split; [exact Hin |]);
    apply includes_spec; exact H.
Qed.

(** X21. A message is taken for a refinement exactly when, ignoring its
    case, it contains one of sixteen keywords; the seventeenth keyword of the
    code, "show only", never decides. *)
Theorem refinement_requests_by_keyword (message : string) :
  Refinement.isRefinementRequest message = true
  <-> Terms.mentions message Terms.effective_keywords.
Proof.
  rewrite <- mentions_spec. unfold Refinement.isRefinementRequest.
  rewrite !existsb_exists. split; intros [kw [Hin H]].
  - destruct (String.eqb kw "show only") eqn:E.
    + apply String.eqb_eq in E. subst kw. exists "show". split.
      * unfold Terms.effective_keywords. simpl. tauto.
      * apply (includes_trans _ _ _ H). reflexivity.
    + exists kw. split; [| exact H].
      apply String.eqb_neq in E.
      unfold Refinement.refinementKeywords in Hin. unfold Terms.effective_keywords.
      simpl in Hin |- *. intuition congruence.
  - exists kw. split; [| exact H].
    unfold Refinement.refinementKeywords. unfold Terms.effective_keywords in Hin.
    simpl in Hin |- *. intuition.
Qed.

(** X22. The context builder only ever appends to the base context, and
    it returns the base context unchanged exactly when no component is active
    or the message is not taken for a refinement. *)
Theorem refinement_context_extends_the_base (baseContext : string)
    (activeComponent : option Refinement.ComponentStateSnapshot) (userMessage : string) :
  (exists extra,
     Refinement.buildRefinementContext baseContext activeComponent userMessage
     = baseContext +:+ extra)
  /\ (Refinement.buildRefinementContext baseContext activeComponent userMessage
      = baseContext
      <-> activeComponent = None
          \/ Refinement.isRefinementRequest userMessage = false).
Proof.
  unfold Refinement.buildRefinementContext.
  destruct activeComponent as [c|].
  2: { split; [exists EmptyString; symmetry; apply append_empty_r |].
       split; [left; reflexivity | reflexivity]. }
  destruct (Refinement.isRefinementRequest userMessage); cbn [negb].
  - split; [eexists; reflexivity |]. split.
    + intros H. apply (f_equal String.length) in H.
      rewrite append_length in H. simpl in H. lia.
    + intros [H | H]; discriminate.
  - split; [exists EmptyString; symmetry; apply append_empty_r |].
    split; [right; reflexivity | reflexivity].
Qed.

Lemma or5_spec (m : string) (a b c d e : string) :
  (includes (toLowerCase m) a || includes (toLowerCase m) b
   || includes (toLowerCase m) c || includes (toLowerCase m) d
   || includes (toLowerCase m) e)%bool
  = existsb (includes (toLowerCase m)) [a; b; c; d; e].
Proof. simpl. repeat destruct (includes _ _); reflexivity. Qed.

Lemma or3_spec (m : string) (a b c : string) :
  (includes (toLowerCase m) a || includes (toLowerCase m) b
   || includes (toLowerCase m) c)%bool
  = existsb (includes (toLowerCase m)) [a; b; c].
Proof. simpl. repeat destruct (includes _ _); reflexivity. Qed.

Lemma detect_cases (m : string) :
  Refinement.detectComponentReferenceInMessage m
  = if existsb (includes (toLowerCase m)) Terms.graph_words then Some "Graph"
    else if existsb (includes (toLowerCase m)) Terms.table_words then Some "DataTable"
    else if existsb (includes (toLowerCase m)) Terms.stock_words then Some "StockCard"
    else None.
Proof.
  unfold Refinement.detectComponentReferenceInMessage.
  rewrite or5_spec, !or3_spec. reflexivity.
Qed.

(** X23. Which component a message refers to is decided by word lists in
    a fixed order: a chart word wins over a table word, a table word over a
    stock word, and a message with none of the eleven words refers to no
    component.  A word counts when the lower-cased message contains it. *)
Theorem chart_words_take_precedence (message : string) :
  (Refinement.detectComponentReferenceInMessage message = Some "Graph"
   <-> Terms.mentions message Terms.graph_words)
  /\ (Refinement.detectComponentReferenceInMessage message = Some "DataTable"
      <-> ~ Terms.mentions message Terms.graph_words
          /\ Terms.mentions message Terms.table_words)
  /\ (Refinement.detectComponentReferenceInMessage message = Some "StockCard"
      <-> ~ Terms.mentions message Terms.graph_words
          /\ ~ Terms.mentions message Terms.table_words
          /\ Terms.mentions message Terms.stock_words)
  /\ (Refinement.detectComponentReferenceInMessage message = None
      <-> ~ Terms.mentions message
              (Terms.graph_words ++ Terms.table_words ++ Terms.stock_words)).
Proof.
  assert (Hall : Terms.mentions message
                   (Terms.graph_words ++ Terms.table_words ++ Terms.stock_words)
                 <-> Terms.mentions message Terms.graph_words
                     \/ Terms.mentions message Terms.table_words
                     \/ Terms.mentions message Terms.stock_words).
  { unfold Terms.mentions. split.
    - intros [kw [Hin H]]. rewrite !in_app_iff in Hin.
      destruct Hin as [Hin | [Hin | Hin]]; [left | right; left | right; right];
        exists kw; split; assumption.
    - intros [[kw [Hin H]] | [[kw [Hin H]] | [kw [Hin H]]]]; exists kw;
        rewrite !in_app_iff; tauto. }
  rewrite Hall. clear Hall.
  rewrite <- !mentions_spec.
  split; [| split; [| split]].
  all: rewrite detect_cases;
    repeat (match goal with
            | |- context [existsb ?f ?l] => destruct (existsb f l)
            end);
    split; intros; try discriminate; try reflexivity; try tauto;
    intuition discriminate.
Qed.

End RefinementHeuristics.

(** ** The table: search, sort, pages, export *)

Section TableView.
Context {casing : Casing}.

Lemma firstn_min_length {A} (n : nat) (l : list A) :
  firstn (Nat.min n (length l)) l = firstn n l.
Proof.
  destruct (Nat.le_gt_cases n (length l)) as [H | H].
  - rewrite Nat.min_l by exact H. reflexivity.
  - rewrite Nat.min_r by lia. rewrite !firstn_all2 by lia. reflexivity.
Qed.

Lemma slice_nonneg {A} (l : list A) (a b : nat) :
  (a <= b)%nat ->
  JSText.slice l (Z.of_nat a) (Z.of_nat b) = firstn (b - a) (skipn a l).
Proof.
  intros Hab. unfold JSText.slice.
  destruct (Z.ltb_spec (Z.of_nat a) 0) as [H | _]; [lia |].
  destruct (Z.ltb_spec (Z.of_nat b) 0) as [H | _]; [lia |].
  destruct (Nat.le_gt_cases a (length l)) as [Hal | Hal].
  - replace (Z.to_nat (Z.min (Z.of_nat a) (Z.of_nat (length l)))) with a by lia.
    replace (Z.to_nat (Z.max (Z.min (Z.of_nat b) (Z.of_nat (length l))
                              - Z.min (Z.of_nat a) (Z.of_nat (length l))) 0))
      with (Nat.min (b - a) (length (skipn a l)))
      by (rewrite length_skipn; lia).
    apply firstn_min_length.
  - replace (Z.to_nat (Z.min (Z.of_nat a) (Z.of_nat (length l)))) with (length l) by lia.
    rewrite !skipn_all2 by lia. rewrite !firstn_nil. reflexivity.
Qed.

Lemma page_firstn_skipn (k : nat) (l : list (list string)) :
  Table.paginatedRows (Z.of_nat (S k)) l = firstn 10 (skipn (10 * k) l).
Proof.
  unfold Table.paginatedRows, Table.rowsPerPage.
  replace ((Z.of_nat (S k) - 1) * Z.of_nat 10) with (Z.of_nat (10 * k)) by lia.
  replace (Z.of_nat (S k) * Z.of_nat 10) with (Z.of_nat (10 * k + 10)) by lia.
  rewrite slice_nonneg by lia. f_equal. lia.
Qed.

Lemma chunks_concat {A} (n : nat) (l : list A) :
  (length l <= 10 * n)%nat ->
  concat (map (fun k => firstn 10 (skipn (10 * k) l)) (seq 0 n)) = l.
Proof.
  revert l. induction n as [|n IH]; intros l H.
  - destruct l; [reflexivity | simpl in H; lia].
  - cbn [seq map concat]. rewrite <- seq_shift, map_map.
    rewrite (map_ext _ (fun k => firstn 10 (skipn (10 * k) (skipn 10 l)))).
    + rewrite IH by (rewrite length_skipn; lia).
      change (skipn (10 * 0) l) with l. apply firstn_skipn.
    + intros k. rewrite skipn_skipn. f_equal. f_equal. lia.
Qed.

Lemma totalPages_bounds (l : list (list string)) :
  0 <= Table.totalPages l
  /\ Z.of_nat (length l) <= 10 * Table.totalPages l < Z.of_nat (length l) + 10.
Proof.
  unfold Table.totalPages, Table.rowsPerPage.
  change (Z.of_nat 10) with 10.
  pose proof (Z.div_mod (Z.of_nat (length l) + 10 - 1) 10 ltac:(lia)) as E.
  pose proof (Z.mod_pos_bound (Z.of_nat (length l) + 10 - 1) 10 ltac:(lia)) as B.
  split; [apply Z.div_pos; lia | lia].
Qed.

(** X24. The pages partition the rows: read from page one to the last
    they give back every row once, in order; every page before the last has
    exactly ten rows, the last page of a non-empty table has between one and
    ten, and any page after the last is empty.  The Previous and Next buttons
    never leave the range of pages. *)
Theorem pages_partition_the_rows (sortedRows : list (list string)) :
  concat (Terms.pages sortedRows) = sortedRows
  /\ (forall p, 1 <= p < Table.totalPages sortedRows ->
        length (Table.paginatedRows p sortedRows) = 10%nat)
  /\ (sortedRows <> [] ->
        (1 <= length (Table.paginatedRows (Table.totalPages sortedRows) sortedRows)
         <= 10)%nat)
  /\ (forall p, Table.totalPages sortedRows < p ->
        Table.paginatedRows p sortedRows = [])
  /\ (forall p, 1 <= p <= Table.totalPages sortedRows ->
        1 <= Table.previousPage p <= Table.totalPages sortedRows
        /\ 1 <= Table.nextPage (Table.totalPages sortedRows) p
           <= Table.totalPages sortedRows).
Proof.
  pose proof (totalPages_bounds sortedRows) as [Hpos Hb].
  split; [| split; [| split; [| split]]].
  - unfold Terms.pages. rewrite <- seq_shift, map_map.
    rewrite (map_ext _ (fun k => firstn 10 (skipn (10 * k) sortedRows)))
      by (intros k; apply page_firstn_skipn).
    apply chunks_concat. lia.
  - intros p Hp. replace p with (Z.of_nat (S (Z.to_nat (p - 1)))) by lia.
    rewrite page_firstn_skipn, length_firstn, length_skipn. lia.
  - intros Hne.
    assert (0 < length sortedRows)%nat by (destruct sortedRows; [congruence | simpl; lia]).
    replace (Table.totalPages sortedRows)
      with (Z.of_nat (S (Z.to_nat (Table.totalPages sortedRows - 1)))) by lia.
    rewrite page_firstn_skipn, length_firstn, length_skipn. lia.
  - intros p Hp. replace p with (Z.of_nat (S (Z.to_nat (p - 1)))) by lia.
    rewrite page_firstn_skipn. rewrite skipn_all2 by lia. apply firstn_nil.
  - intros p Hp. unfold Table.previousPage, Table.nextPage. lia.
Qed.

Lemma filteredRows_filter (searchTerm : string) (safeRows : list (list string)) :
  searchTerm <> EmptyString ->
  Table.filteredRows searchTerm safeRows
  = List.filter
      (fun r => existsb (fun c => includes (toLowerCase c) (toLowerCase searchTerm)) r)
      safeRows.
Proof.
  intros Hne. unfold Table.filteredRows.
  apply String.eqb_neq in Hne. rewrite Hne. cbn [orb].
  destruct safeRows; reflexivity.
Qed.

(** X25. The search box keeps, in their order, exactly the rows with a
    cell whose lower-cased text contains the lower-cased term; an empty term
    keeps every row.  Two non-empty terms with the same lower-cased text
    keep the same rows. *)
Theorem search_ignores_case (searchTerm : string) (safeRows : list (list string)) :
  (forall other, other <> EmptyString -> searchTerm <> EmptyString ->
     toLowerCase other = toLowerCase searchTerm ->
     Table.filteredRows other safeRows = Table.filteredRows searchTerm safeRows)
  /\ (exists keep, Table.filteredRows searchTerm safeRows = List.filter keep safeRows)
  /\ (forall r, In r (Table.filteredRows searchTerm safeRows)
                <-> In r safeRows
                    /\ (searchTerm = EmptyString
                        \/ exists c, In c r
                             /\ Spec.contains_ignoring_case c (toLowerCase searchTerm))).
Proof.
  split; [| split].
  - intros other Hother Hterm Hlow.
    rewrite !filteredRows_filter by assumption. rewrite Hlow. reflexivity.
  - destruct (String.eqb_spec searchTerm EmptyString) as [-> | Hne].
    + exists (fun _ => true). unfold Table.filteredRows. cbn [String.eqb orb].
      induction safeRows as [|r l IH]; [reflexivity |]. simpl. f_equal. exact IH.
    + eexists. apply filteredRows_filter. exact Hne.
  - intros r. destruct (String.eqb_spec searchTerm EmptyString) as [-> | Hne].
    + unfold Table.filteredRows. cbn [String.eqb orb]. tauto.
    + rewrite filteredRows_filter by exact Hne. rewrite filter_In, existsb_exists.
      split.
      * intros [Hin [c [Hc H]]]. split; [exact Hin |]. right. exists c.
        split; [exact Hc |]. apply includes_spec. exact H.
      * intros [Hin [He | [c [Hc H]]]]; [contradiction |]. split; [exact Hin |].
        exists c. split; [exact Hc |]. apply includes_spec. exact H.
Qed.

(** X26. Sorting by a column only rearranges the rows on display, so the
    number of pages is the same before and after, and with no sort column
    the rows are left alone.  When the comparator of the column is a
    consistent comparison function for the rows, neighbours in the sorted
    rows are in comparator order and sorting the sorted rows again changes
    nothing. *)
Theorem column_sort_rearranges lc (sortColumnIdx : option nat)
    (sortDirection : Table.Direction) (filteredRows : list (list string)) :
  let sorted := Table.sortedRows lc sortColumnIdx sortDirection filteredRows in
  Permutation sorted filteredRows
  /\ Table.totalPages sorted = Table.totalPages filteredRows
  /\ Table.sortedRows lc None sortDirection filteredRows = filteredRows
  /\ (forall idx, sortColumnIdx = Some idx ->
        consistent_comparator (Table.compareCells lc idx sortDirection) filteredRows ->
        Sorted (in_order (Table.compareCells lc idx sortDirection)) sorted
        /\ Table.sortedRows lc sortColumnIdx sortDirection sorted = sorted).
Proof.
  intros sorted.
  assert (Hperm : Permutation sorted filteredRows).
  { unfold sorted, Table.sortedRows. destruct sortColumnIdx as [idx|]; [| reflexivity].
    destruct (Nat.eqb _ 0); [reflexivity | apply sort_Permutation]. }
  split; [exact Hperm |]. split.
  { unfold Table.totalPages. rewrite (Permutation_length Hperm). reflexivity. }
  split; [reflexivity |].
  intros idx -> Hc.
  assert (Hs : Sorted (in_order (Table.compareCells lc idx sortDirection)) sorted).
  { unfold sorted, Table.sortedRows.
    destruct filteredRows as [|r l]; [constructor |]. cbn [length Nat.eqb].
    apply sort_consistent_Sorted. exact Hc. }
  split; [exact Hs |].
  unfold Table.sortedRows at 1.
  destruct (Nat.eqb (length sorted) 0); [reflexivity |].
  apply sort_of_Sorted. exact Hs.
Qed.

End TableView.

Lemma column_sort_rearranges_on_cities :
  Table.sortedRows Sample.codeUnitCompare (Some 2%nat) Table.asc Fixtures.cities
  = [["OSAKA"; "Japan"; "3"]; ["Oslo"; "Norway"; "7"]; ["Lyon"; "France"; "12"]]
  /\ Table.sortedRows Sample.codeUnitCompare (Some 2%nat) Table.asc
       (Table.sortedRows Sample.codeUnitCompare (Some 2%nat) Table.asc Fixtures.cities)
     = Table.sortedRows Sample.codeUnitCompare (Some 2%nat) Table.asc Fixtures.cities.
Proof.
  split; [vm_compute; reflexivity |].
  destruct (column_sort_rearranges Sample.codeUnitCompare (Some 2%nat) Table.asc
              Fixtures.cities) as [_ [_ [_ Hsorted]]].
  apply (Hsorted 2%nat eq_refl).
  apply consistent_comparatorb_sound. vm_compute. reflexivity.
Defined.

(** ** Export *)

Lemma skipn_cons_nth {A} (d : A) (i : nat) (r : list A) (x : A) (l : list A) :
  skipn i r = x :: l -> nth i r d = x /\ skipn (S i) r = l.
Proof.
  revert r. induction i as [|i IH]; intros r H.
  - destruct r; simpl in H; [discriminate |]. injection H as -> ->. split; reflexivity.
  - destruct r as [|y r]; simpl in H; [discriminate |]. apply IH. exact H.
Qed.

Lemma exportLine_from (visibleColumns : gset nat) (r : list string) (i : nat)
    (l : list string) :
  skipn i r = l ->
  map snd
    (List.filter (fun ic : nat * string => bool_decide (fst ic ∈ visibleColumns))
       (map_indexed_from
          (fun i _ => (i, if bool_decide (i ∈ visibleColumns)
                          then (if String.eqb (Table.cell r i) EmptyString
                                then EmptyString else Table.cell r i)
                          else EmptyString))
          i l))
  = Terms.visible_from visibleColumns i l.
Proof.
  revert i. induction l as [|x l IH]; intros i H; [reflexivity |].
  destruct (skipn_cons_nth EmptyString i r x l H) as [Hx Hl].
  cbn [map_indexed_from List.filter fst Terms.visible_from].
  destruct (bool_decide (i ∈ visibleColumns)).
  - cbn [map snd]. rewrite (IH (S i) Hl). f_equal.
    unfold Table.cell. rewrite Hx.
    destruct (String.eqb_spec x EmptyString) as [-> | _]; reflexivity.
  - apply IH. exact Hl.
Qed.

Lemma exportLine_visible (visibleColumns : gset nat) (r : list string) :
  Table.exportLine visibleColumns r = join "," (Terms.visible_cells visibleColumns r).
Proof.
  unfold Table.exportLine, map_indexed, Terms.visible_cells.
  rewrite (exportLine_from visibleColumns r 0 r eq_refl). reflexivity.
Qed.

Lemma exportHeader_from (visibleColumns : gset nat) (i : nat) (l : list string) :
  (forall h, In h l -> h <> EmptyString) ->
  List.filter (fun h => negb (String.eqb h EmptyString))
    (map_indexed_from
       (fun i h => if bool_decide (i ∈ visibleColumns) then h else EmptyString) i l)
  = Terms.visible_from visibleColumns i l.
Proof.
  revert i. induction l as [|x l IH]; intros i H; [reflexivity |].
  cbn [map_indexed_from List.filter Terms.visible_from].
  rewrite (IH (S i)) by (intros h Hh; apply H; right; exact Hh).
  destruct (bool_decide (i ∈ visibleColumns)); [| reflexivity].
  assert (Hx : x <> EmptyString) by (apply H; left; reflexivity).
  apply String.eqb_neq in Hx. rewrite Hx. reflexivity.
Qed.

Lemma visible_from_all (visibleColumns : gset nat) (i : nat) (l : list string) :
  (forall j, (i <= j < i + length l)%nat -> j ∈ visibleColumns) ->
  Terms.visible_from visibleColumns i l = l.
Proof.
  revert i. induction l as [|x l IH]; intros i H; [reflexivity |].
  cbn [Terms.visible_from]. cbn [length] in H.
  rewrite bool_decide_eq_true_2 by (apply H; lia).
  f_equal. apply IH. intros j Hj. apply H. lia.
Qed.

(** X27. When no column has an empty name, the exported text is one
    header line and one line for each row it is given, joined by line feeds;
    each line lists the cells of the visible columns, in column order, joined
    by commas.  Hidden columns are left out of the header and of every
    line. *)
Theorem export_writes_visible_columns (visibleColumns : gset nat)
    (safeHeaders : list string) (sortedRows : list (list string)) :
  (forall h, In h safeHeaders -> h <> EmptyString) ->
  Table.csvContent visibleColumns safeHeaders sortedRows
  = join "
" (join "," (Terms.visible_cells visibleColumns safeHeaders)
   :: map (fun r => join "," (Terms.visible_cells visibleColumns r)) sortedRows).
Proof.
  intros Hnames. unfold Table.csvContent. f_equal. f_equal.
  - unfold Table.exportHeader, map_indexed, Terms.visible_cells.
    rewrite exportHeader_from by exact Hnames. reflexivity.
  - apply map_ext. intros r. apply exportLine_visible.
Qed.

(** X28. The export does not quote or escape: with every column visible
    a row is written as its cells joined by commas, so a cell that contains a
    comma is written exactly like two cells. *)
Theorem export_does_not_quote (visibleColumns : gset nat) (n : nat) :
  Terms.all_visible visibleColumns n ->
  (forall r, (length r <= n)%nat -> Table.exportLine visibleColumns r = join "," r)
  /\ (forall x y rest, (2 + length rest <= n)%nat ->
        Table.exportLine visibleColumns ((x +:+ "," +:+ y) :: rest)
        = Table.exportLine visibleColumns (x :: y :: rest)).
Proof.
  intros Hall.
  assert (Hline : forall r, (length r <= n)%nat ->
                            Table.exportLine visibleColumns r = join "," r).
  { intros r Hr. rewrite exportLine_visible. unfold Terms.visible_cells.
    rewrite visible_from_all; [reflexivity |]. intros j Hj. apply Hall. lia. }
  split; [exact Hline |].
  intros x y rest Hn.
  rewrite !Hline by (cbn [length]; lia).
  destruct rest as [|z rest]; cbn [join].
  - reflexivity.
  - rewrite !append_assoc. reflexivity.
Qed.

Lemma export_writes_visible_columns_on_cities :
  Table.csvContent Fixtures.city_and_rank Fixtures.city_headers Fixtures.cities
  = join "
" (join "," (Terms.visible_cells Fixtures.city_and_rank Fixtures.city_headers)
   :: map (fun r => join "," (Terms.visible_cells Fixtures.city_and_rank r))
        Fixtures.cities).
Proof.
  apply (export_writes_visible_columns Fixtures.city_and_rank Fixtures.city_headers
           Fixtures.cities).
  intros h Hin. simpl in Hin.
  destruct Hin as [<- | [<- | [<- | []]]]; discriminate.
Defined.

Lemma export_does_not_quote_on_three_columns :
  Table.exportLine Fixtures.three_columns ["Oslo, Norway"; "7"]
  = Table.exportLine Fixtures.three_columns ["Oslo"; " Norway"; "7"].
Proof.
  apply (export_does_not_quote Fixtures.three_columns 3 ltac:(
           intros i Hi; unfold Fixtures.three_columns;
           destruct i as [|[|[|i]]]; [set_solver | set_solver | set_solver | lia])
         ) with (x := "Oslo") (y := " Norway") (rest := ["7"]).
  simpl. lia.
Defined.

(** ** The context helper and clearing *)

Section ContextAndClearing.
Context {casing : Casing}.

(** X29. The [availableData] helper only reads the store and always
    returns a text that starts with the fixed catalogue and ends with the
    refinement note.  The text announces an uploaded CSV file exactly when a
    dataset is stored, and then names the file, its number of rows and its
    columns. *)
Theorem available_data_announces_the_upload (w : World) :
  world_after Page.availableData w = w
  /\ exists text middle,
       result_of Page.availableData w = Returned text
       /\ text = Page.baseData +:+ middle +:+ Page.refinementNote
       /\ (includes text "CSV FILE UPLOADED" = true <-> tamboCSVData w <> None)
       /\ (forall d, tamboCSVData w = Some d ->
             includes middle (JSText.quote +:+ fileName d +:+ JSText.quote) = true
             /\ includes middle (" with " +:+ of_length (length (rows d)) +:+ " rows")
                = true
             /\ includes middle ("columns: " +:+ join ", " (headers d) +:+ ".") = true).
Proof.
  split; [reflexivity |].
  unfold result_of, Page.availableData, bind, getCSVData, ret. cbn [fst].
  destruct (tamboCSVData w) as [d|].
  - eexists. eexists. split; [reflexivity |]. split; [reflexivity |]. split.
    + split; [discriminate | intros _].
      apply includes_spec. exists Page.baseData. eexists. f_equal.
    + intros d' [= <-]. repeat split; apply includes_spec.
      * exists "CSV FILE UPLOADED: ". eexists. rewrite ?append_assoc. reflexivity.
      * exists ("CSV FILE UPLOADED: " +:+ JSText.quote +:+ fileName d +:+ JSText.quote).
        eexists. rewrite ?append_assoc. reflexivity.
      * exists ("CSV FILE UPLOADED: " +:+ JSText.quote +:+ fileName d +:+ JSText.quote
                +:+ " with " +:+ of_length (length (rows d)) +:+ " rows and ").
        eexists. rewrite ?append_assoc. reflexivity.
  - exists (Page.baseData +:+ EmptyString +:+ Page.refinementNote), EmptyString.
    split; [reflexivity |]. split; [reflexivity |]. split.
    + split; [vm_compute; discriminate | intros H; contradiction H; reflexivity].
    + discriminate.
Qed.

Section Clearing.
Variable parse : Upload.File -> Upload.ParseResult.
Variable lc : string -> string -> number.

(** X30. Removing the file empties the store, the uploaded flag, the
    file name on display and the error line.  A new chat empties the store
    and the flag too, but leaves the upload component as it is, so a file it
    displayed stays on display.  After either, a query is rejected as not
    loaded. *)
Theorem clearing_forgets_the_dataset (s : Session.State) :
  let cleared := Session.step parse lc s Session.ClearFile in
  let fresh := Session.step parse lc s Session.NewChat in
  (Session.dataset cleared = None
   /\ Page.csvUploaded (snd cleared) = false
   /\ Upload.uploadedFile (fst cleared) = None
   /\ Upload.error (fst cleared) = None)
  /\ (Session.dataset fresh = None
      /\ Page.csvUploaded (snd fresh) = false
      /\ fst fresh = fst s)
  /\ (forall p,
        result_of (Query.analyzeCSV lc p) (Page.world (snd cleared))
        = Thrown "No CSV data uploaded. Please upload a CSV file first."
        /\ result_of (Query.analyzeCSV lc p) (Page.world (snd fresh))
           = Thrown "No CSV data uploaded. Please upload a CSV file first.").
Proof.
  cbn zeta. repeat split.
Qed.

End Clearing.

End ContextAndClearing.
